(** * Domain audit trail: snapshot codec, change summary, failover differ

    A shallow embedding of the audit pipeline of the domain handler:

    - [audit.ComputeChangeSummary] and [audit.compareClusterAttributes]
      (common/domain/audit/comparison.go), the write-time summary;
    - [audit.ComputeClusterFailovers] and
      [audit.computeClusterAttributeChanges] (same file), the read-time
      differ;
    - [audit.SerializeAndCompress] and [audit.DecompressAndDeserialize]
      (common/domain/audit/compression.go), the snapshot codec;
    - [api.shouldIncludeEvent], [api.matchesAttributeFilter] and
      [api.GetFailoverEvent] (the frontend handler).

    Go values are modelled as follows: a pointer that may be nil is an
    [option]; a map is a [gmap] over [string] keys and a map that may be nil
    is an [option] of it; a slice is a [list]; [int64] and [int32] are [Z]
    (no arithmetic is performed on them here); a function returning
    [(T, error)] returns a [result]. *)

From stdpp Require Import gmap strings list fin_maps sorting pretty.
From Stdlib Require Import ZArith Ascii.

Open Scope string_scope.
Open Scope list_scope.

(** ** Results of fallible functions *)

Inductive result (E A : Type) : Type :=
| Ok (a : A)
| Err (e : E).
Arguments Ok {E A} a.
Arguments Err {E A} e.

(** Modelled from the spec: the error values are declared outside the source
    files. Those that reach the functions modelled here are the errors
    returned by a library or by the storage layer (opaque but for their
    message), and the three the frontend handler builds itself:
    [validate.ErrShuttingDown], [types.BadRequestError] and
    [types.InternalServiceError], the internal failure of the specification. *)
Inductive error : Type :=
| LibraryError (msg : string)
| ErrShuttingDown
| BadRequestError (Message : string)
| InternalServiceError (Message : string).

Definition is_Ok {E A} (r : result E A) : Prop :=
  match r with Ok _ => True | Err _ => False end.

Definition is_Err {E A} (r : result E A) : Prop :=
  match r with Ok _ => False | Err _ => True end.

(** ** Iterating over a Go map

    The order in which [for k, v := range m] visits the entries of a map is
    unspecified. A [RangeOrder] is any way of listing the entries of every
    map once each; the functions below are parametrised by one, and what is
    proved about them holds for all of them. *)

Record RangeOrder : Type := {
  range : ∀ {V : Type}, gmap string V → list (string * V);
  range_perm : ∀ (V : Type) (m : gmap string V), range m ≡ₚ map_to_list m
}.

(** The order of stdpp's [map_to_list], for running the code on inputs. *)
Definition canonicalOrder : RangeOrder :=
  {| range := λ V, map_to_list;
     range_perm := λ V m, reflexivity (map_to_list m) |}.

(** The comma-ok form of a map read, [v, ok := m[k]]: a missing key gives the
    zero value and [false]. *)
Definition comma_ok {A : Type} (zero : A) (o : option A) : A * bool :=
  match o with
  | Some v => (v, true)
  | None => (zero, false)
  end.

(** ** Package types

    The declarations of this package are not among the source files. Each
    record below has the fields that the source files read or set, under the
    names they use there, and that the data model of the specification lists. *)

Module types.

(** Modelled from the spec: the declaration of [ActiveClusterInfo] is missing;
    it is the pair of a cluster name and a failover version of the data
    model, with the field names comparison.go uses. *)
Record ActiveClusterInfo : Type := {
  ActiveClusterName : string;
  FailoverVersion : Z
}.

(** Modelled from the spec: the declaration of [ClusterAttributeScope] is
    missing; it holds the mapping from attribute names to [ActiveClusterInfo]
    of one scope, a map that may be nil. *)
Record ClusterAttributeScope : Type := {
  ClusterAttributes : option (gmap string ActiveClusterInfo)
}.

(** Modelled from the spec: the declaration of [ActiveClusters] is missing; it
    holds the mapping from scope names to scopes, a map that may be nil. *)
Record ActiveClusters : Type := {
  AttributeScopes : option (gmap string ClusterAttributeScope)
}.

(** Modelled from the spec: the declaration of [ClusterAttribute] is missing;
    it is the pair of a scope and a name. *)
Record ClusterAttribute : Type := {
  Scope : string;
  Name : string
}.

(** Modelled from the spec: the declaration of [ClusterFailover] is missing;
    it is the failover record of the data model, its four fields pointers as
    comparison.go sets them. The field holding the optional attribute is
    [ClusterAttribute] in the source; it is primed here because the record
    type has that name. *)
Record ClusterFailover : Type := {
  FromCluster : option ActiveClusterInfo;
  ToCluster : option ActiveClusterInfo;
  ClusterAttribute' : option ClusterAttribute;
  IsDefaultCluster : option bool
}.

(** Modelled from the spec: the declaration of
    [ListFailoverHistoryRequestFilters] is missing; it has the three filters
    the handler reads: the domain, the requested attributes and the
    default-cluster-only flag. *)
Record ListFailoverHistoryRequestFilters : Type := {
  DomainID : option string;
  Attributes : list (option ClusterAttribute);
  DefaultActiveCluster : option bool
}.

Definition zeroActiveClusterInfo : ActiveClusterInfo :=
  {| ActiveClusterName := ""; FailoverVersion := 0 |}.

Definition zeroClusterAttributeScope : ClusterAttributeScope :=
  {| ClusterAttributes := None |}.

#[global] Instance ActiveClusterInfo_eq_dec : EqDecision ActiveClusterInfo.
Proof. solve_decision. Defined.

#[global] Instance ClusterAttributeScope_eq_dec : EqDecision ClusterAttributeScope.
Proof. solve_decision. Defined.

#[global] Instance ActiveClusters_eq_dec : EqDecision ActiveClusters.
Proof. solve_decision. Defined.

#[global] Instance ClusterAttribute_eq_dec : EqDecision ClusterAttribute.
Proof. solve_decision. Defined.

#[global] Instance ClusterFailover_eq_dec : EqDecision ClusterFailover.
Proof. solve_decision. Defined.

End types.

(** ** Package persistence

    The declarations of this package are not among the source files either;
    the snapshot has the parts the data model of the specification lists
    (identity, retention, replication configuration), with the fields the
    source files and their tests use. *)

Module persistence.

(** Modelled from the spec: the declaration of [DomainInfo] is missing; it is
    the identity (id, name) of the snapshot. *)
Record DomainInfo : Type := {
  ID : string;
  Name : string
}.

(** Modelled from the spec: the declaration of [DomainConfig] is missing; it
    holds the retention policy, an [int32] in the tests. *)
Record DomainConfig : Type := {
  Retention : Z
}.

(** Modelled from the spec: the declaration of [ClusterReplicationConfig] is
    missing; the tests set its cluster name. *)
Record ClusterReplicationConfig : Type := {
  ClusterName : string
}.

(** Modelled from the spec: the declaration of [DomainReplicationConfig] is
    missing; it is the replication configuration of the data model: the
    default active-cluster name and the optional attribute mapping, with the
    slice of clusters the tests set. *)
Record DomainReplicationConfig : Type := {
  Clusters : list (option ClusterReplicationConfig);
  ActiveClusterName : string;
  ActiveClusters : option types.ActiveClusters
}.

(** Modelled from the spec: the declaration of [GetDomainResponse] is missing;
    it is the configuration snapshot of the data model, its three parts
    pointers that may be nil. *)
Record GetDomainResponse : Type := {
  Info : option DomainInfo;
  Config : option DomainConfig;
  ReplicationConfig : option DomainReplicationConfig
}.

(** What [var domain GetDomainResponse] holds before anything is stored. *)
Definition zeroGetDomainResponse : GetDomainResponse :=
  {| Info := None; Config := None; ReplicationConfig := None |}.

(** Modelled from the spec: the declaration of [DomainAuditLogEntry] is
    missing; of the persisted entry of the data model it has the event id,
    the two compressed snapshots and the serialized summary (the comment). *)
Record DomainAuditLogEntry : Type := {
  EventID : string;
  StateBefore : list Byte.byte;
  StateAfter : list Byte.byte;
  Comment : string
}.

(** Modelled from the spec: the declaration of
    [GetDomainAuditLogEntryResponse] is missing; the handler reads its entry,
    which may be nil. *)
Record GetDomainAuditLogEntryResponse : Type := {
  Entry : option DomainAuditLogEntry
}.

#[global] Instance DomainInfo_eq_dec : EqDecision DomainInfo.
Proof. solve_decision. Defined.

#[global] Instance DomainConfig_eq_dec : EqDecision DomainConfig.
Proof. solve_decision. Defined.

#[global] Instance ClusterReplicationConfig_eq_dec : EqDecision ClusterReplicationConfig.
Proof. solve_decision. Defined.

#[global] Instance DomainReplicationConfig_eq_dec : EqDecision DomainReplicationConfig.
Proof. solve_decision. Defined.

#[global] Instance GetDomainResponse_eq_dec : EqDecision GetDomainResponse.
Proof. solve_decision. Defined.

End persistence.


(** ** Package audit: comparison.go *)

Module audit.

Record ClusterAttributeRef : Type := {
  Scope : string;
  Name : string
}.

(** [ClusterAttributesChanged] is a slice of pointers: a summary read back
    from its JSON text may hold nil entries, one computed here never does. *)
Record ChangeSummary : Type := {
  ChangedFields : list string;
  DefaultClusterChanged : bool;
  ClusterAttributesChanged : list (option ClusterAttributeRef)
}.

#[global] Instance ClusterAttributeRef_eq_dec : EqDecision ClusterAttributeRef.
Proof. solve_decision. Defined.

#[global] Instance ChangeSummary_eq_dec : EqDecision ChangeSummary.
Proof. solve_decision. Defined.

Section WithRangeOrder.

Context (ro : RangeOrder).

(** compareClusterAttributes identifies which cluster attributes changed
    between two states. *)
Definition compareClusterAttributes
    (before after : option types.ActiveClusters) : list (option ClusterAttributeRef) :=
  let changed : list (option ClusterAttributeRef) := [] in
  match before, after with
  | Some before, Some after =>
    match types.AttributeScopes before, types.AttributeScopes after with
    | Some beforeScopes, Some afterScopes =>
      foldl (λ (changed : list (option ClusterAttributeRef)) '(scope, afterScopeData),
        match beforeScopes !! scope with
        | None => changed
        | Some beforeScopeData =>
          match types.ClusterAttributes afterScopeData,
                types.ClusterAttributes beforeScopeData with
          | Some afterAttributes, Some beforeAttributes =>
            foldl (λ (changed : list (option ClusterAttributeRef)) '(name, afterInfo),
              match beforeAttributes !! name with
              | None => changed
              | Some beforeInfo =>
                if decide (types.ActiveClusterName beforeInfo
                           ≠ types.ActiveClusterName afterInfo)
                then changed ++ [Some {| Scope := scope; Name := name |}]
                else changed
              end) changed (range ro afterAttributes)
          | _, _ => changed
          end
        end) changed (range ro afterScopes)
    | _, _ => changed
    end
  | _, _ => changed
  end.

(** ComputeChangeSummary compares two domain states and returns a lightweight
    summary. *)
Definition ComputeChangeSummary
    (before after : persistence.GetDomainResponse) : result error ChangeSummary :=
  let summary :=
    {| ChangedFields := []; DefaultClusterChanged := false;
       ClusterAttributesChanged := [] |} in
  let summary :=
    match persistence.ReplicationConfig before, persistence.ReplicationConfig after with
    | Some beforeRC, Some afterRC =>
      let summary :=
        if decide (persistence.ActiveClusterName beforeRC
                   ≠ persistence.ActiveClusterName afterRC)
        then {| ChangedFields := ChangedFields summary ++ ["ActiveClusterName"];
                DefaultClusterChanged := true;
                ClusterAttributesChanged := ClusterAttributesChanged summary |}
        else summary in
      let changedAttrs :=
        compareClusterAttributes (persistence.ActiveClusters beforeRC)
                                 (persistence.ActiveClusters afterRC) in
      if decide (0 < List.length changedAttrs)%nat
      then {| ChangedFields := ChangedFields summary ++ ["ActiveClusters"];
              DefaultClusterChanged := DefaultClusterChanged summary;
              ClusterAttributesChanged := changedAttrs |}
      else summary
    | _, _ => summary
    end in
  Ok summary.

(** The differ guards every read of one side by the same two conditions; the
    guarded statements are named here and used in place, once for [before]
    and once for [after].

    [if attrs != nil && attrs.AttributeScopes != nil]: the scopes of a side,
    if it has any. *)
Definition scopesOf (attrs : option types.ActiveClusters)
    : option (gmap string types.ClusterAttributeScope) :=
  match attrs with
  | Some a => types.AttributeScopes a
  | None => None
  end.

(** [for key := range m { all[key] = true }] *)
Definition addKeys {V : Type} (all : gmap string bool) (m : gmap string V)
    : gmap string bool :=
  foldl (λ (all : gmap string bool) '(key, _), <[key := true]> all) all (range ro m).

(** [if attrs != nil && attrs.AttributeScopes != nil
       { for scope := range attrs.AttributeScopes { allScopes[scope] = true } }] *)
Definition addScopes (allScopes : gmap string bool)
    (attrs : option types.ActiveClusters) : gmap string bool :=
  match scopesOf attrs with
  | Some scopes => addKeys allScopes scopes
  | None => allScopes
  end.

(** [if attrs != nil && attrs.AttributeScopes != nil
       { scopeData, exists = attrs.AttributeScopes[scope] }],
    on variables declared with their zero values. *)
Definition lookupScope (attrs : option types.ActiveClusters) (scope : string)
    : types.ClusterAttributeScope * bool :=
  match scopesOf attrs with
  | Some scopes => comma_ok types.zeroClusterAttributeScope (scopes !! scope)
  | None => (types.zeroClusterAttributeScope, false)
  end.

(** [if exists && scopeData.ClusterAttributes != nil
       { for name := range scopeData.ClusterAttributes { allNames[name] = true } }] *)
Definition addNames (allNames : gmap string bool)
    (scopeData : types.ClusterAttributeScope) (exists_ : bool) : gmap string bool :=
  match exists_, types.ClusterAttributes scopeData with
  | true, Some attributes => addKeys allNames attributes
  | _, _ => allNames
  end.

(** [if exists && scopeData.ClusterAttributes != nil
       { info, hasInfo = scopeData.ClusterAttributes[name] }],
    on variables declared with their zero values. *)
Definition lookupInfo (scopeData : types.ClusterAttributeScope) (exists_ : bool)
    (name : string) : types.ActiveClusterInfo * bool :=
  match exists_, types.ClusterAttributes scopeData with
  | true, Some attributes => comma_ok types.zeroActiveClusterInfo (attributes !! name)
  | _, _ => (types.zeroActiveClusterInfo, false)
  end.

(** computeClusterAttributeChanges compares cluster attributes and returns all
    changes. *)
Definition computeClusterAttributeChanges
    (beforeAttrs afterAttrs : option types.ActiveClusters) : list types.ClusterFailover :=
  let failovers : list types.ClusterFailover := [] in
  let allScopes : gmap string bool := ∅ in
  let allScopes := addScopes allScopes beforeAttrs in
  let allScopes := addScopes allScopes afterAttrs in
  foldl (λ (failovers : list types.ClusterFailover) '(scope, _),
    let '(beforeScopeData, beforeExists) := lookupScope beforeAttrs scope in
    let '(afterScopeData, afterExists) := lookupScope afterAttrs scope in
    let allNames : gmap string bool := ∅ in
    let allNames := addNames allNames beforeScopeData beforeExists in
    let allNames := addNames allNames afterScopeData afterExists in
    foldl (λ (failovers : list types.ClusterFailover) '(name, _),
      let '(beforeInfo, beforeHasInfo) := lookupInfo beforeScopeData beforeExists name in
      let '(afterInfo, afterHasInfo) := lookupInfo afterScopeData afterExists name in
      let beforeCluster := if beforeHasInfo then types.ActiveClusterName beforeInfo else "" in
      let beforeVersion := if beforeHasInfo then types.FailoverVersion beforeInfo else 0%Z in
      let afterCluster := if afterHasInfo then types.ActiveClusterName afterInfo else "" in
      let afterVersion := if afterHasInfo then types.FailoverVersion afterInfo else 0%Z in
      if decide (beforeCluster ≠ afterCluster)
      then failovers ++
           [ {| types.FromCluster :=
                  Some {| types.ActiveClusterName := beforeCluster;
                          types.FailoverVersion := beforeVersion |};
                types.ToCluster :=
                  Some {| types.ActiveClusterName := afterCluster;
                          types.FailoverVersion := afterVersion |};
                types.ClusterAttribute' :=
                  Some {| types.Scope := scope; types.Name := name |};
                types.IsDefaultCluster := Some false |} ]
      else failovers) failovers (range ro allNames)) failovers (range ro allScopes).

(** ComputeClusterFailovers performs deep comparison of domain states and
    returns detailed failover info. *)
Definition ComputeClusterFailovers
    (before after : persistence.GetDomainResponse)
    : result error (list types.ClusterFailover) :=
  let failovers : list types.ClusterFailover := [] in
  let beforeRC := persistence.ReplicationConfig before in
  let afterRC := persistence.ReplicationConfig after in
  match beforeRC, afterRC with
  | None, None => Ok failovers
  | _, _ =>
    let beforeCluster :=
      match beforeRC with Some rc => persistence.ActiveClusterName rc | None => "" end in
    let afterCluster :=
      match afterRC with Some rc => persistence.ActiveClusterName rc | None => "" end in
    let failovers :=
      if decide (beforeCluster ≠ afterCluster)
      then failovers ++
           [ {| types.FromCluster :=
                  Some {| types.ActiveClusterName := beforeCluster;
                          types.FailoverVersion := 0 |};
                types.ToCluster :=
                  Some {| types.ActiveClusterName := afterCluster;
                          types.FailoverVersion := 0 |};
                types.ClusterAttribute' := None;
                types.IsDefaultCluster := Some true |} ]
      else failovers in
    let beforeAttrs :=
      match beforeRC with Some rc => persistence.ActiveClusters rc | None => None end in
    let afterAttrs :=
      match afterRC with Some rc => persistence.ActiveClusters rc | None => None end in
    Ok (failovers ++ computeClusterAttributeChanges beforeAttrs afterAttrs)
  end.

End WithRangeOrder.


(** *** compression.go

    [json.Marshal], [json.Unmarshal], [snappy.Encode] and [snappy.Decode]
    belong to encoding/json and github.com/golang/snappy, not to this
    repository: the codec takes them as parameters. *)

Section Codec.

Context (json_Marshal : persistence.GetDomainResponse → result error (list Byte.byte)).
Context (json_Unmarshal : list Byte.byte → result error persistence.GetDomainResponse).
Context (snappy_Encode : list Byte.byte → list Byte.byte).
Context (snappy_Decode : list Byte.byte → result error (list Byte.byte)).

(** SerializeAndCompress takes a domain state and returns compressed JSON
    bytes. *)
Definition SerializeAndCompress (domain : persistence.GetDomainResponse)
    : result error (list Byte.byte) :=
  match json_Marshal domain with
  | Err err => Err err
  | Ok jsonBytes =>
    let compressed := snappy_Encode jsonBytes in
    Ok compressed
  end.

(** DecompressAndDeserialize reverses the SerializeAndCompress operation. *)
Definition DecompressAndDeserialize (compressed : list Byte.byte)
    : result error persistence.GetDomainResponse :=
  match snappy_Decode compressed with
  | Err err => Err err
  | Ok jsonBytes =>
    match json_Unmarshal jsonBytes with
    | Err err => Err err
    | Ok domain => Ok domain
    end
  end.

End Codec.

End audit.

(** ** Package api: the failover-history handlers *)

Module api.

(** Modelled from the spec: the declaration of [types.GetFailoverEventRequest]
    is missing; the handler reads three pointers of it. *)
Record GetFailoverEventRequest : Type := {
  DomainID : option string;
  FailoverEventID : option string;
  CreatedTime : option Z
}.

(** Modelled from the spec: the declaration of
    [types.GetFailoverEventResponse] is missing; it carries the transition
    list, and the empty response carries none. *)
Record GetFailoverEventResponse : Type := {
  ClusterFailovers : list types.ClusterFailover
}.

(** Modelled from the spec: the declaration of
    [persistence.GetDomainAuditLogEntryRequest] is missing; the handler fills
    in the domain, the event and the creation time, here in nanoseconds. *)
Record GetDomainAuditLogEntryRequest : Type := {
  RequestDomainID : string;
  RequestEventID : string;
  RequestCreatedTime : Z
}.

(** Modelled from the spec: the declaration of [WorkflowHandler] is missing,
    and so is the storage collaborator behind it. The handler is taken as far
    as [GetFailoverEvent] reads it: the shutting-down flag and the domain
    manager's [GetDomainAuditLogEntry], which returns an error or a response
    that may be nil. *)
Record WorkflowHandler : Type := {
  isShuttingDown : bool;
  GetDomainAuditLogEntry :
    GetDomainAuditLogEntryRequest →
    result error (option persistence.GetDomainAuditLogEntryResponse)
}.

(** A run either returns or stops in a run-time panic (a nil pointer
    dereference). *)
Inductive outcome (A : Type) : Type :=
| Returns (a : A)
| Panics.
Arguments Returns {A} a.
Arguments Panics {A}.

(** The inner loop of [matchesAttributeFilter]: [chg.Scope] is read from every
    entry visited, so a nil entry panics. *)
Fixpoint matchesRequest (req : types.ClusterAttribute)
    (changed : list (option audit.ClusterAttributeRef)) : outcome bool :=
  match changed with
  | [] => Returns false
  | None :: _ => Panics
  | Some chg :: changed =>
    if decide (audit.Scope chg = types.Scope req ∧ audit.Name chg = types.Name req)
    then Returns true
    else matchesRequest req changed
  end.

(** The outer loop of [matchesAttributeFilter]: nil requests are skipped. *)
Fixpoint matchesAnyRequest (changed : list (option audit.ClusterAttributeRef))
    (requested : list (option types.ClusterAttribute)) : outcome bool :=
  match requested with
  | [] => Returns false
  | None :: requested => matchesAnyRequest changed requested
  | Some req :: requested =>
    match matchesRequest req changed with
    | Returns true => Returns true
    | Returns false => matchesAnyRequest changed requested
    | Panics => Panics
    end
  end.

(** matchesAttributeFilter checks if any changed attributes match the
    requested filters. *)
Definition matchesAttributeFilter
    (changed : list (option audit.ClusterAttributeRef))
    (requested : list (option types.ClusterAttribute)) : outcome bool :=
  if decide (List.length changed = 0)%nat then Returns false
  else matchesAnyRequest changed requested.

(** Milliseconds to nanoseconds, [ms * int64(1000000)], in 64-bit two's
    complement. *)
Definition wrap_int64 (z : Z) : Z :=
  ((z + 2 ^ 63) mod 2 ^ 64 - 2 ^ 63)%Z.

Section Handlers.

Context (ro : RangeOrder).
Context (json_Unmarshal : list Byte.byte → result error persistence.GetDomainResponse).
Context (snappy_Decode : list Byte.byte → result error (list Byte.byte)).
(** [json.Unmarshal] into a zero [audit.ChangeSummary]. *)
Context (json_Unmarshal_summary : list Byte.byte → result error audit.ChangeSummary).

(** shouldIncludeEvent filters events based on change summary. *)
Definition shouldIncludeEvent (summaryJSON : string)
    (filters : types.ListFailoverHistoryRequestFilters) : outcome bool :=
  match json_Unmarshal_summary (String.list_byte_of_string summaryJSON) with
  | Err _ => Returns true
  | Ok summary =>
    if decide (types.DefaultActiveCluster filters = Some true
               ∧ audit.DefaultClusterChanged summary = false)
    then Returns false
    else if decide (0 < List.length (types.Attributes filters))%nat
    then
      match matchesAttributeFilter (audit.ClusterAttributesChanged summary)
                                   (types.Attributes filters) with
      | Returns false => Returns false
      | Returns true => Returns true
      | Panics => Panics
      end
    else Returns true
  end.

(** GetFailoverEvent retrieves detailed information about a specific failover
    event. Logging is left out, and with it the two checks of an empty
    [StateBefore] and an empty [StateAfter], which log a warning and do nothing
    else: the payload is decoded whether it is empty or not. *)
Definition GetFailoverEvent (wh : WorkflowHandler) (request : GetFailoverEventRequest)
    : result error GetFailoverEventResponse :=
  if isShuttingDown wh then Err ErrShuttingDown
  else
    match DomainID request, FailoverEventID request, CreatedTime request with
    | Some domainID, Some failoverEventID, Some createdTimeMs =>
      if decide (domainID = "" ∨ failoverEventID = "")
      then Err (BadRequestError "domain_id, failover_event_id, and created_time are required")
      else
        let createdTime := wrap_int64 (createdTimeMs * 1000000) in
        match GetDomainAuditLogEntry wh
                {| RequestDomainID := domainID;
                   RequestEventID := failoverEventID;
                   RequestCreatedTime := createdTime |} with
        | Err err => Err err
        | Ok None => Ok {| ClusterFailovers := [] |}
        | Ok (Some entryResp) =>
          match persistence.Entry entryResp with
          | None => Ok {| ClusterFailovers := [] |}
          | Some entry =>
            match audit.DecompressAndDeserialize json_Unmarshal snappy_Decode
                    (persistence.StateBefore entry) with
            | Err _ => Err (InternalServiceError "Failed to decompress domain state")
            | Ok before =>
              match audit.DecompressAndDeserialize json_Unmarshal snappy_Decode
                      (persistence.StateAfter entry) with
              | Err _ => Err (InternalServiceError "Failed to decompress domain state")
              | Ok after =>
                match audit.ComputeClusterFailovers ro before after with
                | Err _ => Err (InternalServiceError "Failed to compute failover details")
                | Ok clusterFailovers => Ok {| ClusterFailovers := clusterFailovers |}
                end
              end
            end
          end
        end
    | _, _, _ =>
      Err (BadRequestError "domain_id, failover_event_id, and created_time are required")
    end.

End Handlers.

End api.

(** ** Vocabulary of the specification

    What the claims say about a snapshot, read off the data rather than off
    the code: the attribute-scope mapping of a side with every nil link taken
    as empty, the owner of an attribute with a missing attribute resolved to
    the empty name and version 0, and the records the differ is to emit. *)

Module spec.

Definition activeClustersOf (s : persistence.GetDomainResponse)
    : option types.ActiveClusters :=
  match persistence.ReplicationConfig s with
  | Some rc => persistence.ActiveClusters rc
  | None => None
  end.

Definition scopeMap (attrs : option types.ActiveClusters)
    : gmap string types.ClusterAttributeScope :=
  match attrs with
  | Some a => default ∅ (types.AttributeScopes a)
  | None => ∅
  end.

Definition attributeMap (attrs : option types.ActiveClusters) (scope : string)
    : gmap string types.ActiveClusterInfo :=
  match scopeMap attrs !! scope with
  | Some sd => default ∅ (types.ClusterAttributes sd)
  | None => ∅
  end.

Definition attributeOf (attrs : option types.ActiveClusters) (scope name : string)
    : option types.ActiveClusterInfo :=
  attributeMap attrs scope !! name.

Definition resolved (attrs : option types.ActiveClusters) (scope name : string)
    : types.ActiveClusterInfo :=
  default types.zeroActiveClusterInfo (attributeOf attrs scope name).

Definition scopeNames (attrs : option types.ActiveClusters) : gset string :=
  dom (scopeMap attrs).

Definition attributeNames (attrs : option types.ActiveClusters) (scope : string)
    : gset string :=
  dom (attributeMap attrs scope).

Definition defaultClusterOf (s : persistence.GetDomainResponse) : string :=
  match persistence.ReplicationConfig s with
  | Some rc => persistence.ActiveClusterName rc
  | None => ""
  end.

Definition attributeRecord (beforeAttrs afterAttrs : option types.ActiveClusters)
    (scope name : string) : types.ClusterFailover :=
  {| types.FromCluster := Some (resolved beforeAttrs scope name);
     types.ToCluster := Some (resolved afterAttrs scope name);
     types.ClusterAttribute' := Some {| types.Scope := scope; types.Name := name |};
     types.IsDefaultCluster := Some false |}.

Definition defaultRecord (fromCluster toCluster : string) : types.ClusterFailover :=
  {| types.FromCluster :=
       Some {| types.ActiveClusterName := fromCluster; types.FailoverVersion := 0 |};
     types.ToCluster :=
       Some {| types.ActiveClusterName := toCluster; types.FailoverVersion := 0 |};
     types.ClusterAttribute' := None;
     types.IsDefaultCluster := Some true |}.

Definition emptySummary : audit.ChangeSummary :=
  {| audit.ChangedFields := [];
     audit.DefaultClusterChanged := false;
     audit.ClusterAttributesChanged := [] |}.

End spec.

(** ** Reference models of the two libraries

    The theorems about the codec of this repository quantify over the JSON
    and Snappy functions it calls. To run the codec and the handlers on
    inputs, the two libraries are modelled here from their documented
    formats: the Snappy block format as github.com/golang/snappy decodes it,
    and the JSON text encoding/json writes and reads for the snapshot and
    summary structures.

    The models are not meant to be complete. The Snappy encoder emits
    literals only. The JSON writer names the fields of the snapshot as Go
    declares them, the declarations (and any field tag) of these structures
    being outside the files modelled here, and writes only the fields of the
    records above. *)

Module snappy.

Definition ErrCorrupt : error := LibraryError "snappy: corrupt input".

(** [binary.Uvarint]: the value and the number of bytes read; 0 bytes when the
    buffer ends early, a negative number on overflow of 64 bits. *)
Fixpoint Uvarint_from (buf : list Byte.byte) (x s : N) (i : nat) : N * Z :=
  match buf with
  | [] => (0%N, 0%Z)
  | b :: buf =>
    let b := Byte.to_N b in
    if (i =? 10)%nat then (0%N, - Z.of_nat (i + 1))%Z
    else if (b <? 128)%N then
      if ((i =? 9)%nat && (1 <? b)%N)%bool then (0%N, - Z.of_nat (i + 1))%Z
      else (N.lor x (N.shiftl b s) mod 2 ^ 64, Z.of_nat (i + 1))%N
    else Uvarint_from buf (N.lor x (N.shiftl (N.land b 127) s)) (s + 7)%N (S i)
  end.

Definition Uvarint (buf : list Byte.byte) : N * Z := Uvarint_from buf 0 0 0.

(** [binary.PutUvarint] *)
Fixpoint PutUvarint_fuel (fuel : nat) (x : N) : list Byte.byte :=
  match fuel with
  | O => []
  | S fuel =>
    if (x <? 128)%N then [default Byte.x00 (Byte.of_N x)]
    else default Byte.x00 (Byte.of_N (N.lor (N.land x 127) 128))
         :: PutUvarint_fuel fuel (N.shiftr x 7)
  end.

Definition PutUvarint (x : N) : list Byte.byte := PutUvarint_fuel 10 x.

(** [decodedLen]: the length of the decoded block and of the header, on a
    64-bit platform. *)
Definition decodedLen (src : list Byte.byte) : result error (N * nat) :=
  let '(v, n) := Uvarint src in
  if decide ((n ≤ 0)%Z ∨ (4294967295 < v)%N) then Err ErrCorrupt
  else Ok (v, Z.to_nat n).

(** Little-endian value of the bytes of a tag's operand. *)
Fixpoint le_value (bs : list Byte.byte) : N :=
  match bs with
  | [] => 0
  | b :: bs => (Byte.to_N b + 256 * le_value bs)%N
  end.

(** The copy of [length] bytes starting [offset] bytes back, one byte at a
    time, so that a copy may read what it has just written. *)
Fixpoint copyBack (length : nat) (offset : nat) (dst : list Byte.byte)
    : list Byte.byte :=
  match length with
  | O => dst
  | S length =>
    match dst !! (List.length dst - offset)%nat with
    | Some b => copyBack length offset (dst ++ [b])
    | None => dst
    end
  end.

(** One element of the block: a literal or a copy. [dLen] is the decoded
    length announced by the header, [dst] what is decoded so far. [int] is
    64 bits wide, so the length of a literal is never negative. *)
Definition element (dLen : N) (dst src : list Byte.byte)
    : result error (list Byte.byte * list Byte.byte) :=
  match src with
  | [] => Ok (dst, [])
  | tag :: rest =>
    let t := Byte.to_N tag in
    let d := N.of_nat (List.length dst) in
    if (N.land t 3 =? 0)%N then
      let x := N.shiftr t 2 in
      let extra := if (x <? 60)%N then 0%nat else N.to_nat (x - 59) in
      if decide (List.length rest < extra)%nat then Err ErrCorrupt
      else
        let x := if (x <? 60)%N then x else le_value (take extra rest) in
        let rest := drop extra rest in
        let length := (x + 1)%N in
        if decide (dLen - d < length ∨ N.of_nat (List.length rest) < length)%N
        then Err ErrCorrupt
        else Ok (dst ++ take (N.to_nat length) rest, drop (N.to_nat length) rest)
    else
      let operand :=
        if (N.land t 3 =? 1)%N then 1%nat
        else if (N.land t 3 =? 2)%N then 2%nat else 4%nat in
      if decide (List.length rest < operand)%nat then Err ErrCorrupt
      else
        let length :=
          if (N.land t 3 =? 1)%N then (4 + N.land (N.shiftr t 2) 7)%N
          else (1 + N.shiftr t 2)%N in
        let offset :=
          if (N.land t 3 =? 1)%N
          then N.lor (N.shiftl (N.land t 224) 3) (le_value (take operand rest))
          else le_value (take operand rest) in
        if decide (offset = 0 ∨ d < offset ∨ dLen - d < length)%N then Err ErrCorrupt
        else Ok (copyBack (N.to_nat length) (N.to_nat offset) dst, drop operand rest)
  end.

(** The loop of [decode]: every element consumes at least its tag. *)
Fixpoint decode (fuel : nat) (dLen : N) (dst src : list Byte.byte)
    : result error (list Byte.byte) :=
  match src, fuel with
  | [], _ =>
    if decide (N.of_nat (List.length dst) = dLen) then Ok dst else Err ErrCorrupt
  | _, O => Err ErrCorrupt
  | _, S fuel =>
    match element dLen dst src with
    | Err e => Err e
    | Ok (dst, src) => decode fuel dLen dst src
    end
  end.

Definition Decode (src : list Byte.byte) : result error (list Byte.byte) :=
  match decodedLen src with
  | Err e => Err e
  | Ok (dLen, s) => decode (List.length src) dLen [] (drop s src)
  end.

(** [emitLiteral] *)
Definition emitLiteral (lit : list Byte.byte) : list Byte.byte :=
  let n := N.of_nat (List.length lit - 1) in
  let byte_of (x : N) := default Byte.x00 (Byte.of_N (x mod 256)) in
  (if (n <? 60)%N then [byte_of (N.shiftl n 2)]
   else if (n <? 256)%N then [byte_of (N.shiftl 60 2); byte_of n]
   else [byte_of (N.shiftl 61 2); byte_of n; byte_of (N.shiftr n 8)])
  ++ lit.

(** The blocks of at most 65536 bytes the encoder works on. *)
Fixpoint blocks (fuel : nat) (src : list Byte.byte) : list (list Byte.byte) :=
  match fuel, src with
  | _, [] => []
  | O, _ => [src]
  | S fuel, _ =>
    take (N.to_nat 65536) src :: blocks fuel (drop (N.to_nat 65536) src)
  end.

(** [Encode], with every block emitted as one literal. The library does so
    for a block of fewer than 17 bytes and looks for back-references in a
    longer one; what it emits then is read back by [Decode] all the same, and
    nothing here depends on which of the valid encodings is chosen. *)
Definition Encode (src : list Byte.byte) : list Byte.byte :=
  PutUvarint (N.of_nat (List.length src))
  ++ concat (emitLiteral <$> blocks (List.length src) src).

End snappy.


Module json.

Definition SyntaxError : error := LibraryError "json: syntax error".

Definition UnmarshalTypeError : error := LibraryError "json: cannot unmarshal".

(** A JSON text, parsed. A number keeps its literal: whether it fits the Go
    type it is stored in is decided when it is stored. *)
#[warnings="-register-all"]
Inductive value : Type :=
| Null
| Bool (b : bool)
| Number (literal : string)
| String (s : string)
| Array (elements : list value)
| Object (members : list (string * value)).

Definition isSpace (c : ascii) : bool :=
  bool_decide (c = " "%char ∨ c = "009"%char ∨ c = "010"%char ∨ c = "013"%char).

Definition isDigit (c : ascii) : bool :=
  ((48 <=? nat_of_ascii c) && (nat_of_ascii c <=? 57))%nat.

Fixpoint skipSpace (s : string) : string :=
  match s with
  | String.String c rest => if isSpace c then skipSpace rest else s
  | EmptyString => s
  end.

Definition hexDigit (c : ascii) : option N :=
  let n := N_of_ascii c in
  if ((48 <=? n) && (n <=? 57))%N then Some (n - 48)%N
  else if ((97 <=? n) && (n <=? 102))%N then Some (n - 87)%N
  else if ((65 <=? n) && (n <=? 70))%N then Some (n - 55)%N
  else None.

(** [utf8.EncodeRune]: the UTF-8 bytes of a code point; half of a surrogate
    pair and a number above U+10FFFF are written as U+FFFD. *)
Definition utf8 (cp : N) : string :=
  let cp :=
    if (((55296 <=? cp) && (cp <=? 57343)) || (1114111 <? cp))%N then 65533%N
    else cp in
  let a (n : N) := ascii_of_N n in
  if (cp <? 128)%N then String.String (a cp) ""
  else if (cp <? 2048)%N
  then String.String (a (192 + N.shiftr cp 6)%N)
         (String.String (a (128 + N.land cp 63)%N) "")
  else if (cp <? 65536)%N
  then String.String (a (224 + N.shiftr cp 12)%N)
         (String.String (a (128 + N.land (N.shiftr cp 6) 63)%N)
            (String.String (a (128 + N.land cp 63)%N) ""))
  else String.String (a (240 + N.shiftr cp 18)%N)
         (String.String (a (128 + N.land (N.shiftr cp 12) 63)%N)
            (String.String (a (128 + N.land (N.shiftr cp 6) 63)%N)
               (String.String (a (128 + N.land cp 63)%N) ""))).

Definition byteAt (s : string) (k : nat) : N :=
  match String.get k s with
  | Some c => N_of_ascii c
  | None => 0%N
  end.

Definition between (lo hi n : N) : bool := ((lo <=? n) && (n <=? hi))%N.

(** [utf8.DecodeRune] on a first byte above 0x7f: the number of bytes of the
    encoding that starts with [c] and goes on in [rest], and 0 when these
    bytes are no encoding of a code point (cut short, longer than needed,
    half of a surrogate pair, above U+10FFFF). *)
Definition runeLength (c : ascii) (rest : string) : nat :=
  let n := N_of_ascii c in
  let b1 := byteAt rest 0 in
  let b2 := byteAt rest 1 in
  let b3 := byteAt rest 2 in
  let cont := between 128 191 in
  if between 194 223 n then (if cont b1 then 2 else 0)%nat
  else if (n =? 224)%N
  then (if between 160 191 b1 && cont b2 then 3 else 0)%nat
  else if (between 225 236 n || between 238 239 n)%bool
  then (if cont b1 && cont b2 then 3 else 0)%nat
  else if (n =? 237)%N
  then (if between 128 159 b1 && cont b2 then 3 else 0)%nat
  else if (n =? 240)%N
  then (if between 144 191 b1 && cont b2 && cont b3 then 4 else 0)%nat
  else if between 241 243 n
  then (if cont b1 && cont b2 && cont b3 then 4 else 0)%nat
  else if (n =? 244)%N
  then (if between 128 143 b1 && cont b2 && cont b3 then 4 else 0)%nat
  else 0%nat.

Definition hex4 (h1 h2 h3 h4 : ascii) : option N :=
  match hexDigit h1, hexDigit h2, hexDigit h3, hexDigit h4 with
  | Some d1, Some d2, Some d3, Some d4 => Some (4096 * d1 + 256 * d2 + 16 * d3 + d4)%N
  | _, _, _, _ => None
  end.

Definition prepend (prefix : string) (r : option (string * string))
    : option (string * string) :=
  match r with
  | Some (str, rest) => Some (prefix +:+ str, rest)
  | None => None
  end.

(** The characters of a string literal after its opening quote, up to the
    closing one, as [unquote] reads them: an escaped surrogate pair is one
    code point, an escaped half without its other half is U+FFFD, and so is
    every byte that is not part of a UTF-8 encoding. [skip] counts the bytes
    still to copy of an encoding already checked. *)
Fixpoint parseStringFrom (skip : nat) (s : string) : option (string * string) :=
  match skip, s with
  | _, EmptyString => None
  | S skip, String.String c rest =>
    prepend (String.String c "") (parseStringFrom skip rest)
  | O, String.String "034"%char rest => Some ("", rest)
  | O, String.String "\"%char (String.String "u"%char
         (String.String h1 (String.String h2 (String.String h3 (String.String h4 rest))))) =>
    match hex4 h1 h2 h3 h4 with
    | None => None
    | Some rr =>
      if between 55296 57343 rr then
        match rest with
        | String.String "\"%char (String.String "u"%char
            (String.String g1 (String.String g2 (String.String g3
               (String.String g4 rest'))))) =>
          match hex4 g1 g2 g3 g4 with
          | Some rr1 =>
            if (between 55296 56319 rr && between 56320 57343 rr1)%bool
            then prepend (utf8 (65536 + (rr - 55296) * 1024 + (rr1 - 56320))%N)
                         (parseStringFrom 0 rest')
            else prepend (utf8 65533) (parseStringFrom 0 rest)
          | None => prepend (utf8 65533) (parseStringFrom 0 rest)
          end
        | _ => prepend (utf8 65533) (parseStringFrom 0 rest)
        end
      else prepend (utf8 rr) (parseStringFrom 0 rest)
    end
  | O, String.String "\"%char (String.String c rest) =>
    let unescaped : option ascii :=
      if bool_decide (c = "034"%char ∨ c = "\"%char ∨ c = "/"%char) then Some c
      else if bool_decide (c = "b"%char) then Some "008"%char
      else if bool_decide (c = "f"%char) then Some "012"%char
      else if bool_decide (c = "n"%char) then Some "010"%char
      else if bool_decide (c = "r"%char) then Some "013"%char
      else if bool_decide (c = "t"%char) then Some "009"%char
      else None in
    match unescaped with
    | Some c => prepend (String.String c "") (parseStringFrom 0 rest)
    | None => None
    end
  | O, String.String c rest =>
    if (N_of_ascii c <? 32)%N then None
    else if (N_of_ascii c <? 128)%N
    then prepend (String.String c "") (parseStringFrom 0 rest)
    else
      match runeLength c rest with
      | O => prepend (utf8 65533) (parseStringFrom 0 rest)
      | S k => prepend (String.String c "") (parseStringFrom k rest)
      end
  end.

Definition parseString (s : string) : option (string * string) :=
  parseStringFrom 0 s.

Fixpoint digits (s : string) : string * string :=
  match s with
  | String.String c rest =>
    if isDigit c then let '(ds, rest) := digits rest in (String.String c ds, rest)
    else ("", s)
  | EmptyString => ("", s)
  end.

(** A number literal: an optional minus sign, an integer part without leading
    zero, an optional fraction and an optional exponent. *)
Definition parseNumber (s : string) : option (string * string) :=
  let '(sign, s) :=
    match s with
    | String.String "-"%char rest => ("-", rest)
    | _ => ("", s)
    end in
  let '(int, s) :=
    match s with
    | String.String "0"%char rest => ("0", rest)
    | _ => digits s
    end in
  if bool_decide (int = "") then None
  else
    let frac : option (string * string) :=
      match s with
      | String.String "."%char rest =>
        let '(ds, rest) := digits rest in
        if bool_decide (ds = "") then None else Some ("." +:+ ds, rest)
      | _ => Some ("", s)
      end in
    match frac with
    | None => None
    | Some (frac, s) =>
      let exp : option (string * string) :=
        match s with
        | String.String c rest =>
          if bool_decide (c = "e"%char ∨ c = "E"%char) then
            let '(esign, rest) :=
              match rest with
              | String.String c' rest' =>
                if bool_decide (c' = "+"%char ∨ c' = "-"%char)
                then (String.String c' "", rest') else ("", rest)
              | EmptyString => ("", rest)
              end in
            let '(ds, rest) := digits rest in
            if bool_decide (ds = "") then None
            else Some (String.String c esign +:+ ds, rest)
          else Some ("", s)
        | EmptyString => Some ("", s)
        end in
      match exp with
      | None => None
      | Some (exp, s) => Some (sign +:+ int +:+ frac +:+ exp, s)
      end
    end.

(** [literal] is a prefix of [s]: the rest of [s]. *)
Fixpoint expect (literal s : string) : option string :=
  match literal, s with
  | EmptyString, _ => Some s
  | String.String c literal, String.String c' s =>
    if bool_decide (c = c') then expect literal s else None
  | _, EmptyString => None
  end.

(** The elements of an array after the first, [, value]* ]. *)
Fixpoint parseElements (parseValue : string → option (value * string))
    (fuel : nat) (s : string) : option (list value * string) :=
  match fuel with
  | O => None
  | S fuel =>
    match skipSpace s with
    | String.String "]"%char rest => Some ([], rest)
    | String.String ","%char rest =>
      match parseValue rest with
      | Some (v, rest) =>
        match parseElements parseValue fuel rest with
        | Some (vs, rest) => Some (v :: vs, rest)
        | None => None
        end
      | None => None
      end
    | _ => None
    end
  end.

(** A member of an object, "key" : value. *)
Definition parseMember (parseValue : string → option (value * string))
    (s : string) : option ((string * value) * string) :=
  match skipSpace s with
  | String.String "034"%char rest =>
    match parseString rest with
    | Some (key, rest) =>
      match skipSpace rest with
      | String.String ":"%char rest =>
        match parseValue rest with
        | Some (v, rest) => Some ((key, v), rest)
        | None => None
        end
      | _ => None
      end
    | None => None
    end
  | _ => None
  end.

(** The members of an object after the first, [, member]* }. *)
Fixpoint parseMembers (parseValue : string → option (value * string))
    (fuel : nat) (s : string) : option (list (string * value) * string) :=
  match fuel with
  | O => None
  | S fuel =>
    match skipSpace s with
    | String.String "}"%char rest => Some ([], rest)
    | String.String ","%char rest =>
      match parseMember parseValue rest with
      | Some (m, rest) =>
        match parseMembers parseValue fuel rest with
        | Some (ms, rest) => Some (m :: ms, rest)
        | None => None
        end
      | None => None
      end
    | _ => None
    end
  end.

(** A value, with leading white space. [fuel] bounds the nesting depth. *)
Fixpoint parseValue (fuel : nat) (s : string) : option (value * string) :=
  match fuel with
  | O => None
  | S fuel =>
    match skipSpace s with
    | EmptyString => None
    | String.String c rest =>
      if bool_decide (c = "n"%char) then
        match expect "ull" rest with Some rest => Some (Null, rest) | None => None end
      else if bool_decide (c = "t"%char) then
        match expect "rue" rest with Some rest => Some (Bool true, rest) | None => None end
      else if bool_decide (c = "f"%char) then
        match expect "alse" rest with Some rest => Some (Bool false, rest) | None => None end
      else if bool_decide (c = "034"%char) then
        match parseString rest with
        | Some (str, rest) => Some (String str, rest)
        | None => None
        end
      else if bool_decide (c = "["%char) then
        match skipSpace rest with
        | String.String "]"%char rest => Some (Array [], rest)
        | _ =>
          match parseValue fuel rest with
          | Some (v, rest) =>
            match parseElements (parseValue fuel) (String.length rest) rest with
            | Some (vs, rest) => Some (Array (v :: vs), rest)
            | None => None
            end
          | None => None
          end
        end
      else if bool_decide (c = "{"%char) then
        match skipSpace rest with
        | String.String "}"%char rest => Some (Object [], rest)
        | _ =>
          match parseMember (parseValue fuel) rest with
          | Some (m, rest) =>
            match parseMembers (parseValue fuel) (String.length rest) rest with
            | Some (ms, rest) => Some (Object (m :: ms), rest)
            | None => None
            end
          | None => None
          end
        end
      else if (isDigit c || bool_decide (c = "-"%char))%bool then
        match parseNumber (String.String c rest) with
        | Some (literal, rest) => Some (Number literal, rest)
        | None => None
        end
      else None
    end
  end.

(** A whole text: one value and nothing but white space after it. *)
Definition parse (data : list Byte.byte) : result error value :=
  let s := String.string_of_list_byte data in
  match parseValue (S (String.length s)) s with
  | Some (v, rest) =>
    if bool_decide (skipSpace rest = "") then Ok v else Err SyntaxError
  | None => Err SyntaxError
  end.

(** *** Reading a parsed value into a Go variable

    [Unmarshal] stores a value into the variable it is given and leaves what
    the text does not mention as it was. A JSON null sets a pointer, a map
    or a slice to nil and leaves a string, a number or a boolean as it is; a
    value of another kind than the variable's is an error. A member of an
    object is stored into the field whose name matches its key without
    regard to case; members that match no field are skipped, and a key
    written twice is stored twice, the second time into what the first left:
    a struct behind a pointer and a map are added to, an element of a slice
    is stored over the element of the same index. An element of a map is
    stored into a fresh zero value. What a slice holds beyond its length
    (after it was cut by a shorter array) is taken to be zero. *)

Definition lower (c : ascii) : ascii :=
  let n := nat_of_ascii c in
  if ((65 <=? n) && (n <=? 90))%nat then ascii_of_nat (n + 32) else c.

(** Keys are compared folded: the letters of ASCII without regard to case,
    and with them the two other letters that Unicode folds to a letter of
    ASCII, U+017F (long s) and U+212A (the Kelvin sign). *)
Fixpoint foldCase (s : string) : string :=
  match s with
  | EmptyString => EmptyString
  | String.String "197"%char (String.String "191"%char rest) =>
    String.String "s"%char (foldCase rest)
  | String.String "226"%char (String.String "132"%char (String.String "170"%char rest)) =>
    String.String "k"%char (foldCase rest)
  | String.String c rest => String.String (lower c) (foldCase rest)
  end.

Definition isField (name key : string) : bool :=
  bool_decide (foldCase key = foldCase name).

Definition bind {A B : Type} (r : result error A) (f : A → result error B)
    : result error B :=
  match r with
  | Ok a => f a
  | Err e => Err e
  end.

(** The members of an object, stored one after the other. *)
Fixpoint decodeMembers {A : Type} (decodeField : A → string → value → result error A)
    (members : list (string * value)) (current : A) : result error A :=
  match members with
  | [] => Ok current
  | m :: members =>
    bind (decodeField current m.1 m.2) (decodeMembers decodeField members)
  end.

Fixpoint decimal (s : string) (acc : Z) : option Z :=
  match s with
  | EmptyString => Some acc
  | String.String c rest =>
    if isDigit c then decimal rest (10 * acc + Z.of_nat (nat_of_ascii c - 48))
    else None
  end.

(** The integer a number literal denotes, if it has neither fraction nor
    exponent. *)
Definition integer (literal : string) : option Z :=
  match literal with
  | String.String "-"%char rest => Z.opp <$> decimal rest 0
  | _ => decimal literal 0
  end.

Definition decodeString (current : string) (v : value) : result error string :=
  match v with
  | Null => Ok current
  | String s => Ok s
  | _ => Err UnmarshalTypeError
  end.

Definition decodeBool (current : bool) (v : value) : result error bool :=
  match v with
  | Null => Ok current
  | Bool b => Ok b
  | _ => Err UnmarshalTypeError
  end.

(** Into a signed integer of [bits] bits. *)
Definition decodeInt (bits : Z) (current : Z) (v : value) : result error Z :=
  match v with
  | Null => Ok current
  | Number literal =>
    match integer literal with
    | Some z =>
      if decide (- 2 ^ (bits - 1) ≤ z < 2 ^ (bits - 1))%Z then Ok z
      else Err UnmarshalTypeError
    | None => Err UnmarshalTypeError
    end
  | _ => Err UnmarshalTypeError
  end.

(** Into a struct. *)
Definition decodeStruct {A : Type}
    (decodeField : A → string → value → result error A)
    (current : A) (v : value) : result error A :=
  match v with
  | Null => Ok current
  | Object members => decodeMembers decodeField members current
  | _ => Err UnmarshalTypeError
  end.

(** Into a pointer to a struct: a nil pointer is given a zero struct first. *)
Definition decodePointer {A : Type} (zero : A)
    (decodeField : A → string → value → result error A)
    (current : option A) (v : value) : result error (option A) :=
  match v with
  | Null => Ok None
  | Object members =>
    bind (decodeMembers decodeField members (default zero current))
         (λ a, Ok (Some a))
  | _ => Err UnmarshalTypeError
  end.

(** The members of an object, stored into a map. *)
Fixpoint decodeEntries {A : Type} (decodeElement : value → result error A)
    (members : list (string * value)) (current : gmap string A)
    : result error (gmap string A) :=
  match members with
  | [] => Ok current
  | m :: members =>
    bind (decodeElement m.2)
         (λ a, decodeEntries decodeElement members (<[m.1 := a]> current))
  end.

(** Into a map: a nil map is made first, a map that is there is added to. *)
Definition decodeMap {A : Type} (decodeElement : value → result error A)
    (current : option (gmap string A)) (v : value)
    : result error (option (gmap string A)) :=
  match v with
  | Null => Ok None
  | Object members =>
    bind (decodeEntries decodeElement members (default ∅ current))
         (λ m, Ok (Some m))
  | _ => Err UnmarshalTypeError
  end.

(** The elements of an array, each stored over the element of its index. *)
Fixpoint decodeElements {A : Type} (zero : A)
    (decodeElement : A → value → result error A)
    (elements : list value) (current : list A) : result error (list A) :=
  match elements with
  | [] => Ok []
  | v :: elements =>
    bind (decodeElement (default zero (head current)) v)
         (λ a, bind (decodeElements zero decodeElement elements (tail current))
                    (λ l, Ok (a :: l)))
  end.

(** Into a slice. *)
Definition decodeSlice {A : Type} (zero : A)
    (decodeElement : A → value → result error A)
    (current : list A) (v : value) : result error (list A) :=
  match v with
  | Null => Ok []
  | Array elements => decodeElements zero decodeElement elements current
  | _ => Err UnmarshalTypeError
  end.

Definition decodeActiveClusterInfo (current : types.ActiveClusterInfo)
    (key : string) (v : value) : result error types.ActiveClusterInfo :=
  if isField "ActiveClusterName" key then
    bind (decodeString (types.ActiveClusterName current) v) (λ name,
    Ok {| types.ActiveClusterName := name;
          types.FailoverVersion := types.FailoverVersion current |})
  else if isField "FailoverVersion" key then
    bind (decodeInt 64 (types.FailoverVersion current) v) (λ version,
    Ok {| types.ActiveClusterName := types.ActiveClusterName current;
          types.FailoverVersion := version |})
  else Ok current.

Definition decodeClusterAttributeScope (current : types.ClusterAttributeScope)
    (key : string) (v : value) : result error types.ClusterAttributeScope :=
  if isField "ClusterAttributes" key then
    bind (decodeMap (decodeStruct decodeActiveClusterInfo types.zeroActiveClusterInfo)
            (types.ClusterAttributes current) v) (λ attributes,
    Ok {| types.ClusterAttributes := attributes |})
  else Ok current.

Definition decodeActiveClusters (current : types.ActiveClusters)
    (key : string) (v : value) : result error types.ActiveClusters :=
  if isField "AttributeScopes" key then
    bind (decodeMap
            (decodeStruct decodeClusterAttributeScope types.zeroClusterAttributeScope)
            (types.AttributeScopes current) v) (λ scopes,
    Ok {| types.AttributeScopes := scopes |})
  else Ok current.

Definition decodeClusterReplicationConfig
    (current : persistence.ClusterReplicationConfig)
    (key : string) (v : value) : result error persistence.ClusterReplicationConfig :=
  if isField "ClusterName" key then
    bind (decodeString (persistence.ClusterName current) v) (λ name,
    Ok {| persistence.ClusterName := name |})
  else Ok current.

Definition decodeDomainReplicationConfig
    (current : persistence.DomainReplicationConfig)
    (key : string) (v : value) : result error persistence.DomainReplicationConfig :=
  if isField "Clusters" key then
    bind (decodeSlice None
            (decodePointer {| persistence.ClusterName := "" |}
               decodeClusterReplicationConfig)
            (persistence.Clusters current) v) (λ clusters,
    Ok {| persistence.Clusters := clusters;
          persistence.ActiveClusterName := persistence.ActiveClusterName current;
          persistence.ActiveClusters := persistence.ActiveClusters current |})
  else if isField "ActiveClusterName" key then
    bind (decodeString (persistence.ActiveClusterName current) v) (λ name,
    Ok {| persistence.Clusters := persistence.Clusters current;
          persistence.ActiveClusterName := name;
          persistence.ActiveClusters := persistence.ActiveClusters current |})
  else if isField "ActiveClusters" key then
    bind (decodePointer {| types.AttributeScopes := None |} decodeActiveClusters
            (persistence.ActiveClusters current) v) (λ attrs,
    Ok {| persistence.Clusters := persistence.Clusters current;
          persistence.ActiveClusterName := persistence.ActiveClusterName current;
          persistence.ActiveClusters := attrs |})
  else Ok current.

Definition decodeDomainInfo (current : persistence.DomainInfo)
    (key : string) (v : value) : result error persistence.DomainInfo :=
  if isField "ID" key then
    bind (decodeString (persistence.ID current) v) (λ id,
    Ok {| persistence.ID := id; persistence.Name := persistence.Name current |})
  else if isField "Name" key then
    bind (decodeString (persistence.Name current) v) (λ name,
    Ok {| persistence.ID := persistence.ID current; persistence.Name := name |})
  else Ok current.

Definition decodeDomainConfig (current : persistence.DomainConfig)
    (key : string) (v : value) : result error persistence.DomainConfig :=
  if isField "Retention" key then
    bind (decodeInt 32 (persistence.Retention current) v) (λ retention,
    Ok {| persistence.Retention := retention |})
  else Ok current.

Definition decodeGetDomainResponse (current : persistence.GetDomainResponse)
    (key : string) (v : value) : result error persistence.GetDomainResponse :=
  if isField "Info" key then
    bind (decodePointer {| persistence.ID := ""; persistence.Name := "" |}
            decodeDomainInfo (persistence.Info current) v) (λ info,
    Ok {| persistence.Info := info;
          persistence.Config := persistence.Config current;
          persistence.ReplicationConfig := persistence.ReplicationConfig current |})
  else if isField "Config" key then
    bind (decodePointer {| persistence.Retention := 0 |}
            decodeDomainConfig (persistence.Config current) v) (λ config,
    Ok {| persistence.Info := persistence.Info current;
          persistence.Config := config;
          persistence.ReplicationConfig := persistence.ReplicationConfig current |})
  else if isField "ReplicationConfig" key then
    bind (decodePointer
            {| persistence.Clusters := [];
               persistence.ActiveClusterName := "";
               persistence.ActiveClusters := None |}
            decodeDomainReplicationConfig (persistence.ReplicationConfig current) v)
      (λ rc,
    Ok {| persistence.Info := persistence.Info current;
          persistence.Config := persistence.Config current;
          persistence.ReplicationConfig := rc |})
  else Ok current.

(** [json.Unmarshal(data, &domain)] on a zero [GetDomainResponse]. *)
Definition Unmarshal (data : list Byte.byte)
    : result error persistence.GetDomainResponse :=
  bind (parse data)
       (decodeStruct decodeGetDomainResponse persistence.zeroGetDomainResponse).

Definition decodeClusterAttributeRef (current : audit.ClusterAttributeRef)
    (key : string) (v : value) : result error audit.ClusterAttributeRef :=
  if isField "scope" key then
    bind (decodeString (audit.Scope current) v) (λ scope,
    Ok {| audit.Scope := scope; audit.Name := audit.Name current |})
  else if isField "name" key then
    bind (decodeString (audit.Name current) v) (λ name,
    Ok {| audit.Scope := audit.Scope current; audit.Name := name |})
  else Ok current.

Definition decodeChangeSummary (current : audit.ChangeSummary)
    (key : string) (v : value) : result error audit.ChangeSummary :=
  if isField "changed_fields" key then
    bind (decodeSlice "" decodeString (audit.ChangedFields current) v) (λ fields,
    Ok {| audit.ChangedFields := fields;
          audit.DefaultClusterChanged := audit.DefaultClusterChanged current;
          audit.ClusterAttributesChanged := audit.ClusterAttributesChanged current |})
  else if isField "default_cluster_changed" key then
    bind (decodeBool (audit.DefaultClusterChanged current) v) (λ changed,
    Ok {| audit.ChangedFields := audit.ChangedFields current;
          audit.DefaultClusterChanged := changed;
          audit.ClusterAttributesChanged := audit.ClusterAttributesChanged current |})
  else if isField "cluster_attributes_changed" key then
    bind (decodeSlice None
            (decodePointer {| audit.Scope := ""; audit.Name := "" |}
               decodeClusterAttributeRef)
            (audit.ClusterAttributesChanged current) v) (λ refs,
    Ok {| audit.ChangedFields := audit.ChangedFields current;
          audit.DefaultClusterChanged := audit.DefaultClusterChanged current;
          audit.ClusterAttributesChanged := refs |})
  else Ok current.

(** [json.Unmarshal(data, &summary)] on a zero [audit.ChangeSummary]. *)
Definition UnmarshalChangeSummary (data : list Byte.byte)
    : result error audit.ChangeSummary :=
  bind (parse data)
       (decodeStruct decodeChangeSummary
          {| audit.ChangedFields := [];
             audit.DefaultClusterChanged := false;
             audit.ClusterAttributesChanged := [] |}).

(** *** Writing

    Struct fields are written in the order of their declaration under their
    Go names, the keys of a map in increasing order, a nil pointer, map or
    slice as null. *)

Definition hex (n : N) : ascii :=
  if (n <? 10)%N then ascii_of_N (48 + n) else ascii_of_N (87 + n).

(** The characters of a string between its quotes, as [json.Marshal] writes
    them: the quote, the backslash, the control characters and [<], [>], [&]
    escaped; U+2028 and U+2029 escaped; every byte that is not part of a
    UTF-8 encoding replaced by an escaped U+FFFD. [skip] counts the bytes
    still to pass of an encoding already checked, which are copied when
    [copy] is set. *)
Fixpoint escapeFrom (skip : nat) (copy : bool) (s : string) : string :=
  match s with
  | EmptyString => EmptyString
  | String.String c rest =>
    match skip with
    | S skip =>
      (if copy then String.String c "" else "") +:+ escapeFrom skip copy rest
    | O =>
      let n := N_of_ascii c in
      if (n <? 128)%N then
        (if bool_decide (c = "034"%char)
         then String.String "\"%char (String.String "034"%char "")
         else if bool_decide (c = "\"%char) then "\\"
         else if bool_decide (c = "010"%char) then "\n"
         else if bool_decide (c = "013"%char) then "\r"
         else if bool_decide (c = "009"%char) then "\t"
         else if ((n <? 32)%N
                  || bool_decide (c = "<"%char ∨ c = ">"%char ∨ c = "&"%char))%bool
         then "\u00" +:+ String.String (hex (N.shiftr n 4))
                            (String.String (hex (N.land n 15)) "")
         else String.String c "")
        +:+ escapeFrom 0 true rest
      else
        match runeLength c rest with
        | O => "\ufffd" +:+ escapeFrom 0 true rest
        | S k =>
          if ((n =? 226)%N && (byteAt rest 0 =? 128)%N
              && between 168 169 (byteAt rest 1))%bool
          then "\u202" +:+ String.String (hex (byteAt rest 1 - 160)) ""
               +:+ escapeFrom k false rest
          else String.String c (escapeFrom k true rest)
        end
    end
  end.

Definition escape (s : string) : string := escapeFrom 0 true s.

Definition quote (s : string) : string :=
  String.String "034"%char (escape s) +:+ String.String "034"%char "".

Fixpoint join (l : list string) : string :=
  match l with
  | [] => ""
  | [x] => x
  | x :: l => x +:+ "," +:+ join l
  end.

Definition object (members : list (string * string)) : string :=
  "{" +:+ join ((λ m, quote m.1 +:+ ":" +:+ m.2) <$> members) +:+ "}".

Definition pointer {A : Type} (write : A → string) (p : option A) : string :=
  match p with
  | Some a => write a
  | None => "null"
  end.

Definition keyLe {A : Type} (a b : string * A) : Prop := String.leb a.1 b.1 = true.

#[global] Instance keyLe_dec {A : Type} (a b : string * A) : Decision (keyLe a b).
Proof. unfold keyLe. apply _. Defined.

Definition writeMap {A : Type} (write : A → string) (m : gmap string A) : string :=
  object ((λ kv, (kv.1, write kv.2)) <$> merge_sort keyLe (map_to_list m)).

Definition writeActiveClusterInfo (i : types.ActiveClusterInfo) : string :=
  object [("ActiveClusterName", quote (types.ActiveClusterName i));
          ("FailoverVersion", pretty (types.FailoverVersion i))].

Definition writeClusterAttributeScope (s : types.ClusterAttributeScope) : string :=
  object [("ClusterAttributes",
           pointer (writeMap writeActiveClusterInfo) (types.ClusterAttributes s))].

Definition writeActiveClusters (a : types.ActiveClusters) : string :=
  object [("AttributeScopes",
           pointer (writeMap writeClusterAttributeScope) (types.AttributeScopes a))].

Definition writeClusters (l : list (option persistence.ClusterReplicationConfig))
    : string :=
  match l with
  | [] => "null"
  | _ =>
    "[" +:+ join (pointer (λ c, object [("ClusterName", quote (persistence.ClusterName c))])
                  <$> l) +:+ "]"
  end.

Definition writeDomainReplicationConfig (rc : persistence.DomainReplicationConfig)
    : string :=
  object [("Clusters", writeClusters (persistence.Clusters rc));
          ("ActiveClusterName", quote (persistence.ActiveClusterName rc));
          ("ActiveClusters", pointer writeActiveClusters (persistence.ActiveClusters rc))].

Definition writeGetDomainResponse (d : persistence.GetDomainResponse) : string :=
  object [("Info",
           pointer (λ i, object [("ID", quote (persistence.ID i));
                                 ("Name", quote (persistence.Name i))])
                   (persistence.Info d));
          ("Config",
           pointer (λ c, object [("Retention", pretty (persistence.Retention c))])
                   (persistence.Config d));
          ("ReplicationConfig",
           pointer writeDomainReplicationConfig (persistence.ReplicationConfig d))].

(** [json.Marshal(domain)] *)
Definition Marshal (domain : persistence.GetDomainResponse)
    : result error (list Byte.byte) :=
  Ok (String.list_byte_of_string (writeGetDomainResponse domain)).

End json.

(** The codec and the handlers over the reference libraries. *)
Module reference.

Definition SerializeAndCompress :=
  audit.SerializeAndCompress json.Marshal snappy.Encode.

Definition DecompressAndDeserialize :=
  audit.DecompressAndDeserialize json.Unmarshal snappy.Decode.

Definition shouldIncludeEvent := api.shouldIncludeEvent json.UnmarshalChangeSummary.

Definition GetFailoverEvent :=
  api.GetFailoverEvent canonicalOrder json.Unmarshal snappy.Decode.

End reference.


(** ** Inputs of the unit tests, and a few more *)

Module examples.

Definition info (cluster : string) (version : Z) : types.ActiveClusterInfo :=
  {| types.ActiveClusterName := cluster; types.FailoverVersion := version |}.

Definition scopeOf (attributes : list (string * types.ActiveClusterInfo))
    : types.ClusterAttributeScope :=
  {| types.ClusterAttributes := Some (list_to_map attributes) |}.

Definition activeClusters (scopes : list (string * types.ClusterAttributeScope))
    : option types.ActiveClusters :=
  Some {| types.AttributeScopes := Some (list_to_map scopes) |}.

(** A snapshot as the tests of comparison.go build them. *)
Definition snapshot (activeClusterName : string)
    (attributes : option types.ActiveClusters) : persistence.GetDomainResponse :=
  {| persistence.Info := Some {| persistence.ID := "test-domain"; persistence.Name := "" |};
     persistence.Config := None;
     persistence.ReplicationConfig :=
       Some {| persistence.Clusters := [];
               persistence.ActiveClusterName := activeClusterName;
               persistence.ActiveClusters := attributes |} |}.

(** A snapshot without replication configuration. *)
Definition bare : persistence.GetDomainResponse :=
  {| persistence.Info := Some {| persistence.ID := "test-domain"; persistence.Name := "" |};
     persistence.Config := None;
     persistence.ReplicationConfig := None |}.

(** TestComputeClusterFailovers_ClusterAttributes *)
Definition attributesBefore : persistence.GetDomainResponse :=
  snapshot "cluster1"
    (activeClusters
       [("region", scopeOf [("us-east-1", info "cluster1" 100);
                            ("us-west-1", info "cluster1" 100)])]).

Definition attributesAfter : persistence.GetDomainResponse :=
  snapshot "cluster1"
    (activeClusters
       [("region", scopeOf [("us-east-1", info "cluster2" 101);
                            ("us-west-1", info "cluster1" 100)])]).

(** TestComputeClusterFailovers_MixedFailover *)
Definition mixedBefore : persistence.GetDomainResponse :=
  snapshot "cluster1"
    (activeClusters [("region", scopeOf [("us-east-1", info "cluster1" 100)])]).

Definition mixedAfter : persistence.GetDomainResponse :=
  snapshot "cluster2"
    (activeClusters [("region", scopeOf [("us-east-1", info "cluster3" 101)])]).

(** The attribute keeps its owner and changes only its failover version. *)
Definition versionBefore : persistence.GetDomainResponse :=
  snapshot "cluster1"
    (activeClusters [("region", scopeOf [("us-east-1", info "cluster1" 100)])]).

Definition versionAfter : persistence.GetDomainResponse :=
  snapshot "cluster1"
    (activeClusters [("region", scopeOf [("us-east-1", info "cluster1" 101)])]).

(** An attribute is added: the scope is on both sides, the name on one. *)
Definition addedAfter : persistence.GetDomainResponse :=
  snapshot "cluster1"
    (activeClusters
       [("region", scopeOf [("us-east-1", info "cluster1" 100);
                            ("eu-west-1", info "cluster2" 7)])]).

(** An attribute is added whose owner is the empty name. *)
Definition unownedAfter : persistence.GetDomainResponse :=
  snapshot "cluster1"
    (activeClusters
       [("region", scopeOf [("us-east-1", info "cluster1" 100);
                            ("eu-west-1", info "" 7)])]).

(** TestDecompressAndDeserialize_RoundTrip *)
Definition roundTripOriginal : persistence.GetDomainResponse :=
  {| persistence.Info :=
       Some {| persistence.ID := "test-domain-id"; persistence.Name := "test-domain" |};
     persistence.Config := Some {| persistence.Retention := 30 |};
     persistence.ReplicationConfig :=
       Some {| persistence.Clusters :=
                 [Some {| persistence.ClusterName := "cluster1" |};
                  Some {| persistence.ClusterName := "cluster2" |}];
               persistence.ActiveClusterName := "cluster2";
               persistence.ActiveClusters := None |} |}.

(** A snapshot with two scopes, written with its keys out of order. *)
Definition twoScopes : persistence.GetDomainResponse :=
  snapshot "cluster1"
    (activeClusters
       [("region", scopeOf [("us-west-1", info "cluster2" 12);
                            ("us-east-1", info "cluster1" 10)]);
        ("city", scopeOf [("seattle", info "cluster2" (-3))])]).

(** A text with every apostrophe turned into a double quote. *)
Fixpoint text (s : string) : string :=
  match s with
  | EmptyString => EmptyString
  | String.String c rest =>
    String.String (if bool_decide (c = "'"%char) then "034"%char else c) (text rest)
  end.

Definition bytes (s : string) : list Byte.byte := String.list_byte_of_string s.

(** TestDecompressAndDeserialize_CorruptedData *)
Definition corrupted : list Byte.byte :=
  bytes "this is not valid snappy compressed data".

(** TestDecompressAndDeserialize_InvalidJSON *)
Definition invalidJSON : list Byte.byte := bytes "{this is not valid json}".

(** The summary of TestComputeChangeSummary_ClusterAttributeChange, as it is
    persisted. *)
Definition attributeSummaryJSON : string :=
  text ("{'changed_fields':['ActiveClusters'],'default_cluster_changed':false,"
        +:+ "'cluster_attributes_changed':[{'scope':'region','name':'us-east-1'}]}").

(** A summary text with a null among its changed attributes. *)
Definition nullEntrySummaryJSON : string :=
  text ("{'changed_fields':['ActiveClusters'],'default_cluster_changed':true,"
        +:+ "'cluster_attributes_changed':[null]}").

Definition filters (defaultOnly : option bool)
    (attributes : list (string * string)) : types.ListFailoverHistoryRequestFilters :=
  {| types.DomainID := Some "domain-id";
     types.Attributes :=
       (λ a, Some {| types.Scope := a.1; types.Name := a.2 |}) <$> attributes;
     types.DefaultActiveCluster := defaultOnly |}.

Definition request : api.GetFailoverEventRequest :=
  {| api.DomainID := Some "domain-id";
     api.FailoverEventID := Some "event-id";
     api.CreatedTime := Some 1700000000000%Z |}.

(** A handler whose storage holds one entry with the given payloads. *)
Definition handlerWith (stateBefore stateAfter : list Byte.byte) : api.WorkflowHandler :=
  {| api.isShuttingDown := false;
     api.GetDomainAuditLogEntry := λ _,
       Ok (Some {| persistence.Entry :=
                     Some {| persistence.EventID := "event-id";
                             persistence.StateBefore := stateBefore;
                             persistence.StateAfter := stateAfter;
                             persistence.Comment := "" |} |}) |}.

(** The JSON text of a snapshot, as the reference library writes it. *)
Definition jsonBytes (s : persistence.GetDomainResponse) : list Byte.byte :=
  match json.Marshal s with
  | Ok text => text
  | Err _ => []
  end.


(** The payload of a snapshot, as the reference libraries encode it. *)
Definition payload (s : persistence.GetDomainResponse) : list Byte.byte :=
  match reference.SerializeAndCompress s with
  | Ok compressed => compressed
  | Err _ => []
  end.

End examples.


(** ** More vocabulary: a transition read backwards *)

Module relations.

(** The record of the opposite transition: source and target exchanged. *)
Definition reverse (r : types.ClusterFailover) : types.ClusterFailover :=
  {| types.FromCluster := types.ToCluster r;
     types.ToCluster := types.FromCluster r;
     types.ClusterAttribute' := types.ClusterAttribute' r;
     types.IsDefaultCluster := types.IsDefaultCluster r |}.

(** The transitions between two snapshots, read off the data: the one of the
    default cluster, and those of the attributes of either side. *)
Definition isTransition (before after : persistence.GetDomainResponse)
    (r : types.ClusterFailover) : Prop :=
  (spec.defaultClusterOf before ≠ spec.defaultClusterOf after
   ∧ r = spec.defaultRecord (spec.defaultClusterOf before) (spec.defaultClusterOf after))
  ∨ ∃ scope name,
      scope ∈ spec.scopeNames (spec.activeClustersOf before)
              ∪ spec.scopeNames (spec.activeClustersOf after)
      ∧ name ∈ spec.attributeNames (spec.activeClustersOf before) scope
               ∪ spec.attributeNames (spec.activeClustersOf after) scope
      ∧ types.ActiveClusterName (spec.resolved (spec.activeClustersOf before) scope name)
        ≠ types.ActiveClusterName (spec.resolved (spec.activeClustersOf after) scope name)
      ∧ r = spec.attributeRecord (spec.activeClustersOf before)
              (spec.activeClustersOf after) scope name.

(** The attributes that both snapshots have, with different owners. *)
Definition isChangedAttribute (before after : persistence.GetDomainResponse)
    (scope name : string) : Prop :=
  ∃ beforeInfo afterInfo,
    spec.attributeOf (spec.activeClustersOf before) scope name = Some beforeInfo
    ∧ spec.attributeOf (spec.activeClustersOf after) scope name = Some afterInfo
    ∧ types.ActiveClusterName beforeInfo ≠ types.ActiveClusterName afterInfo.

End relations.

(** ** What the codec needs of its libraries *)

Module contracts.

Section Libraries.

Context (json_Marshal : persistence.GetDomainResponse → result error (list Byte.byte)).
Context (json_Unmarshal : list Byte.byte → result error persistence.GetDomainResponse).
Context (snappy_Encode : list Byte.byte → list Byte.byte).
Context (snappy_Decode : list Byte.byte → result error (list Byte.byte)).

(** A snapshot that the two libraries carry without loss: it marshals, its
    text unmarshals to it, and Snappy decodes what it encoded of that text. *)
Definition faithful (s : persistence.GetDomainResponse) : Prop :=
  ∃ jsonBytes,
    json_Marshal s = Ok jsonBytes
    ∧ json_Unmarshal jsonBytes = Ok s
    ∧ snappy_Decode (snappy_Encode jsonBytes) = Ok jsonBytes.

End Libraries.

End contracts.

(** ** Package audit: the operation type of an update *)

Module operations.

(** Modelled from the spec: the declaration of [persistence.DomainOperationType]
    is missing. The source files name two of its values, failover and update;
    [DomainOperationTypeOther] stands for any other. *)
Inductive DomainOperationType : Type :=
| DomainOperationTypeFailover
| DomainOperationTypeUpdate
| DomainOperationTypeOther (name : string).

#[global] Instance DomainOperationType_eq_dec : EqDecision DomainOperationType.
Proof. solve_decision. Defined.

(** Modelled from the spec: the declaration of [types.UpdateDomainRequest] is
    missing; of the request the source files read the domain name and the two
    pointers that make an update a failover. *)
Record UpdateDomainRequest : Type := {
  Name : string;
  ActiveClusterName : option string;
  ActiveClusters : option types.ActiveClusters
}.

(** DetermineOperationType determines the operation type from the update
    request. *)
Definition DetermineOperationType (request : UpdateDomainRequest)
    : DomainOperationType :=
  if decide (ActiveClusterName request ≠ None) then DomainOperationTypeFailover
  else if decide (ActiveClusters request ≠ None) then DomainOperationTypeFailover
  else DomainOperationTypeUpdate.

(** ExtractIdentity extracts identity information from the context; for now
    it returns placeholders. *)
Definition ExtractIdentity : string * string := ("unknown", "system").

End operations.

(** ** Package api: the list path *)

#[global] Instance outcome_eq_dec {A : Type} `{EqDecision A} : EqDecision (api.outcome A).
Proof. solve_decision. Defined.

Module history.

(** Modelled from the spec: the persisted entry of the data model also has an
    operation type and a creation time, which only the list path reads. They
    are kept here beside the entry modelled above; the creation time is the
    value of [CreatedTime.UnixNano()], an [int64]. *)
Record LoggedEntry : Type := {
  Entry : persistence.DomainAuditLogEntry;
  OperationType : operations.DomainOperationType;
  CreatedTime : Z
}.

(** Modelled from the spec: the declaration of
    [persistence.ReadDomainAuditLogRequest] is missing; the handler fills in
    the domain, the page size and the cursor. The fields are named
    [DomainID], [PageSize] and [NextPageToken] in the source. *)
Record ReadDomainAuditLogRequest : Type := {
  ReadDomainID : string;
  ReadPageSize : Z;
  ReadNextPageToken : list Byte.byte
}.

(** Modelled from the spec: the declaration of
    [persistence.ReadDomainAuditLogResponse] is missing; its entries are
    pointers, and it carries the cursor of the next page ([Entries] and
    [NextPageToken] in the source). *)
Record ReadDomainAuditLogResponse : Type := {
  Entries : list (option LoggedEntry);
  StoredNextPageToken : list Byte.byte
}.

(** Modelled from the spec: the declaration of [types.PaginationOptions] is
    missing; the page size is a pointer to an [int32]. *)
Record PaginationOptions : Type := {
  PageSize : option Z;
  NextPageToken : list Byte.byte
}.

(** Modelled from the spec: the declaration of
    [types.ListFailoverHistoryRequest] is missing; it has the filters and the
    pagination options, both pointers. *)
Record ListFailoverHistoryRequest : Type := {
  Filters : option types.ListFailoverHistoryRequestFilters;
  Pagination : option PaginationOptions
}.

(** Modelled from the spec: the declaration of [types.FailoverType] is
    missing. The source files name [FailoverTypeForce] only;
    [FailoverTypeOther] stands for any other. *)
Inductive FailoverType : Type :=
| FailoverTypeForce
| FailoverTypeOther.

(** Modelled from the spec: the declaration of [types.FailoverEvent] is
    missing; it is the event header of the list path (id, created time in
    milliseconds, event type), three pointers. *)
Record FailoverEvent : Type := {
  ID : option string;
  EventCreatedTime : option Z;
  EventFailoverType : option FailoverType
}.

(** Modelled from the spec: the declaration of
    [types.ListFailoverHistoryResponse] is missing; it has the events and the
    cursor, [NextPageToken] in the source. *)
Record ListFailoverHistoryResponse : Type := {
  FailoverEvents : list FailoverEvent;
  ResponseNextPageToken : list Byte.byte
}.

#[global] Instance FailoverType_eq_dec : EqDecision FailoverType.
Proof. solve_decision. Defined.

#[global] Instance FailoverEvent_eq_dec : EqDecision FailoverEvent.
Proof. solve_decision. Defined.

(** The event header built for an entry in the loop of [ListFailoverHistory]:
    [createdTimeMs := entry.CreatedTime.UnixNano() / int64(1000000)], a
    division that truncates toward zero. *)
Definition eventOf (entry : LoggedEntry) : FailoverEvent :=
  let createdTimeMs := (CreatedTime entry ÷ 1000000)%Z in
  let eventID := persistence.EventID (Entry entry) in
  let failoverType := FailoverTypeForce in
  {| ID := Some eventID;
     EventCreatedTime := Some createdTimeMs;
     EventFailoverType := Some failoverType |}.

Section ListPath.

Context (json_Unmarshal_summary : list Byte.byte → result error audit.ChangeSummary).
(** The domain manager's [ReadDomainAuditLog]: an error, or a response that
    may be nil. *)
Context (ReadDomainAuditLog :
  ReadDomainAuditLogRequest → result error (option ReadDomainAuditLogResponse)).

(** The loop over [readResp.Entries]: a nil entry panics when its operation
    type is read, and so does a filter that panics. *)
Fixpoint listEvents (entries : list (option LoggedEntry))
    (filters : types.ListFailoverHistoryRequestFilters)
    (events : list FailoverEvent) : api.outcome (list FailoverEvent) :=
  match entries with
  | [] => api.Returns events
  | None :: _ => api.Panics
  | Some entry :: entries =>
    if decide (OperationType entry ≠ operations.DomainOperationTypeFailover)
    then listEvents entries filters events
    else
      let event := eventOf entry in
      match api.shouldIncludeEvent json_Unmarshal_summary
              (persistence.Comment (Entry entry)) filters with
      | api.Returns true => listEvents entries filters (events ++ [event])
      | api.Returns false => listEvents entries filters events
      | api.Panics => api.Panics
      end
  end.

(** ListFailoverHistory returns the failover history for a domain. *)
Definition ListFailoverHistory (wh : api.WorkflowHandler)
    (request : ListFailoverHistoryRequest)
    : api.outcome (result error ListFailoverHistoryResponse) :=
  if api.isShuttingDown wh then api.Returns (Err ErrShuttingDown)
  else
    let required := BadRequestError "domain_id is required in filters" in
    match Filters request with
    | None => api.Returns (Err required)
    | Some filters =>
      match types.DomainID filters with
      | None => api.Returns (Err required)
      | Some domainID =>
        if decide (domainID = "") then api.Returns (Err required)
        else
          let pageSize := 5%Z in
          let pageSize :=
            match Pagination request with
            | Some pagination =>
              match PageSize pagination with
              | Some size => if decide (0 < size)%Z then size else pageSize
              | None => pageSize
              end
            | None => pageSize
            end in
          let nextPageToken :=
            match Pagination request with
            | Some pagination => NextPageToken pagination
            | None => []
            end in
          match ReadDomainAuditLog
                  {| ReadDomainID := domainID;
                     ReadPageSize := pageSize;
                     ReadNextPageToken := nextPageToken |} with
          | Err err => api.Returns (Err err)
          | Ok None => api.Panics
          | Ok (Some readResp) =>
            match listEvents (Entries readResp) filters [] with
            | api.Panics => api.Panics
            | api.Returns events =>
              api.Returns (Ok {| FailoverEvents := events;
                                 ResponseNextPageToken := StoredNextPageToken readResp |})
            end
          end
      end
    end.

End ListPath.

(** The request the integration tests build from a listed event to read its
    details: the event's id and created time, passed on as they are. *)
Definition detailsRequest (domainID : string) (event : FailoverEvent)
    : api.GetFailoverEventRequest :=
  {| api.DomainID := Some domainID;
     api.FailoverEventID := ID event;
     api.CreatedTime := EventCreatedTime event |}.

End history.


(** ** An audit log to run the list path on *)

Module historyExamples.

Definition row (eventID comment : string) (operationType : operations.DomainOperationType)
    (createdTime : Z) : history.LoggedEntry :=
  {| history.Entry :=
       {| persistence.EventID := eventID;
          persistence.StateBefore := [];
          persistence.StateAfter := [];
          persistence.Comment := comment |};
     history.OperationType := operationType;
     history.CreatedTime := createdTime |}.

Definition defaultSummaryJSON : string :=
  examples.text ("{'changed_fields':['ActiveClusterName'],'default_cluster_changed':true,"
                 +:+ "'cluster_attributes_changed':[]}").

(** Two failovers, one of an attribute and one of the default cluster, with
    an update between them and a failover whose comment is no summary. *)
Definition log : list history.LoggedEntry :=
  [ row "event-1" examples.attributeSummaryJSON
        operations.DomainOperationTypeFailover 1700000000123456789;
    row "event-2" "" operations.DomainOperationTypeUpdate 1700000001000000000;
    row "event-3" defaultSummaryJSON
        operations.DomainOperationTypeFailover 1700000002000000000;
    row "event-4" "not a summary"
        operations.DomainOperationTypeFailover 1700000003000000000 ].

Definition storage (request : history.ReadDomainAuditLogRequest)
    : result error (option history.ReadDomainAuditLogResponse) :=
  Ok (Some {| history.Entries := Some <$> log;
              history.StoredNextPageToken := examples.bytes "next" |}).

Definition handler : api.WorkflowHandler := examples.handlerWith [] [].

Definition listRequest (filters : types.ListFailoverHistoryRequestFilters)
    : history.ListFailoverHistoryRequest :=
  {| history.Filters := Some filters; history.Pagination := None |}.

Definition ListFailoverHistory :=
  history.ListFailoverHistory json.UnmarshalChangeSummary storage.

End historyExamples.

(** * Facts *)

(** ** Loops that append, and ranges over maps *)

Section Loops.

Context (ro : RangeOrder).

Lemma foldl_app_bind {A B : Type} (f : list B → A → list B) :
  (∀ acc x, f acc x = acc ++ f [] x) →
  ∀ l acc, foldl f acc l = acc ++ (l ≫= f []).
Proof.
  intros Hf l. induction l as [|x l IH]; intros acc; simpl.
  - by rewrite app_nil_r.
  - rewrite IH, Hf, <- app_assoc. done.
Qed.

Lemma elem_of_range {V : Type} (m : gmap string V) (k : string) (v : V) :
  (k, v) ∈ range ro m ↔ m !! k = Some v.
Proof. rewrite (range_perm ro V m). apply elem_of_map_to_list. Qed.

Lemma NoDup_range {V : Type} (m : gmap string V) : NoDup (range ro m).
Proof. rewrite (range_perm ro V m). apply NoDup_map_to_list. Qed.

Lemma range_empty {V : Type} : range ro (∅ : gmap string V) = [].
Proof.
  apply Permutation_nil_r. rewrite (range_perm ro V ∅).
  by rewrite map_to_list_empty.
Qed.

Lemma collect_keys_lookup {V : Type} (l : list (string * V)) :
  ∀ (acc : gmap string bool) (k : string),
    foldl (λ (all : gmap string bool) '(key, _), <[key := true]> all) acc l !! k
    = if decide (k ∈ l.*1) then Some true else acc !! k.
Proof.
  induction l as [|[key v] l IH]; intros acc k.
  - rewrite decide_False; [done | apply not_elem_of_nil].
  - cbn [foldl]. rewrite IH, fmap_cons. cbn [fst]. destruct (decide (k ∈ l.*1)) as [H|H].
    + rewrite decide_True; [done | by right].
    + rewrite lookup_insert. destruct (decide (key = k)) as [->|Hne].
      * rewrite decide_True; [done | by left].
      * rewrite decide_False; [done|].
        intros [?|?]%elem_of_cons; [congruence | done].
Qed.

Lemma elem_of_range_keys {V : Type} (m : gmap string V) (k : string) :
  k ∈ (range ro m).*1 ↔ is_Some (m !! k).
Proof.
  rewrite list_elem_of_fmap. split.
  - intros [[k' v] [-> H]]. apply elem_of_range in H. eauto.
  - intros [v H]. exists (k, v). split; [done | by apply elem_of_range].
Qed.

End Loops.

(** ** The differ *)

Section Differ.

Context (ro : RangeOrder).

Lemma addKeys_lookup {V : Type} (all : gmap string bool) (m : gmap string V)
    (k : string) :
  is_Some (audit.addKeys ro all m !! k) ↔ is_Some (m !! k) ∨ is_Some (all !! k).
Proof.
  unfold audit.addKeys. rewrite collect_keys_lookup.
  rewrite <- (elem_of_range_keys ro).
  destruct (decide (k ∈ (range ro m).*1)); split; intros; eauto.
  by destruct H.
Qed.

Lemma addScopes_lookup (all : gmap string bool) (attrs : option types.ActiveClusters)
    (k : string) :
  is_Some (audit.addScopes ro all attrs !! k)
  ↔ k ∈ spec.scopeNames attrs ∨ is_Some (all !! k).
Proof.
  unfold audit.addScopes, spec.scopeNames, spec.scopeMap, audit.scopesOf.
  rewrite elem_of_dom.
  destruct attrs as [[[scopes|]]|]; simpl; rewrite ?addKeys_lookup, ?lookup_empty;
    try done; split; intros; eauto; by destruct H as [[? ?]|?].
Qed.

Lemma lookupScope_spec (attrs : option types.ActiveClusters) (scope : string) :
  audit.lookupScope attrs scope
  = comma_ok types.zeroClusterAttributeScope (spec.scopeMap attrs !! scope).
Proof.
  unfold audit.lookupScope, audit.scopesOf, spec.scopeMap.
  destruct attrs as [[[scopes|]]|]; simpl; by rewrite ?lookup_empty.
Qed.

Lemma addNames_lookup (all : gmap string bool) (attrs : option types.ActiveClusters)
    (scope k : string) :
  is_Some (audit.addNames ro all (audit.lookupScope attrs scope).1
                                 (audit.lookupScope attrs scope).2 !! k)
  ↔ k ∈ spec.attributeNames attrs scope ∨ is_Some (all !! k).
Proof.
  rewrite lookupScope_spec. unfold spec.attributeNames, spec.attributeMap.
  rewrite elem_of_dom. unfold audit.addNames.
  destruct (spec.scopeMap attrs !! scope) as [[[attributes|]]|]; simpl;
    rewrite ?addKeys_lookup, ?lookup_empty;
    try done; split; intros; eauto; by destruct H as [[? ?]|?].
Qed.

Lemma lookupInfo_spec (attrs : option types.ActiveClusters) (scope name : string) :
  audit.lookupInfo (audit.lookupScope attrs scope).1
                   (audit.lookupScope attrs scope).2 name
  = comma_ok types.zeroActiveClusterInfo (spec.attributeOf attrs scope name).
Proof.
  rewrite lookupScope_spec. unfold spec.attributeOf, spec.attributeMap, audit.lookupInfo.
  destruct (spec.scopeMap attrs !! scope) as [[[attributes|]]|]; simpl;
    by rewrite ?lookup_empty.
Qed.

Lemma computeClusterAttributeChanges_bind (b a : option types.ActiveClusters) :
    audit.computeClusterAttributeChanges ro b a
    = range ro (audit.addScopes ro (audit.addScopes ro ∅ b) a) ≫= λ '(scope, _),
        range ro (audit.addNames ro
                    (audit.addNames ro ∅ (audit.lookupScope b scope).1
                                         (audit.lookupScope b scope).2)
                    (audit.lookupScope a scope).1 (audit.lookupScope a scope).2)
          ≫= λ '(name, _),
          if decide (types.ActiveClusterName (spec.resolved b scope name)
                     ≠ types.ActiveClusterName (spec.resolved a scope name))
          then [spec.attributeRecord b a scope name] else [].
Proof.
  unfold audit.computeClusterAttributeChanges.
  rewrite foldl_app_bind.
  - simpl. apply list_bind_ext; [|done]. intros [scope v].
    destruct (audit.lookupScope b scope) as [bsd bex] eqn:Hb.
    destruct (audit.lookupScope a scope) as [asd aex] eqn:Ha.
    simpl. rewrite foldl_app_bind.
    + simpl. apply list_bind_ext; [|done]. intros [name v'].
      pose proof (lookupInfo_spec b scope name) as Hbi.
      pose proof (lookupInfo_spec a scope name) as Hai.
      rewrite Hb in Hbi. rewrite Ha in Hai. simpl in Hbi, Hai.
      rewrite Hbi, Hai. unfold spec.attributeRecord, spec.resolved.
      destruct (spec.attributeOf b scope name) as [[bn bv]|],
               (spec.attributeOf a scope name) as [[an av]|]; simpl; done.
    + intros acc [name v'].
      destruct (audit.lookupInfo bsd bex name), (audit.lookupInfo asd aex name).
      destruct (decide _); [done | by rewrite app_nil_r].
  - intros acc [scope v].
    destruct (audit.lookupScope b scope) as [bsd bex].
    destruct (audit.lookupScope a scope) as [asd aex].
    rewrite foldl_app_bind.
    + symmetry. rewrite foldl_app_bind; [done|].
      intros acc' [name v'].
      destruct (audit.lookupInfo bsd bex name), (audit.lookupInfo asd aex name).
      destruct (decide _); [done | by rewrite app_nil_r].
    + intros acc' [name v'].
      destruct (audit.lookupInfo bsd bex name), (audit.lookupInfo asd aex name).
      destruct (decide _); [done | by rewrite app_nil_r].
Qed.

Lemma allScopes_lookup (b a : option types.ActiveClusters) (scope : string) :
  is_Some (audit.addScopes ro (audit.addScopes ro ∅ b) a !! scope)
  ↔ scope ∈ spec.scopeNames b ∪ spec.scopeNames a.
Proof.
  rewrite !addScopes_lookup, lookup_empty, elem_of_union.
  split; [intros [?|[?|[? ?]]]|intros [?|?]]; eauto; done.
Qed.

Lemma allNames_lookup (b a : option types.ActiveClusters) (scope name : string) :
  is_Some (audit.addNames ro
             (audit.addNames ro ∅ (audit.lookupScope b scope).1
                                  (audit.lookupScope b scope).2)
             (audit.lookupScope a scope).1 (audit.lookupScope a scope).2 !! name)
  ↔ name ∈ spec.attributeNames b scope ∪ spec.attributeNames a scope.
Proof.
  rewrite !addNames_lookup, lookup_empty, elem_of_union.
  split; [intros [?|[?|[? ?]]]|intros [?|?]]; eauto; done.
Qed.

Lemma computeClusterAttributeChanges_elem (b a : option types.ActiveClusters)
    (r : types.ClusterFailover) :
  r ∈ audit.computeClusterAttributeChanges ro b a
  ↔ ∃ scope name,
      scope ∈ spec.scopeNames b ∪ spec.scopeNames a
      ∧ name ∈ spec.attributeNames b scope ∪ spec.attributeNames a scope
      ∧ types.ActiveClusterName (spec.resolved b scope name)
        ≠ types.ActiveClusterName (spec.resolved a scope name)
      ∧ r = spec.attributeRecord b a scope name.
Proof.
  rewrite computeClusterAttributeChanges_bind, list_elem_of_bind. split.
  - intros [[scope v] [Hr Hscope]]. apply list_elem_of_bind in Hr.
    destruct Hr as [[name v'] [Hr Hname]].
    apply elem_of_range in Hscope, Hname.
    exists scope, name. split; [apply allScopes_lookup; eauto|].
    split; [apply allNames_lookup; eauto|].
    destruct (decide _) as [Hne|]; [|by apply elem_of_nil in Hr].
    apply list_elem_of_singleton in Hr. done.
  - intros (scope & name & Hscope & Hname & Hne & ->).
    apply allScopes_lookup in Hscope as [v Hscope].
    apply allNames_lookup in Hname as [v' Hname].
    exists (scope, v). split; [|by apply elem_of_range].
    apply list_elem_of_bind. exists (name, v'). split; [|by apply elem_of_range].
    rewrite decide_True by done. by apply list_elem_of_singleton.
Qed.

Lemma computeClusterAttributeChanges_NoDup (b a : option types.ActiveClusters) :
  NoDup (audit.computeClusterAttributeChanges ro b a).
Proof.
  rewrite computeClusterAttributeChanges_bind.
  assert (Hin : ∀ (scope : string) (v : bool) (r : types.ClusterFailover),
    r ∈ (range ro (audit.addNames ro
                    (audit.addNames ro ∅ (audit.lookupScope b scope).1
                                         (audit.lookupScope b scope).2)
                    (audit.lookupScope a scope).1 (audit.lookupScope a scope).2)
          ≫= λ '(name, _),
          if decide (types.ActiveClusterName (spec.resolved b scope name)
                     ≠ types.ActiveClusterName (spec.resolved a scope name))
          then [spec.attributeRecord b a scope name] else []) →
    ∃ name, r = spec.attributeRecord b a scope name).
  { intros scope v r Hr. apply list_elem_of_bind in Hr as [[name v'] [Hr _]].
    destruct (decide _); [|by apply elem_of_nil in Hr].
    apply list_elem_of_singleton in Hr. eauto. }
  apply NoDup_bind; [| |apply NoDup_range].
  - intros [s1 v1] [s2 v2] r H1 H2 Hr1 Hr2.
    apply (Hin s1 v1) in Hr1 as [n1 ->]. apply (Hin s2 v2) in Hr2 as [n2 Heq].
    injection Heq as _ _ -> _.
    apply elem_of_range in H1, H2. congruence.
  - intros [scope v] _. apply NoDup_bind; [| |apply NoDup_range].
    + intros [n1 v1] [n2 v2] r H1 H2 Hr1 Hr2.
      destruct (decide _); [|by apply elem_of_nil in Hr1].
      destruct (decide _); [|by apply elem_of_nil in Hr2].
      apply list_elem_of_singleton in Hr1, Hr2. subst r.
      injection Hr2 as _ _ ->.
      apply elem_of_range in H1, H2. congruence.
    + intros [name v'] _. destruct (decide _); [apply NoDup_singleton | apply NoDup_nil_2].
Qed.

Lemma filter_none {A : Type} (P : A → Prop) `{!∀ x, Decision (P x)} (l : list A) :
  (∀ x, x ∈ l → ¬ P x) → filter P l = [].
Proof.
  induction l as [|x l IH]; intros Hl; [done|].
  rewrite filter_cons_False; [|apply Hl; left].
  apply IH. intros y Hy. apply Hl. by right.
Qed.

End Differ.

Section DifferClaims.

Context (ro : RangeOrder).

Lemma ComputeClusterFailovers_eq (before after : persistence.GetDomainResponse) :
  audit.ComputeClusterFailovers ro before after
  = Ok (match persistence.ReplicationConfig before,
              persistence.ReplicationConfig after with
        | None, None => []
        | _, _ =>
          (if decide (spec.defaultClusterOf before ≠ spec.defaultClusterOf after)
           then [spec.defaultRecord (spec.defaultClusterOf before)
                                    (spec.defaultClusterOf after)]
           else [])
          ++ audit.computeClusterAttributeChanges ro
               (spec.activeClustersOf before) (spec.activeClustersOf after)
        end).
Proof.
  unfold audit.ComputeClusterFailovers, spec.defaultClusterOf, spec.activeClustersOf,
    spec.defaultRecord.
  destruct (persistence.ReplicationConfig before) as [rb|],
           (persistence.ReplicationConfig after) as [ra|]; simpl; try done;
    by destruct (decide _).
Qed.

Lemma attribute_record_not_default (b a : option types.ActiveClusters)
    (r : types.ClusterFailover) :
  r ∈ audit.computeClusterAttributeChanges ro b a →
  types.IsDefaultCluster r = Some false.
Proof.
  intros (scope & name & _ & _ & _ & ->)%computeClusterAttributeChanges_elem. done.
Qed.

Lemma no_attributes_without_config :
  audit.computeClusterAttributeChanges ro None None = [].
Proof.
  unfold audit.computeClusterAttributeChanges, audit.addScopes. simpl.
  by rewrite range_empty.
Qed.

(** C1. For every pair of snapshots and every iteration order, the differ
    returns a list without repetitions whose attribute records (those with
    [IsDefaultCluster = false]) are exactly the records of the pairs
    (scope, name) such that the scope is a scope of either side, the name is
    an attribute name of that scope on either side, and the owning-cluster
    names, resolved to the empty name where the attribute is missing, differ.
    The record of such a pair carries each side's resolved name and failover
    version (0 where missing), the pair itself as its cluster attribute, and
    [IsDefaultCluster = false]. *)
Theorem differ_attribute_records (before after : persistence.GetDomainResponse) :
  ∃ failovers,
    audit.ComputeClusterFailovers ro before after = Ok failovers
    ∧ NoDup failovers
    ∧ ∀ r : types.ClusterFailover,
        (r ∈ failovers ∧ types.IsDefaultCluster r = Some false)
        ↔ ∃ scope name,
            scope ∈ spec.scopeNames (spec.activeClustersOf before)
                    ∪ spec.scopeNames (spec.activeClustersOf after)
            ∧ name ∈ spec.attributeNames (spec.activeClustersOf before) scope
                     ∪ spec.attributeNames (spec.activeClustersOf after) scope
            ∧ types.ActiveClusterName
                (spec.resolved (spec.activeClustersOf before) scope name)
              ≠ types.ActiveClusterName
                  (spec.resolved (spec.activeClustersOf after) scope name)
            ∧ r = {| types.FromCluster :=
                       Some (spec.resolved (spec.activeClustersOf before) scope name);
                     types.ToCluster :=
                       Some (spec.resolved (spec.activeClustersOf after) scope name);
                     types.ClusterAttribute' :=
                       Some {| types.Scope := scope; types.Name := name |};
                     types.IsDefaultCluster := Some false |}.
Proof.
  eexists. split; [apply ComputeClusterFailovers_eq|].
  assert (Hnone : persistence.ReplicationConfig before = None →
                  persistence.ReplicationConfig after = None →
                  audit.computeClusterAttributeChanges ro
                    (spec.activeClustersOf before) (spec.activeClustersOf after) = []).
  { intros Hb Ha. unfold spec.activeClustersOf. rewrite Hb, Ha.
    apply no_attributes_without_config. }
  set (attrs := audit.computeClusterAttributeChanges ro _ _) in *.
  set (dflt := if decide (spec.defaultClusterOf before ≠ spec.defaultClusterOf after)
               then [_] else []).
  assert (Hd : ∀ r, r ∈ dflt → types.IsDefaultCluster r = Some true).
  { intros r. unfold dflt. destruct (decide _); [|by intros ?%elem_of_nil].
    by intros ->%list_elem_of_singleton. }
  assert (Hall : NoDup (dflt ++ attrs)
                 ∧ ∀ r, (r ∈ dflt ++ attrs ∧ types.IsDefaultCluster r = Some false)
                        ↔ r ∈ attrs).
  { split.
    - apply NoDup_app. split; [|split].
      + unfold dflt. destruct (decide _); [apply NoDup_singleton | apply NoDup_nil_2].
      + intros r Hr1 Hr2. apply Hd in Hr1.
        apply attribute_record_not_default in Hr2. congruence.
      + apply computeClusterAttributeChanges_NoDup.
    - intros r. rewrite elem_of_app. split.
      + intros [[Hr|Hr] Hf]; [|done]. apply Hd in Hr. congruence.
      + intros Hr. split; [by right|]. by apply attribute_record_not_default in Hr. }
  assert (Hgoal : ∀ l, (NoDup l ∧ ∀ r, (r ∈ l ∧ types.IsDefaultCluster r = Some false)
                                       ↔ r ∈ attrs) →
    NoDup l ∧ ∀ r, (r ∈ l ∧ types.IsDefaultCluster r = Some false) ↔
      ∃ scope name,
        scope ∈ spec.scopeNames (spec.activeClustersOf before)
                ∪ spec.scopeNames (spec.activeClustersOf after)
        ∧ name ∈ spec.attributeNames (spec.activeClustersOf before) scope
                 ∪ spec.attributeNames (spec.activeClustersOf after) scope
        ∧ types.ActiveClusterName
            (spec.resolved (spec.activeClustersOf before) scope name)
          ≠ types.ActiveClusterName
              (spec.resolved (spec.activeClustersOf after) scope name)
        ∧ r = spec.attributeRecord (spec.activeClustersOf before)
                (spec.activeClustersOf after) scope name).
  { intros l [Hnd Hl]. split; [done|]. intros r. rewrite Hl.
    apply computeClusterAttributeChanges_elem. }
  apply Hgoal.
  destruct (persistence.ReplicationConfig before) as [rb|] eqn:Hb,
           (persistence.ReplicationConfig after) as [ra|] eqn:Ha; try apply Hall.
  split; [apply NoDup_nil_2|]. intros r. rewrite Hnone by done.
  split; [by intros [?%elem_of_nil _] | by intros ?%elem_of_nil].
Qed.

(** C2. When neither snapshot has a replication configuration the differ
    returns the empty list. When at least one has, a side without one
    contributing the empty default-cluster name, the records with
    [IsDefaultCluster = true] in the result are: exactly one if the two
    default names differ, with [FromCluster] the name of [before] at version
    0, [ToCluster] the name of [after] at version 0 and no cluster attribute;
    none if the names are equal. *)
Theorem differ_default_record (before after : persistence.GetDomainResponse) :
  (persistence.ReplicationConfig before = None
   ∧ persistence.ReplicationConfig after = None
   → audit.ComputeClusterFailovers ro before after = Ok [])
  ∧ (is_Some (persistence.ReplicationConfig before)
     ∨ is_Some (persistence.ReplicationConfig after)
     → ∃ failovers,
         audit.ComputeClusterFailovers ro before after = Ok failovers
         ∧ filter (λ r, types.IsDefaultCluster r = Some true) failovers
           = if decide (spec.defaultClusterOf before ≠ spec.defaultClusterOf after)
             then [ {| types.FromCluster :=
                         Some {| types.ActiveClusterName := spec.defaultClusterOf before;
                                 types.FailoverVersion := 0 |};
                       types.ToCluster :=
                         Some {| types.ActiveClusterName := spec.defaultClusterOf after;
                                 types.FailoverVersion := 0 |};
                       types.ClusterAttribute' := None;
                       types.IsDefaultCluster := Some true |} ]
             else []).
Proof.
  rewrite ComputeClusterFailovers_eq. split.
  - by intros [-> ->].
  - intros Hsome. eexists. split; [done|].
    assert (Hf : filter (λ r, types.IsDefaultCluster r = Some true)
                   (audit.computeClusterAttributeChanges ro
                      (spec.activeClustersOf before) (spec.activeClustersOf after)) = []).
    { apply filter_none. intros r Hr%attribute_record_not_default. congruence. }
    destruct (persistence.ReplicationConfig before) as [rb|],
             (persistence.ReplicationConfig after) as [ra|];
      try (rewrite filter_app, Hf, app_nil_r; by destruct (decide _)).
    by destruct Hsome as [[? ?]|[? ?]].
Qed.

End DifferClaims.

(** ** The change summary *)

Section Summary.

Context (ro : RangeOrder).

Lemma compareClusterAttributes_elem (b a : option types.ActiveClusters)
    (x : option audit.ClusterAttributeRef) :
  x ∈ audit.compareClusterAttributes ro b a
  ↔ ∃ scope name beforeInfo afterInfo,
      x = Some {| audit.Scope := scope; audit.Name := name |}
      ∧ spec.attributeOf b scope name = Some beforeInfo
      ∧ spec.attributeOf a scope name = Some afterInfo
      ∧ types.ActiveClusterName beforeInfo ≠ types.ActiveClusterName afterInfo.
Proof.
  unfold audit.compareClusterAttributes, spec.attributeOf, spec.attributeMap,
    spec.scopeMap.
  destruct b as [[bscopes]|], a as [[ascopes]|]; simpl.
  2-4: split; [by intros ?%elem_of_nil|];
       intros (? & ? & ? & ? & _ & H1 & H2 & _);
       repeat (case_match; simplify_eq); by rewrite ?lookup_empty in *.
  destruct bscopes as [bscopes|], ascopes as [ascopes|]; simpl.
  2-4: split; [by intros ?%elem_of_nil|];
       intros (? & ? & ? & ? & _ & H1 & H2 & _);
       repeat (case_match; simplify_eq); by rewrite ?lookup_empty in *.
  rewrite foldl_app_bind.
  - simpl. rewrite list_elem_of_bind. split.
    + intros [[scope asd] [Hx Hscope]]. apply elem_of_range in Hscope.
      destruct (bscopes !! scope) as [bsd|] eqn:Hb; [|by apply elem_of_nil in Hx].
      destruct (types.ClusterAttributes asd) as [aattrs|] eqn:Haa;
        [|by apply elem_of_nil in Hx].
      destruct (types.ClusterAttributes bsd) as [battrs|] eqn:Hba;
        [|by apply elem_of_nil in Hx].
      rewrite foldl_app_bind in Hx.
      * simpl in Hx. apply list_elem_of_bind in Hx as [[name ai] [Hx Hname]].
        apply elem_of_range in Hname.
        destruct (battrs !! name) as [bi|] eqn:Hbi; [|by apply elem_of_nil in Hx].
        destruct (decide _) as [Hne|]; [|by apply elem_of_nil in Hx].
        apply list_elem_of_singleton in Hx.
        exists scope, name, bi, ai. rewrite Hb, Hscope, Haa, Hba. done.
      * intros acc [name ai]. destruct (battrs !! name); [|by rewrite app_nil_r].
        destruct (decide _); [done | by rewrite app_nil_r].
    + intros (scope & name & bi & ai & -> & Hbi & Hai & Hne). revert Hbi Hai.
      destruct (bscopes !! scope) as [bsd|] eqn:Hb;
        [|simpl; by rewrite lookup_empty].
      destruct (ascopes !! scope) as [asd|] eqn:Ha;
        [|simpl; by rewrite (lookup_empty name)].
      destruct (types.ClusterAttributes bsd) as [battrs|] eqn:Hba;
        [|simpl; by rewrite lookup_empty].
      destruct (types.ClusterAttributes asd) as [aattrs|] eqn:Haa;
        [|simpl; by rewrite (lookup_empty name)].
      simpl. intros Hbi Hai.
      exists (scope, asd). split; [|by apply elem_of_range].
      rewrite Hb, Haa, Hba. rewrite foldl_app_bind.
      * simpl. apply list_elem_of_bind. exists (name, ai).
        split; [|by apply elem_of_range].
        rewrite Hbi, decide_True by done. by apply list_elem_of_singleton.
      * intros acc [name' ai']. destruct (battrs !! name'); [|by rewrite app_nil_r].
        destruct (decide _); [done | by rewrite app_nil_r].
  - intros acc [scope asd]. destruct (bscopes !! scope) as [bsd|]; [|by rewrite app_nil_r].
    destruct (types.ClusterAttributes asd) as [aattrs|]; [|by rewrite app_nil_r].
    destruct (types.ClusterAttributes bsd) as [battrs|]; [|by rewrite app_nil_r].
    rewrite foldl_app_bind.
    + symmetry. rewrite foldl_app_bind; [done|].
      intros acc' [name ai]. destruct (battrs !! name); [|by rewrite app_nil_r].
      destruct (decide _); [done | by rewrite app_nil_r].
    + intros acc' [name ai]. destruct (battrs !! name); [|by rewrite app_nil_r].
      destruct (decide _); [done | by rewrite app_nil_r].
Qed.

Lemma compareClusterAttributes_NoDup (b a : option types.ActiveClusters) :
  NoDup (audit.compareClusterAttributes ro b a).
Proof.
  unfold audit.compareClusterAttributes.
  destruct b as [[[bscopes|]]|], a as [[[ascopes|]]|]; simpl; try apply NoDup_nil_2.
  assert (Hinner : ∀ acc (battrs : gmap string types.ActiveClusterInfo) scope
                     (x : string * types.ActiveClusterInfo),
    (let '(name, afterInfo) := x in
     match battrs !! name with
     | None => acc
     | Some beforeInfo =>
       if decide (types.ActiveClusterName beforeInfo ≠ types.ActiveClusterName afterInfo)
       then acc ++ [Some {| audit.Scope := scope; audit.Name := name |}]
       else acc
     end)
    = acc ++ (let '(name, afterInfo) := x in
     match battrs !! name with
     | None => []
     | Some beforeInfo =>
       if decide (types.ActiveClusterName beforeInfo ≠ types.ActiveClusterName afterInfo)
       then [] ++ [Some {| audit.Scope := scope; audit.Name := name |}]
       else []
     end)).
  { intros acc battrs scope [name ai]. destruct (battrs !! name); [|by rewrite app_nil_r].
    destruct (decide _); [done | by rewrite app_nil_r]. }
  assert (Hin : ∀ (battrs aattrs : gmap string types.ActiveClusterInfo) scope x,
    x ∈ foldl (λ (changed : list (option audit.ClusterAttributeRef)) '(name, afterInfo),
          match battrs !! name with
          | None => changed
          | Some beforeInfo =>
            if decide (types.ActiveClusterName beforeInfo
                       ≠ types.ActiveClusterName afterInfo)
            then changed ++ [Some {| audit.Scope := scope; audit.Name := name |}]
            else changed
          end) [] (range ro aattrs) →
    ∃ name, x = Some {| audit.Scope := scope; audit.Name := name |}).
  { intros battrs aattrs scope x. rewrite foldl_app_bind by (intros; apply Hinner).
    simpl. intros [[name ai] [Hx _]]%list_elem_of_bind.
    destruct (battrs !! name); [|by apply elem_of_nil in Hx].
    destruct (decide _); [|by apply elem_of_nil in Hx].
    apply list_elem_of_singleton in Hx. eauto. }
  assert (Hnd : ∀ (battrs aattrs : gmap string types.ActiveClusterInfo) scope,
    NoDup (foldl (λ (changed : list (option audit.ClusterAttributeRef)) '(name, afterInfo),
          match battrs !! name with
          | None => changed
          | Some beforeInfo =>
            if decide (types.ActiveClusterName beforeInfo
                       ≠ types.ActiveClusterName afterInfo)
            then changed ++ [Some {| audit.Scope := scope; audit.Name := name |}]
            else changed
          end) [] (range ro aattrs))).
  { intros battrs aattrs scope. rewrite foldl_app_bind by (intros; apply Hinner).
    simpl. apply NoDup_bind; [| |apply NoDup_range].
    - intros [n1 a1] [n2 a2] x H1 H2 Hx1 Hx2.
      destruct (battrs !! n1); [|by apply elem_of_nil in Hx1].
      destruct (decide _); [|by apply elem_of_nil in Hx1].
      destruct (battrs !! n2); [|by apply elem_of_nil in Hx2].
      destruct (decide _); [|by apply elem_of_nil in Hx2].
      apply list_elem_of_singleton in Hx1, Hx2. subst x. injection Hx2 as ->.
      apply elem_of_range in H1, H2. congruence.
    - intros [name ai] _. destruct (battrs !! name); [|apply NoDup_nil_2].
      destruct (decide _); [apply NoDup_singleton | apply NoDup_nil_2]. }
  rewrite foldl_app_bind.
  - apply NoDup_bind; [| |apply NoDup_range].
    + intros [s1 d1] [s2 d2] x H1 H2 Hx1 Hx2.
      destruct (bscopes !! s1) as [b1|]; [|by apply elem_of_nil in Hx1].
      destruct (types.ClusterAttributes d1); [|by apply elem_of_nil in Hx1].
      destruct (types.ClusterAttributes b1); [|by apply elem_of_nil in Hx1].
      destruct (bscopes !! s2) as [b2|]; [|by apply elem_of_nil in Hx2].
      destruct (types.ClusterAttributes d2); [|by apply elem_of_nil in Hx2].
      destruct (types.ClusterAttributes b2); [|by apply elem_of_nil in Hx2].
      apply Hin in Hx1 as [n1 ->]. apply Hin in Hx2 as [n2 Heq].
      injection Heq as -> _. apply elem_of_range in H1, H2. congruence.
    + intros [scope asd] _. destruct (bscopes !! scope) as [bsd|]; [|apply NoDup_nil_2].
      destruct (types.ClusterAttributes asd); [|apply NoDup_nil_2].
      destruct (types.ClusterAttributes bsd); [|apply NoDup_nil_2].
      apply Hnd.
  - intros acc [scope asd]. destruct (bscopes !! scope) as [bsd|]; [|by rewrite app_nil_r].
    destruct (types.ClusterAttributes asd) as [aattrs|]; [|by rewrite app_nil_r].
    destruct (types.ClusterAttributes bsd) as [battrs|]; [|by rewrite app_nil_r].
    rewrite foldl_app_bind by (intros; apply Hinner).
    symmetry. by rewrite foldl_app_bind by (intros; apply Hinner).
Qed.

End Summary.

Section SummaryClaims.

Context (ro : RangeOrder).

Lemma ComputeChangeSummary_eq (before after : persistence.GetDomainResponse) :
  audit.ComputeChangeSummary ro before after
  = Ok (match persistence.ReplicationConfig before,
              persistence.ReplicationConfig after with
        | Some beforeRC, Some afterRC =>
          let changed := bool_decide (persistence.ActiveClusterName beforeRC
                                      ≠ persistence.ActiveClusterName afterRC) in
          let refs := audit.compareClusterAttributes ro
                        (persistence.ActiveClusters beforeRC)
                        (persistence.ActiveClusters afterRC) in
          {| audit.ChangedFields :=
               (if changed then ["ActiveClusterName"] else [])
               ++ (if decide (refs = []) then [] else ["ActiveClusters"]);
             audit.DefaultClusterChanged := changed;
             audit.ClusterAttributesChanged := refs |}
        | _, _ => spec.emptySummary
        end).
Proof.
  unfold audit.ComputeChangeSummary, spec.emptySummary.
  destruct (persistence.ReplicationConfig before) as [rb|],
           (persistence.ReplicationConfig after) as [ra|]; try done.
  simpl. f_equal.
  destruct (audit.compareClusterAttributes ro _ _) as [|x refs] eqn:Hrefs; simpl.
  - destruct (decide (persistence.ActiveClusterName rb ≠ _)) as [Hne|Heq].
    + by rewrite bool_decide_eq_true_2.
    + by rewrite bool_decide_eq_false_2.
  - destruct (decide (persistence.ActiveClusterName rb ≠ _)) as [Hne|Heq].
    + by rewrite bool_decide_eq_true_2.
    + by rewrite bool_decide_eq_false_2.
Qed.

Lemma summary_refs (before after : persistence.GetDomainResponse)
    (summary : audit.ChangeSummary) :
  audit.ComputeChangeSummary ro before after = Ok summary →
  audit.ClusterAttributesChanged summary
  = audit.compareClusterAttributes ro (spec.activeClustersOf before)
                                      (spec.activeClustersOf after).
Proof.
  rewrite ComputeChangeSummary_eq. intros [= <-]. unfold spec.activeClustersOf.
  destruct (persistence.ReplicationConfig before) as [rb|],
           (persistence.ReplicationConfig after) as [ra|]; simpl; try done.
  by destruct (persistence.ActiveClusters rb) as [[[?|]]|].
Qed.

Lemma ComputeChangeSummary_total (before after : persistence.GetDomainResponse) :
  ∃ summary, audit.ComputeChangeSummary ro before after = Ok summary.
Proof. rewrite ComputeChangeSummary_eq. eauto. Qed.

Lemma compareClusterAttributes_same (attrs : option types.ActiveClusters) :
  audit.compareClusterAttributes ro attrs attrs = [].
Proof.
  destruct (audit.compareClusterAttributes ro attrs attrs) as [|x l] eqn:Hl; [done|].
  assert (Hx : x ∈ audit.compareClusterAttributes ro attrs attrs)
    by (rewrite Hl; left).
  apply compareClusterAttributes_elem in Hx
    as (scope & name & bi & ai & _ & Hb & Ha & Hne).
  congruence.
Qed.

Lemma attributeOf_dom (attrs : option types.ActiveClusters) (scope name : string)
    (info : types.ActiveClusterInfo) :
  spec.attributeOf attrs scope name = Some info →
  scope ∈ spec.scopeNames attrs ∧ name ∈ spec.attributeNames attrs scope.
Proof.
  intros Hi. unfold spec.scopeNames, spec.attributeNames.
  rewrite !elem_of_dom. split; [|by eexists].
  unfold spec.attributeOf, spec.attributeMap in Hi.
  destruct (spec.scopeMap attrs !! scope); [by eexists|].
  by rewrite lookup_empty in Hi.
Qed.

Lemma attributeOf_config (s : persistence.GetDomainResponse) (scope name : string)
    (info : types.ActiveClusterInfo) :
  spec.attributeOf (spec.activeClustersOf s) scope name = Some info →
  is_Some (persistence.ReplicationConfig s).
Proof.
  unfold spec.activeClustersOf.
  destruct (persistence.ReplicationConfig s); [by eauto|].
  unfold spec.attributeOf, spec.attributeMap. simpl. by rewrite !lookup_empty.
Qed.

Lemma differ_reports_one_sided (before after : persistence.GetDomainResponse)
    (scope name : string) (info : types.ActiveClusterInfo) :
  (spec.attributeOf (spec.activeClustersOf before) scope name = Some info
   ∧ spec.attributeOf (spec.activeClustersOf after) scope name = None)
  ∨ (spec.attributeOf (spec.activeClustersOf before) scope name = None
     ∧ spec.attributeOf (spec.activeClustersOf after) scope name = Some info) →
  types.ActiveClusterName info ≠ "" →
  ∃ failovers,
    audit.ComputeClusterFailovers ro before after = Ok failovers
    ∧ spec.attributeRecord (spec.activeClustersOf before)
        (spec.activeClustersOf after) scope name ∈ failovers.
Proof.
  intros Hside Hname. rewrite ComputeClusterFailovers_eq. eexists. split; [done|].
  assert (Hin : spec.attributeRecord (spec.activeClustersOf before)
                  (spec.activeClustersOf after) scope name
                ∈ audit.computeClusterAttributeChanges ro
                    (spec.activeClustersOf before) (spec.activeClustersOf after)).
  { apply computeClusterAttributeChanges_elem. exists scope, name.
    rewrite !elem_of_union. unfold spec.resolved.
    destruct Hside as [[Hb Ha]|[Hb Ha]]; rewrite Hb, Ha; simpl.
    - apply attributeOf_dom in Hb as [? ?]. repeat split; auto.
    - apply attributeOf_dom in Ha as [? ?]. repeat split; auto. }
  destruct (persistence.ReplicationConfig before) as [rb|] eqn:Hrb,
           (persistence.ReplicationConfig after) as [ra|] eqn:Hra;
    try (apply elem_of_app; by right).
  destruct Hside as [[H _]|[_ H]]; apply attributeOf_config in H as [? H]; congruence.
Qed.

Lemma differ_one_sided_exact (before after : persistence.GetDomainResponse)
    (scope name : string) (info : types.ActiveClusterInfo) :
  (spec.attributeOf (spec.activeClustersOf before) scope name = Some info
   ∧ spec.attributeOf (spec.activeClustersOf after) scope name = None)
  ∨ (spec.attributeOf (spec.activeClustersOf before) scope name = None
     ∧ spec.attributeOf (spec.activeClustersOf after) scope name = Some info) →
  ∃ failovers,
    audit.ComputeClusterFailovers ro before after = Ok failovers
    ∧ ((∃ r, r ∈ failovers
             ∧ types.ClusterAttribute' r
               = Some {| types.Scope := scope; types.Name := name |})
       ↔ types.ActiveClusterName info ≠ "")
    ∧ (types.ActiveClusterName info ≠ "" →
       spec.attributeRecord (spec.activeClustersOf before)
         (spec.activeClustersOf after) scope name ∈ failovers).
Proof.
  intros Hside.
  destruct (audit.ComputeClusterFailovers ro before after) as [failovers|e] eqn:Hf;
    [|by rewrite ComputeClusterFailovers_eq in Hf].
  exists failovers. split; [done|].
  assert (Hrep : types.ActiveClusterName info ≠ "" →
                 spec.attributeRecord (spec.activeClustersOf before)
                   (spec.activeClustersOf after) scope name ∈ failovers).
  { intros Hname.
    destruct (differ_reports_one_sided before after scope name info Hside Hname)
      as (l & Hl & Hin). congruence. }
  split; [|done]. split; [|by eauto].
  intros (r & Hr & Hattr). revert Hf Hr. rewrite ComputeClusterFailovers_eq.
  intros [= <-] Hr.
  assert (Hin : r ∈ audit.computeClusterAttributeChanges ro
                      (spec.activeClustersOf before) (spec.activeClustersOf after)).
  { destruct (persistence.ReplicationConfig before) as [rb|],
             (persistence.ReplicationConfig after) as [ra|];
      try (apply elem_of_app in Hr as [Hr|Hr]; [|done];
           destruct (decide _); [|by apply elem_of_nil in Hr];
           apply list_elem_of_singleton in Hr; by subst r).
    by apply elem_of_nil in Hr. }
  apply computeClusterAttributeChanges_elem in Hin
    as (scope' & name' & _ & _ & Hne & ->).
  simpl in Hattr. injection Hattr as -> ->.
  unfold spec.resolved in Hne.
  destruct Hside as [[Hb Ha]|[Hb Ha]]; rewrite Hb, Ha in Hne; simpl in Hne; congruence.
Qed.

(** C4, amended. The changed-attribute list of the summary holds, once each,
    the references [{scope, name}] of exactly the attributes that both
    snapshots have and whose owning cluster names differ. A pair that one
    side lacks is never in it; the differ reports such a pair exactly when
    its owner on the side that has it is not the empty name. When the list is
    not empty, "ActiveClusters" is the last of the changed fields. *)
Theorem summary_attribute_refs (before after : persistence.GetDomainResponse) :
  ∃ summary,
    audit.ComputeChangeSummary ro before after = Ok summary
    ∧ NoDup (audit.ClusterAttributesChanged summary)
    ∧ (∀ x : option audit.ClusterAttributeRef,
         x ∈ audit.ClusterAttributesChanged summary
         ↔ ∃ scope name beforeInfo afterInfo,
             x = Some {| audit.Scope := scope; audit.Name := name |}
             ∧ spec.attributeOf (spec.activeClustersOf before) scope name
               = Some beforeInfo
             ∧ spec.attributeOf (spec.activeClustersOf after) scope name
               = Some afterInfo
             ∧ types.ActiveClusterName beforeInfo ≠ types.ActiveClusterName afterInfo)
    ∧ (∀ scope name,
         spec.attributeOf (spec.activeClustersOf before) scope name = None
         ∨ spec.attributeOf (spec.activeClustersOf after) scope name = None →
         Some {| audit.Scope := scope; audit.Name := name |}
         ∉ audit.ClusterAttributesChanged summary)
    ∧ (∀ scope name info,
         (spec.attributeOf (spec.activeClustersOf before) scope name = Some info
          ∧ spec.attributeOf (spec.activeClustersOf after) scope name = None)
         ∨ (spec.attributeOf (spec.activeClustersOf before) scope name = None
            ∧ spec.attributeOf (spec.activeClustersOf after) scope name = Some info) →
         ∃ failovers,
           audit.ComputeClusterFailovers ro before after = Ok failovers
           ∧ ((∃ r, r ∈ failovers
                    ∧ types.ClusterAttribute' r
                      = Some {| types.Scope := scope; types.Name := name |})
              ↔ types.ActiveClusterName info ≠ "")
           ∧ (types.ActiveClusterName info ≠ "" →
              spec.attributeRecord (spec.activeClustersOf before)
                (spec.activeClustersOf after) scope name ∈ failovers))
    ∧ (audit.ClusterAttributesChanged summary ≠ [] →
       ∃ fields, audit.ChangedFields summary = fields ++ ["ActiveClusters"]).
Proof.
  destruct (ComputeChangeSummary_total before after) as [summary Hs].
  exists summary. split; [done|].
  pose proof (summary_refs before after summary Hs) as Hrefs.
  split; [rewrite Hrefs; apply compareClusterAttributes_NoDup|].
  split; [intros x; rewrite Hrefs; apply compareClusterAttributes_elem|].
  split; [|split].
  - intros scope name Hnone. rewrite Hrefs.
    intros (s & n & bi & ai & [= <- <-] & Hb & Ha & _)%compareClusterAttributes_elem.
    destruct Hnone; congruence.
  - intros scope name info Hside. by apply differ_one_sided_exact.
  - revert Hs. rewrite ComputeChangeSummary_eq. intros [= <-].
    destruct (persistence.ReplicationConfig before) as [rb|],
             (persistence.ReplicationConfig after) as [ra|]; simpl; try done.
    intros Hne. rewrite decide_False by done. eauto.
Qed.

(** C5, amended. When both snapshots have a replication configuration and
    their default active-cluster names differ, the summary has
    [DefaultClusterChanged = true], and it has it in no other case. Every
    attribute that both snapshots have and whose owning cluster names differ
    is in the changed-attribute list, once, and nothing else is: an attribute
    that one side lacks is not listed, nor is one whose owning cluster name is
    the same on both sides, whatever its failover versions. A snapshot
    without replication configuration yields the empty summary. *)
Theorem summary_never_understates (before after : persistence.GetDomainResponse) :
  ∃ summary,
    audit.ComputeChangeSummary ro before after = Ok summary
    ∧ (audit.DefaultClusterChanged summary = true
       ↔ ∃ beforeRC afterRC,
           persistence.ReplicationConfig before = Some beforeRC
           ∧ persistence.ReplicationConfig after = Some afterRC
           ∧ persistence.ActiveClusterName beforeRC
             ≠ persistence.ActiveClusterName afterRC)
    ∧ (∀ scope name beforeInfo afterInfo,
         spec.attributeOf (spec.activeClustersOf before) scope name = Some beforeInfo →
         spec.attributeOf (spec.activeClustersOf after) scope name = Some afterInfo →
         types.ActiveClusterName beforeInfo ≠ types.ActiveClusterName afterInfo →
         Some {| audit.Scope := scope; audit.Name := name |}
         ∈ audit.ClusterAttributesChanged summary)
    ∧ NoDup (audit.ClusterAttributesChanged summary)
    ∧ (∀ x : option audit.ClusterAttributeRef,
         x ∈ audit.ClusterAttributesChanged summary →
         ∃ scope name beforeInfo afterInfo,
           x = Some {| audit.Scope := scope; audit.Name := name |}
           ∧ spec.attributeOf (spec.activeClustersOf before) scope name
             = Some beforeInfo
           ∧ spec.attributeOf (spec.activeClustersOf after) scope name
             = Some afterInfo
           ∧ types.ActiveClusterName beforeInfo ≠ types.ActiveClusterName afterInfo)
    ∧ (∀ scope name,
         spec.attributeOf (spec.activeClustersOf before) scope name = None
         ∨ spec.attributeOf (spec.activeClustersOf after) scope name = None →
         Some {| audit.Scope := scope; audit.Name := name |}
         ∉ audit.ClusterAttributesChanged summary)
    ∧ (∀ scope name beforeInfo afterInfo,
         spec.attributeOf (spec.activeClustersOf before) scope name = Some beforeInfo →
         spec.attributeOf (spec.activeClustersOf after) scope name = Some afterInfo →
         types.ActiveClusterName beforeInfo = types.ActiveClusterName afterInfo →
         Some {| audit.Scope := scope; audit.Name := name |}
         ∉ audit.ClusterAttributesChanged summary)
    ∧ (persistence.ReplicationConfig before = None
       ∨ persistence.ReplicationConfig after = None →
       summary = spec.emptySummary).
Proof.
  destruct (ComputeChangeSummary_total before after) as [summary Hs].
  exists summary. split; [done|].
  pose proof (summary_refs before after summary Hs) as Hrefs.
  split; [|split; [|split; [|split; [|split; [|split]]]]].
  - revert Hs. rewrite ComputeChangeSummary_eq. intros [= <-].
    destruct (persistence.ReplicationConfig before) as [rb|],
             (persistence.ReplicationConfig after) as [ra|]; simpl.
    + rewrite bool_decide_eq_true. split; [intros; by eauto|].
      by intros (? & ? & [= <-] & [= <-] & ?).
    + split; [done | by intros (? & ? & _ & ? & _)].
    + split; [done | by intros (? & ? & ? & _)].
    + split; [done | by intros (? & ? & ? & _)].
  - intros scope name bi ai Hb Ha Hne. rewrite Hrefs.
    apply compareClusterAttributes_elem. by exists scope, name, bi, ai.
  - rewrite Hrefs. apply compareClusterAttributes_NoDup.
  - intros x. rewrite Hrefs. by intros ?%compareClusterAttributes_elem.
  - intros scope name Hnone. rewrite Hrefs.
    intros (s & n & bi & ai & [= <- <-] & Hb & Ha & _)%compareClusterAttributes_elem.
    destruct Hnone; congruence.
  - intros scope name bi ai Hb Ha Heq. rewrite Hrefs.
    intros (s & n & bi' & ai' & [= <- <-] & Hb' & Ha' & Hne)%compareClusterAttributes_elem.
    congruence.
  - revert Hs. rewrite ComputeChangeSummary_eq. intros [= <-].
    destruct (persistence.ReplicationConfig before) as [rb|],
             (persistence.ReplicationConfig after) as [ra|]; try done.
    by intros [?|?].
Qed.

(** C8. [ComputeChangeSummary] returns a summary and no error for every pair
    of snapshots; the summary is the empty one when either snapshot lacks a
    replication configuration, and when the two snapshots are the same. *)
Theorem summary_total_and_empty (before after : persistence.GetDomainResponse) :
  (∃ summary, audit.ComputeChangeSummary ro before after = Ok summary)
  ∧ (persistence.ReplicationConfig before = None
     ∨ persistence.ReplicationConfig after = None →
     audit.ComputeChangeSummary ro before after
     = Ok {| audit.ChangedFields := [];
             audit.DefaultClusterChanged := false;
             audit.ClusterAttributesChanged := [] |})
  ∧ audit.ComputeChangeSummary ro before before
    = Ok {| audit.ChangedFields := [];
            audit.DefaultClusterChanged := false;
            audit.ClusterAttributesChanged := [] |}.
Proof.
  split; [apply ComputeChangeSummary_total|]. rewrite !ComputeChangeSummary_eq. split.
  - intros [-> | ->]; [done|]. by destruct (persistence.ReplicationConfig before).
  - destruct (persistence.ReplicationConfig before) as [rb|]; [|done]. simpl.
    rewrite compareClusterAttributes_same, bool_decide_eq_false_2; [done|].
    by intros H.
Qed.

(** C10. The changed-fields list of a summary is a sub-list of
    ["ActiveClusterName"; "ActiveClusters"] without repetition; it has
    "ActiveClusterName" exactly when [DefaultClusterChanged] is true and
    "ActiveClusters" exactly when the changed-attribute list is not empty. *)
Theorem summary_changed_fields (before after : persistence.GetDomainResponse) :
  ∃ summary,
    audit.ComputeChangeSummary ro before after = Ok summary
    ∧ sublist (audit.ChangedFields summary) ["ActiveClusterName"; "ActiveClusters"]
    ∧ NoDup (audit.ChangedFields summary)
    ∧ ("ActiveClusterName" ∈ audit.ChangedFields summary
       ↔ audit.DefaultClusterChanged summary = true)
    ∧ ("ActiveClusters" ∈ audit.ChangedFields summary
       ↔ audit.ClusterAttributesChanged summary ≠ []).
Proof.
  rewrite ComputeChangeSummary_eq. eexists. split; [done|].
  destruct (persistence.ReplicationConfig before) as [rb|],
           (persistence.ReplicationConfig after) as [ra|]; simpl.
  2-4: repeat split; try apply sublist_nil_l; try apply NoDup_nil_2;
       try (by intros ?%elem_of_nil); done.
  destruct (bool_decide _), (decide (_ = [])) as [->|Hne]; simpl;
    repeat split;
    try done;
    try (by repeat constructor);
    try (by intros ?%elem_of_nil);
    try (by intros [=]%list_elem_of_singleton);
    try (by left);
    try (right; by left);
    try (intros Hc; by destruct Hc).
  all: try (apply NoDup_cons; split; [by intros [=]%list_elem_of_singleton|]).
  all: try apply NoDup_singleton.
  all: try apply NoDup_nil_2.
Qed.

End SummaryClaims.

(** ** The unit tests of comparison.go *)

Example TestComputeChangeSummary_DefaultClusterChange :
  audit.ComputeChangeSummary canonicalOrder
    (examples.snapshot "cluster1" None) (examples.snapshot "cluster2" None)
  = Ok {| audit.ChangedFields := ["ActiveClusterName"];
          audit.DefaultClusterChanged := true;
          audit.ClusterAttributesChanged := [] |}.
Proof. reflexivity. Qed.

Example TestComputeChangeSummary_ClusterAttributeChange :
  audit.ComputeChangeSummary canonicalOrder
    examples.attributesBefore examples.attributesAfter
  = Ok {| audit.ChangedFields := ["ActiveClusters"];
          audit.DefaultClusterChanged := false;
          audit.ClusterAttributesChanged :=
            [Some {| audit.Scope := "region"; audit.Name := "us-east-1" |}] |}.
Proof. vm_compute. reflexivity. Qed.

Example TestComputeClusterFailovers_DefaultCluster :
  audit.ComputeClusterFailovers canonicalOrder
    (examples.snapshot "cluster1" None) (examples.snapshot "cluster2" None)
  = Ok [spec.defaultRecord "cluster1" "cluster2"].
Proof. vm_compute. reflexivity. Qed.

Example TestComputeClusterFailovers_ClusterAttributes :
  audit.ComputeClusterFailovers canonicalOrder
    examples.attributesBefore examples.attributesAfter
  = Ok [ {| types.FromCluster := Some (examples.info "cluster1" 100);
            types.ToCluster := Some (examples.info "cluster2" 101);
            types.ClusterAttribute' :=
              Some {| types.Scope := "region"; types.Name := "us-east-1" |};
            types.IsDefaultCluster := Some false |} ].
Proof. vm_compute. reflexivity. Qed.

Example TestComputeClusterFailovers_MixedFailover :
  audit.ComputeClusterFailovers canonicalOrder examples.mixedBefore examples.mixedAfter
  = Ok [ spec.defaultRecord "cluster1" "cluster2";
         {| types.FromCluster := Some (examples.info "cluster1" 100);
            types.ToCluster := Some (examples.info "cluster3" 101);
            types.ClusterAttribute' :=
              Some {| types.Scope := "region"; types.Name := "us-east-1" |};
            types.IsDefaultCluster := Some false |} ].
Proof. vm_compute. reflexivity. Qed.

Example TestComputeClusterFailovers_NoChanges :
  audit.ComputeClusterFailovers canonicalOrder
    (examples.snapshot "cluster1" None) (examples.snapshot "cluster1" None)
  = Ok [].
Proof. vm_compute. reflexivity. Qed.

(** The asymmetry between summary and differ on an added attribute. *)
Example added_attribute_summary_and_differ :
  audit.ComputeChangeSummary canonicalOrder examples.versionBefore examples.addedAfter
  = Ok spec.emptySummary
  ∧ audit.ComputeClusterFailovers canonicalOrder examples.versionBefore examples.addedAfter
    = Ok [ {| types.FromCluster := Some (examples.info "" 0);
              types.ToCluster := Some (examples.info "cluster2" 7);
              types.ClusterAttribute' :=
                Some {| types.Scope := "region"; types.Name := "eu-west-1" |};
              types.IsDefaultCluster := Some false |} ].
Proof. split; vm_compute; reflexivity. Qed.

(** C5, as stated, fails, in a scope that both sides have. The attribute
    us-east-1 of the scope region is on both sides, its value is
    (cluster1, 100) before and (cluster1, 101) after, and the summary does not
    list it. The attribute eu-west-1 of the same scope has no value before
    and (cluster2, 7) after, and the summary does not list it either. And if
    a snapshot without replication configuration is read as having the empty
    default-cluster name, as the differ reads it, the summary says that the
    default cluster did not change where the names differ. *)
Lemma summary_understates :
  (spec.attributeOf (spec.activeClustersOf examples.versionBefore) "region" "us-east-1"
   = Some {| types.ActiveClusterName := "cluster1"; types.FailoverVersion := 100 |}
   ∧ spec.attributeOf (spec.activeClustersOf examples.versionAfter) "region" "us-east-1"
     = Some {| types.ActiveClusterName := "cluster1"; types.FailoverVersion := 101 |}
   ∧ {| types.ActiveClusterName := "cluster1"; types.FailoverVersion := 100 |}
     ≠ {| types.ActiveClusterName := "cluster1"; types.FailoverVersion := 101 |}
   ∧ audit.ComputeChangeSummary canonicalOrder
       examples.versionBefore examples.versionAfter
     = Ok {| audit.ChangedFields := [];
             audit.DefaultClusterChanged := false;
             audit.ClusterAttributesChanged := [] |})
  ∧ ("region" ∈ spec.scopeNames (spec.activeClustersOf examples.versionBefore)
     ∧ "region" ∈ spec.scopeNames (spec.activeClustersOf examples.addedAfter)
     ∧ spec.attributeOf (spec.activeClustersOf examples.versionBefore)
         "region" "eu-west-1" = None
     ∧ spec.attributeOf (spec.activeClustersOf examples.addedAfter)
         "region" "eu-west-1"
       = Some {| types.ActiveClusterName := "cluster2"; types.FailoverVersion := 7 |}
     ∧ audit.ComputeChangeSummary canonicalOrder
         examples.versionBefore examples.addedAfter
       = Ok {| audit.ChangedFields := [];
               audit.DefaultClusterChanged := false;
               audit.ClusterAttributesChanged := [] |})
  ∧ (spec.defaultClusterOf examples.bare ≠ spec.defaultClusterOf examples.mixedBefore
     ∧ audit.ComputeChangeSummary canonicalOrder examples.bare examples.mixedBefore
       = Ok {| audit.ChangedFields := [];
               audit.DefaultClusterChanged := false;
               audit.ClusterAttributesChanged := [] |}).
Proof.
  split; [|split].
  - split; [vm_compute; reflexivity|]. split; [vm_compute; reflexivity|].
    split; [intros [=] | vm_compute; reflexivity].
  - split; [apply elem_of_dom; eexists; vm_compute; reflexivity|].
    split; [apply elem_of_dom; eexists; vm_compute; reflexivity|].
    repeat split; vm_compute; reflexivity.
  - split; [intros [=] | vm_compute; reflexivity].
Qed.

(** C4, as stated, fails in its remark on the differ. The attribute
    eu-west-1 of the scope region is on one side only, so the summary does
    not list it; its owner on that side is the empty name, the name the
    differ gives to an attribute that is missing, and the differ does not
    report it either. *)
Lemma unowned_attribute_is_not_reported :
  spec.attributeOf (spec.activeClustersOf examples.versionBefore) "region" "eu-west-1"
  = None
  ∧ spec.attributeOf (spec.activeClustersOf examples.unownedAfter) "region" "eu-west-1"
    = Some {| types.ActiveClusterName := ""; types.FailoverVersion := 7 |}
  ∧ audit.ComputeChangeSummary canonicalOrder
      examples.versionBefore examples.unownedAfter
    = Ok {| audit.ChangedFields := [];
            audit.DefaultClusterChanged := false;
            audit.ClusterAttributesChanged := [] |}
  ∧ audit.ComputeClusterFailovers canonicalOrder
      examples.versionBefore examples.unownedAfter
    = Ok [].
Proof. repeat split; vm_compute; reflexivity. Qed.

(** ** The filter predicate *)

Section Filter.

Lemma matchesRequest_true (req : types.ClusterAttribute)
    (changed : list (option audit.ClusterAttributeRef)) :
  api.matchesRequest req changed = api.Returns true →
  ∃ chg, Some chg ∈ changed
         ∧ audit.Scope chg = types.Scope req ∧ audit.Name chg = types.Name req.
Proof.
  induction changed as [|[chg|] changed IH]; simpl; try done.
  destruct (decide _) as [[Hs Hn]|_].
  - intros _. exists chg. split; [by left | done].
  - intros (chg' & Hin & Heq)%IH. exists chg'. split; [by right | done].
Qed.

Lemma matchesAnyRequest_true (changed : list (option audit.ClusterAttributeRef))
    (requested : list (option types.ClusterAttribute)) :
  api.matchesAnyRequest changed requested = api.Returns true →
  ∃ req chg, Some req ∈ requested ∧ Some chg ∈ changed
             ∧ audit.Scope chg = types.Scope req ∧ audit.Name chg = types.Name req.
Proof.
  induction requested as [|[req|] requested IH]; simpl; try done.
  - destruct (api.matchesRequest req changed) as [[|]|] eqn:Hm; try done.
    + intros _. apply matchesRequest_true in Hm as (chg & Hin & Heq).
      exists req, chg. split; [by left | done].
    + intros (req' & chg & Hreq & Hrest)%IH. exists req', chg. split; [by right | done].
  - intros (req' & chg & Hreq & Hrest)%IH. exists req', chg. split; [by right | done].
Qed.

Lemma matchesAttributeFilter_true (changed : list (option audit.ClusterAttributeRef))
    (requested : list (option types.ClusterAttribute)) :
  api.matchesAttributeFilter changed requested = api.Returns true →
  ∃ req chg, Some req ∈ requested ∧ Some chg ∈ changed
             ∧ audit.Scope chg = types.Scope req ∧ audit.Name chg = types.Name req.
Proof.
  unfold api.matchesAttributeFilter. destruct (decide _); [done|].
  apply matchesAnyRequest_true.
Qed.

(** On a list without nil entries, as [ComputeChangeSummary] builds them, the
    inner loop does not panic and a match is found when there is one. *)
Lemma matchesRequest_complete (req : types.ClusterAttribute)
    (changed : list audit.ClusterAttributeRef) (chg : audit.ClusterAttributeRef) :
  chg ∈ changed →
  audit.Scope chg = types.Scope req → audit.Name chg = types.Name req →
  api.matchesRequest req (Some <$> changed) = api.Returns true.
Proof.
  intros Hin Hs Hn. induction changed as [|c changed IH]; [by apply elem_of_nil in Hin|].
  simpl. destruct (decide _) as [|Hne]; [done|].
  apply elem_of_cons in Hin as [->|Hin]; [by destruct Hne | by apply IH].
Qed.

Context (json_Unmarshal_summary : list Byte.byte → result error audit.ChangeSummary).

(** C6. [shouldIncludeEvent] returns true whenever the summary text does not
    parse, whatever the filters. When it parses: it returns false if the
    default-cluster-only filter is set and the summary has
    [DefaultClusterChanged = false]; given a non-empty list of attribute
    filters it returns true only if some requested (scope, name) equals, in
    both components, some entry of the summary's changed-attribute list; and
    with neither filter it returns true. *)
Theorem filter_predicate (summaryJSON : string)
    (filters : types.ListFailoverHistoryRequestFilters) :
  (is_Err (json_Unmarshal_summary (String.list_byte_of_string summaryJSON)) →
   api.shouldIncludeEvent json_Unmarshal_summary summaryJSON filters = api.Returns true)
  ∧ ∀ summary,
      json_Unmarshal_summary (String.list_byte_of_string summaryJSON) = Ok summary →
      (types.DefaultActiveCluster filters = Some true →
       audit.DefaultClusterChanged summary = false →
       api.shouldIncludeEvent json_Unmarshal_summary summaryJSON filters
       = api.Returns false)
      ∧ (types.Attributes filters ≠ [] →
         api.shouldIncludeEvent json_Unmarshal_summary summaryJSON filters
         = api.Returns true →
         ∃ req chg,
           Some req ∈ types.Attributes filters
           ∧ Some chg ∈ audit.ClusterAttributesChanged summary
           ∧ audit.Scope chg = types.Scope req
           ∧ audit.Name chg = types.Name req)
      ∧ (types.DefaultActiveCluster filters = None
         ∨ types.DefaultActiveCluster filters = Some false →
         types.Attributes filters = [] →
         api.shouldIncludeEvent json_Unmarshal_summary summaryJSON filters
         = api.Returns true).
Proof.
  unfold api.shouldIncludeEvent. split.
  - by destruct (json_Unmarshal_summary _).
  - intros summary ->. split; [|split].
    + intros Hd Hc. by rewrite decide_True.
    + intros Hne. destruct (decide (_ ∧ _)); [done|].
      destruct (decide _) as [_|Hlen].
      * destruct (api.matchesAttributeFilter _ _) as [[|]|] eqn:Hm; try done.
        intros _. by apply matchesAttributeFilter_true.
      * destruct (types.Attributes filters); [done | simpl in Hlen; lia].
    + intros Hd ->. rewrite decide_False; [done|].
      intros [Ht _]. destruct Hd; congruence.
Qed.

End Filter.

(** ** The filter on summaries without nil entries

    [ComputeChangeSummary] stores only non-nil references, and on such a list
    the filter returns: the event is included exactly when the default-only
    filter does not exclude it and the attribute filters, if any, match. *)

Section FilterComplete.

Context (json_Unmarshal_summary : list Byte.byte → result error audit.ChangeSummary).

Lemma matchesRequest_returns (req : types.ClusterAttribute)
    (changed : list audit.ClusterAttributeRef) :
  ∃ b, api.matchesRequest req (Some <$> changed) = api.Returns b.
Proof.
  induction changed as [|chg changed IH]; simpl; [by eauto|].
  destruct (decide _); eauto.
Qed.

Lemma matchesAnyRequest_complete (changed : list audit.ClusterAttributeRef)
    (requested : list (option types.ClusterAttribute))
    (req : types.ClusterAttribute) (chg : audit.ClusterAttributeRef) :
  Some req ∈ requested → chg ∈ changed →
  audit.Scope chg = types.Scope req → audit.Name chg = types.Name req →
  api.matchesAnyRequest (Some <$> changed) requested = api.Returns true.
Proof.
  intros Hreq Hchg Hs Hn.
  induction requested as [|[r|] requested IH]; [by apply elem_of_nil in Hreq| |].
  - simpl. destruct (matchesRequest_returns r changed) as [[|] Hb]; rewrite Hb; [done|].
    apply elem_of_cons in Hreq as [[= <-]|Hreq]; [|by apply IH].
    rewrite (matchesRequest_complete req changed chg) in Hb by done. done.
  - simpl. apply elem_of_cons in Hreq as [[=]|Hreq]. by apply IH.
Qed.

Lemma matchesAnyRequest_returns (changed : list audit.ClusterAttributeRef)
    (requested : list (option types.ClusterAttribute)) :
  ∃ b, api.matchesAnyRequest (Some <$> changed) requested = api.Returns b.
Proof.
  induction requested as [|[r|] requested IH]; simpl; [by eauto| |done].
  destruct (matchesRequest_returns r changed) as [[|] ->]; eauto.
Qed.

Lemma filter_on_computed_summary (summaryJSON : string)
    (filters : types.ListFailoverHistoryRequestFilters)
    (summary : audit.ChangeSummary) (refs : list audit.ClusterAttributeRef) :
  json_Unmarshal_summary (String.list_byte_of_string summaryJSON) = Ok summary →
  audit.ClusterAttributesChanged summary = Some <$> refs →
  (∃ b, api.shouldIncludeEvent json_Unmarshal_summary summaryJSON filters
        = api.Returns b)
  ∧ (api.shouldIncludeEvent json_Unmarshal_summary summaryJSON filters
     = api.Returns true
     ↔ ¬ (types.DefaultActiveCluster filters = Some true
          ∧ audit.DefaultClusterChanged summary = false)
       ∧ (types.Attributes filters = []
          ∨ ∃ req chg,
              Some req ∈ types.Attributes filters ∧ chg ∈ refs
              ∧ audit.Scope chg = types.Scope req
              ∧ audit.Name chg = types.Name req)).
Proof.
  intros Hparse Hrefs. unfold api.shouldIncludeEvent. rewrite Hparse, Hrefs.
  destruct (decide (_ ∧ _)) as [Hd|Hd].
  { split; [by eauto|]. split; [done | by intros [? _]]. }
  destruct (decide _) as [Hlen|Hlen].
  - unfold api.matchesAttributeFilter.
    destruct (decide _) as [Hnil|Hsome].
    + split; [by eauto|]. split; [done|]. intros [_ [Hempty|Hmatch]].
      * rewrite Hempty in Hlen. simpl in Hlen. lia.
      * destruct Hmatch as (req & chg & _ & Hchg & _).
        destruct refs; [by apply elem_of_nil in Hchg | done].
    + destruct (matchesAnyRequest_returns refs (types.Attributes filters)) as [b Hb].
      rewrite Hb. split; [destruct b; by eauto|].
      destruct b.
      * split; [|done]. intros _. split; [done|]. right.
        apply matchesAnyRequest_true in Hb as (req & chg & Hreq & Hchg & Heq).
        apply list_elem_of_fmap in Hchg as (c & [= ->] & Hc). by exists req, c.
      * split; [done|]. intros [_ [Hempty|(req & chg & Hreq & Hchg & Hs & Hn)]].
        -- rewrite Hempty in Hlen. simpl in Hlen. lia.
        -- rewrite (matchesAnyRequest_complete refs _ req chg) in Hb by done. done.
  - split; [by eauto|]. split; [|done]. intros _. split; [done|]. left.
    destruct (types.Attributes filters); [done | simpl in Hlen; lia].
Qed.

End FilterComplete.

(** ** The snapshot codec *)

Section CodecClaims.

Context (json_Marshal : persistence.GetDomainResponse → result error (list Byte.byte)).
Context (json_Unmarshal : list Byte.byte → result error persistence.GetDomainResponse).
Context (snappy_Encode : list Byte.byte → list Byte.byte).
Context (snappy_Decode : list Byte.byte → result error (list Byte.byte)).

Lemma DecompressAndDeserialize_Ok (compressed : list Byte.byte)
    (domain : persistence.GetDomainResponse) :
  audit.DecompressAndDeserialize json_Unmarshal snappy_Decode compressed = Ok domain
  ↔ ∃ jsonBytes, snappy_Decode compressed = Ok jsonBytes
                 ∧ json_Unmarshal jsonBytes = Ok domain.
Proof.
  unfold audit.DecompressAndDeserialize. split.
  - destruct (snappy_Decode compressed) as [jsonBytes|]; [|done].
    destruct (json_Unmarshal jsonBytes) as [d|] eqn:Hd; [|done].
    intros [= <-]. eauto.
  - intros (jsonBytes & -> & ->). done.
Qed.

Lemma DecompressAndDeserialize_Err (compressed : list Byte.byte) (err : error) :
  audit.DecompressAndDeserialize json_Unmarshal snappy_Decode compressed = Err err
  ↔ snappy_Decode compressed = Err err
    ∨ ∃ jsonBytes, snappy_Decode compressed = Ok jsonBytes
                   ∧ json_Unmarshal jsonBytes = Err err.
Proof.
  unfold audit.DecompressAndDeserialize. split.
  - destruct (snappy_Decode compressed) as [jsonBytes|e]; [|intros [= <-]; by left].
    destruct (json_Unmarshal jsonBytes) as [d|e] eqn:Hd; [done|].
    intros [= <-]. right. eauto.
  - intros [-> | (jsonBytes & -> & ->)]; done.
Qed.


(** C9. [DecompressAndDeserialize] returns an error exactly when Snappy
    rejects the input or JSON rejects what Snappy decoded, and the error is
    the library's own. In particular it fails on every byte string that is
    not valid Snappy, and on every valid Snappy encoding of a payload that is
    not valid JSON for a snapshot. *)
Theorem decode_errors (compressed : list Byte.byte) :
  (∀ err,
     audit.DecompressAndDeserialize json_Unmarshal snappy_Decode compressed = Err err
     ↔ snappy_Decode compressed = Err err
       ∨ ∃ jsonBytes, snappy_Decode compressed = Ok jsonBytes
                      ∧ json_Unmarshal jsonBytes = Err err)
  ∧ (is_Err (audit.DecompressAndDeserialize json_Unmarshal snappy_Decode compressed)
     ↔ is_Err (snappy_Decode compressed)
       ∨ ∃ jsonBytes, snappy_Decode compressed = Ok jsonBytes
                      ∧ is_Err (json_Unmarshal jsonBytes))
  ∧ (is_Err (snappy_Decode compressed) →
     is_Err (audit.DecompressAndDeserialize json_Unmarshal snappy_Decode compressed))
  ∧ (∀ jsonBytes,
       snappy_Decode compressed = Ok jsonBytes →
       is_Err (json_Unmarshal jsonBytes) →
       is_Err (audit.DecompressAndDeserialize json_Unmarshal snappy_Decode compressed)).
Proof.
  split; [apply DecompressAndDeserialize_Err|].
  unfold audit.DecompressAndDeserialize.
  destruct (snappy_Decode compressed) as [jsonBytes|e]; simpl.
  - destruct (json_Unmarshal jsonBytes) as [d|e] eqn:Hd; simpl.
    + split; [|split]; try done.
      * split; [done|]. intros [[]|(j & [= <-] & He)]. by rewrite Hd in He.
      * intros j [= <-]. by rewrite Hd.
    + split; [|split]; try done.
      split; [|done]. intros _. right. exists jsonBytes. by rewrite Hd.
  - split; [|split]; try done. split; [by left | done].
Qed.

End CodecClaims.



Example TestDecompressAndDeserialize_RoundTrip :
  reference.DecompressAndDeserialize (examples.payload examples.roundTripOriginal)
  = Ok examples.roundTripOriginal.
Proof. vm_compute. reflexivity. Qed.

Example round_trip_two_scopes :
  reference.DecompressAndDeserialize (examples.payload examples.twoScopes)
  = Ok examples.twoScopes.
Proof. vm_compute. reflexivity. Qed.

Example round_trip_without_configuration :
  reference.DecompressAndDeserialize (examples.payload examples.bare)
  = Ok examples.bare.
Proof. vm_compute. reflexivity. Qed.

Example TestDecompressAndDeserialize_CorruptedData :
  reference.DecompressAndDeserialize examples.corrupted = Err snappy.ErrCorrupt.
Proof. vm_compute. reflexivity. Qed.

Example TestDecompressAndDeserialize_InvalidJSON :
  reference.DecompressAndDeserialize (snappy.Encode examples.invalidJSON)
  = Err json.SyntaxError.
Proof. vm_compute. reflexivity. Qed.

(** The order in which the keys of a map were written does not show in the
    snapshot read. *)
Example key_order_is_irrelevant :
  json.Unmarshal (examples.bytes (examples.text
    ("{'ReplicationConfig':{'ActiveClusters':{'AttributeScopes':{'region':"
     +:+ "{'ClusterAttributes':{'b':{'ActiveClusterName':'c2'},"
     +:+ "'a':{'ActiveClusterName':'c1','FailoverVersion':4}}}}}}}")))
  = json.Unmarshal (examples.bytes (examples.text
    ("{'ReplicationConfig':{'ActiveClusters':{'AttributeScopes':{'region':"
     +:+ "{'ClusterAttributes':{'a':{'FailoverVersion':4,'ActiveClusterName':'c1'},"
     +:+ "'b':{'ActiveClusterName':'c2'}}}}}}}")))
  ∧ is_Ok (json.Unmarshal (examples.bytes (examples.text
    ("{'ReplicationConfig':{'ActiveClusters':{'AttributeScopes':{'region':"
     +:+ "{'ClusterAttributes':{'b':{'ActiveClusterName':'c2'},"
     +:+ "'a':{'ActiveClusterName':'c1','FailoverVersion':4}}}}}}}")))).
Proof. split; vm_compute; [reflexivity | exact I]. Qed.

Example decode_empty_payload :
  reference.DecompressAndDeserialize [] = Err snappy.ErrCorrupt.
Proof. vm_compute. reflexivity. Qed.

(** ** The get path *)

Section GetPath.

Context (ro : RangeOrder).
Context (json_Unmarshal : list Byte.byte → result error persistence.GetDomainResponse).
Context (snappy_Decode : list Byte.byte → result error (list Byte.byte)).

(** The paths of [GetFailoverEvent] after the storage layer answered. On a
    well-formed request to a handler that is not shutting down: when the
    storage layer returns no response, or a response without entry,
    [GetFailoverEvent] returns the empty response and no error; when decoding
    either stored payload fails it returns the internal error "Failed to
    decompress domain state"; and when both decode it returns the failovers
    computed from the two snapshots. There is no other path: an empty payload
    is decoded like any other. *)
Theorem get_failover_event (wh : api.WorkflowHandler)
    (request : api.GetFailoverEventRequest)
    (domainID failoverEventID : string) (createdTime : Z) :
  api.isShuttingDown wh = false →
  api.DomainID request = Some domainID → domainID ≠ "" →
  api.FailoverEventID request = Some failoverEventID → failoverEventID ≠ "" →
  api.CreatedTime request = Some createdTime →
  let stored :=
    api.GetDomainAuditLogEntry wh
      {| api.RequestDomainID := domainID;
         api.RequestEventID := failoverEventID;
         api.RequestCreatedTime := api.wrap_int64 (createdTime * 1000000) |} in
  let result := api.GetFailoverEvent ro json_Unmarshal snappy_Decode wh request in
  let decode := audit.DecompressAndDeserialize json_Unmarshal snappy_Decode in
  (stored = Ok None → result = Ok {| api.ClusterFailovers := [] |})
  ∧ (∀ response,
       stored = Ok (Some response) → persistence.Entry response = None →
       result = Ok {| api.ClusterFailovers := [] |})
  ∧ (∀ response entry,
       stored = Ok (Some response) → persistence.Entry response = Some entry →
       (is_Err (decode (persistence.StateBefore entry))
        ∨ is_Err (decode (persistence.StateAfter entry)) →
        result = Err (InternalServiceError "Failed to decompress domain state"))
       ∧ (∀ before after,
            decode (persistence.StateBefore entry) = Ok before →
            decode (persistence.StateAfter entry) = Ok after →
            ∃ failovers,
              audit.ComputeClusterFailovers ro before after = Ok failovers
              ∧ result = Ok {| api.ClusterFailovers := failovers |})).
Proof.
  intros Hup Hd Hdne Hf Hfne Hc. simpl.
  unfold api.GetFailoverEvent. rewrite Hup, Hd, Hf, Hc.
  rewrite decide_False by (intros [?|?]; done).
  split; [by intros ->|]. split; [by intros response -> ->|].
  intros response entry -> ->. split.
  - intros [Hb|Ha].
    + by destruct (audit.DecompressAndDeserialize _ _ (persistence.StateBefore entry)).
    + destruct (audit.DecompressAndDeserialize _ _ (persistence.StateBefore entry));
        [|done].
      by destruct (audit.DecompressAndDeserialize _ _ (persistence.StateAfter entry)).
  - intros before after -> ->. rewrite ComputeClusterFailovers_eq. eauto.
Qed.

End GetPath.

(** The snapshots of TestComputeClusterFailovers_MixedFailover, stored and
    read back. *)
Lemma get_failover_event_witness :
  reference.GetFailoverEvent
    (examples.handlerWith (examples.payload examples.mixedBefore)
                          (examples.payload examples.mixedAfter))
    examples.request
  = Ok {| api.ClusterFailovers :=
            [ spec.defaultRecord "cluster1" "cluster2";
              {| types.FromCluster := Some (examples.info "cluster1" 100);
                 types.ToCluster := Some (examples.info "cluster3" 101);
                 types.ClusterAttribute' :=
                   Some {| types.Scope := "region"; types.Name := "us-east-1" |};
                 types.IsDefaultCluster := Some false |} ] |}.
Proof.
  assert (Hdomain : "domain-id" ≠ "") by (intros [=]).
  assert (Hevent : "event-id" ≠ "") by (intros [=]).
  pose proof (get_failover_event canonicalOrder json.Unmarshal snappy.Decode
                (examples.handlerWith (examples.payload examples.mixedBefore)
                                      (examples.payload examples.mixedAfter))
                examples.request "domain-id" "event-id" 1700000000000%Z
                eq_refl eq_refl Hdomain eq_refl Hevent eq_refl)
    as (_ & _ & Hentry).
  destruct (Hentry _ _ eq_refl eq_refl) as [_ Hok].
  assert (Hbefore : audit.DecompressAndDeserialize json.Unmarshal snappy.Decode
                      (examples.payload examples.mixedBefore)
                    = Ok examples.mixedBefore) by (vm_compute; reflexivity).
  assert (Hafter : audit.DecompressAndDeserialize json.Unmarshal snappy.Decode
                     (examples.payload examples.mixedAfter)
                   = Ok examples.mixedAfter) by (vm_compute; reflexivity).
  destruct (Hok examples.mixedBefore examples.mixedAfter Hbefore Hafter)
    as (failovers & Hf & Hr).
  unfold reference.GetFailoverEvent. rewrite Hr. f_equal. f_equal.
  revert Hf. vm_compute. by intros [= <-].
Defined.

(** C7. The code at the failing input. A nil response and a response with a
    nil entry yield the empty response, as the claim says. An entry whose
    snapshot payloads are missing (empty) does not: [GetFailoverEvent] goes on
    to decode the empty payload, Snappy finds no length header in it, and the
    result is the internal error, as for a payload that is corrupt. The same
    holds when only one of the two payloads is missing. *)
Lemma missing_payload_is_an_internal_error :
  reference.GetFailoverEvent
    {| api.isShuttingDown := false; api.GetDomainAuditLogEntry := λ _, Ok None |}
    examples.request
  = Ok {| api.ClusterFailovers := [] |}
  ∧ reference.GetFailoverEvent
      {| api.isShuttingDown := false;
         api.GetDomainAuditLogEntry := λ _, Ok (Some {| persistence.Entry := None |}) |}
      examples.request
    = Ok {| api.ClusterFailovers := [] |}
  ∧ api.GetDomainAuditLogEntry (examples.handlerWith [] [])
      {| api.RequestDomainID := "domain-id";
         api.RequestEventID := "event-id";
         api.RequestCreatedTime := 1700000000000000000 |}
    = Ok (Some {| persistence.Entry :=
                    Some {| persistence.EventID := "event-id";
                            persistence.StateBefore := [];
                            persistence.StateAfter := [];
                            persistence.Comment := "" |} |})
  ∧ reference.GetFailoverEvent (examples.handlerWith [] []) examples.request
    = Err (InternalServiceError "Failed to decompress domain state")
  ∧ reference.GetFailoverEvent
      (examples.handlerWith (examples.payload examples.mixedBefore) [])
      examples.request
    = Err (InternalServiceError "Failed to decompress domain state")
  ∧ reference.GetFailoverEvent
      (examples.handlerWith [] (examples.payload examples.mixedAfter))
      examples.request
    = Err (InternalServiceError "Failed to decompress domain state")
  ∧ snappy.Decode [] = Err snappy.ErrCorrupt.
Proof. repeat split; vm_compute; reflexivity. Qed.

(** ** The filter predicate on persisted summaries *)

Example filter_unparsable_summary :
  reference.shouldIncludeEvent "not a summary" (examples.filters (Some true) [])
  = api.Returns true
  ∧ reference.shouldIncludeEvent "not a summary"
      (examples.filters None [("region", "us-east-1")])
    = api.Returns true.
Proof. split; vm_compute; reflexivity. Qed.

Example filter_default_only :
  reference.shouldIncludeEvent examples.attributeSummaryJSON
    (examples.filters (Some true) [])
  = api.Returns false.
Proof. vm_compute. reflexivity. Qed.

Example filter_attributes :
  reference.shouldIncludeEvent examples.attributeSummaryJSON
    (examples.filters None [("region", "us-west-1"); ("region", "us-east-1")])
  = api.Returns true
  ∧ reference.shouldIncludeEvent examples.attributeSummaryJSON
      (examples.filters None [("region", "us-west-1"); ("city", "us-east-1")])
    = api.Returns false
  ∧ reference.shouldIncludeEvent examples.attributeSummaryJSON
      (examples.filters None [])
    = api.Returns true.
Proof. repeat split; vm_compute; reflexivity. Qed.

(** A null among the changed attributes of a persisted summary is a nil
    pointer, and the attribute filter dereferences it. *)
Example filter_null_entry :
  reference.shouldIncludeEvent examples.nullEntrySummaryJSON
    (examples.filters None [("region", "us-east-1")])
  = api.Panics.
Proof. vm_compute. reflexivity. Qed.


(** * More facts about the same code *)

(** ** The differ on its own *)

Section DifferMore.

Context (ro : RangeOrder).

Lemma no_elements_nil {A : Type} (l : list A) : (∀ x, x ∉ l) → l = [].
Proof. destruct l as [|x l]; [done|]. intros H. destruct (H x). by left. Qed.

Lemma computeClusterAttributeChanges_same (attrs : option types.ActiveClusters) :
  audit.computeClusterAttributeChanges ro attrs attrs = [].
Proof.
  apply no_elements_nil. intros r Hr.
  apply computeClusterAttributeChanges_elem in Hr as (scope & name & _ & _ & Hne & _).
  done.
Qed.

(** X1. The differ reports nothing between a snapshot and itself, whatever the
    snapshot holds and in whatever order its maps are visited. *)
Theorem differ_same_snapshot (s : persistence.GetDomainResponse) :
  audit.ComputeClusterFailovers ro s s = Ok [].
Proof.
  rewrite ComputeClusterFailovers_eq, computeClusterAttributeChanges_same.
  destruct (persistence.ReplicationConfig s); [|done].
  by rewrite decide_False by (intros H; by apply H).
Qed.

Lemma ComputeClusterFailovers_elem (before after : persistence.GetDomainResponse)
    (r : types.ClusterFailover) :
  (∃ failovers, audit.ComputeClusterFailovers ro before after = Ok failovers
                ∧ r ∈ failovers)
  ↔ (spec.defaultClusterOf before ≠ spec.defaultClusterOf after
     ∧ r = spec.defaultRecord (spec.defaultClusterOf before)
                              (spec.defaultClusterOf after))
    ∨ r ∈ audit.computeClusterAttributeChanges ro
            (spec.activeClustersOf before) (spec.activeClustersOf after).
Proof.
  rewrite ComputeClusterFailovers_eq. split.
  - intros (failovers & [= <-] & Hr).
    destruct (persistence.ReplicationConfig before) as [rb|] eqn:Hb,
             (persistence.ReplicationConfig after) as [ra|] eqn:Ha;
      try (apply elem_of_app in Hr as [Hr|Hr]; [left|by right];
           destruct (decide _) as [Hne|]; [|by apply elem_of_nil in Hr];
           by apply list_elem_of_singleton in Hr).
    by apply elem_of_nil in Hr.
  - intros Hr. eexists. split; [done|].
    destruct (persistence.ReplicationConfig before) as [rb|] eqn:Hb,
             (persistence.ReplicationConfig after) as [ra|] eqn:Ha;
      try (apply elem_of_app; destruct Hr as [[Hne ->]|Hr]; [left|by right];
           rewrite decide_True by done; by apply list_elem_of_singleton).
    destruct Hr as [[Hne _]|Hr].
    + unfold spec.defaultClusterOf in Hne. by rewrite Hb, Ha in Hne.
    + unfold spec.activeClustersOf in Hr. rewrite Hb, Ha in Hr.
      by rewrite no_attributes_without_config in Hr.
Qed.

(** X2. Every record the differ returns is a complete transition between two
    different owners: its source, target and default flag are set (not nil),
    the two cluster names differ, and it is either the default record (flag
    true, no attribute, versions 0) or an attribute record (flag false, its
    attribute set). *)
Theorem differ_records_are_transitions (before after : persistence.GetDomainResponse) :
  ∃ failovers,
    audit.ComputeClusterFailovers ro before after = Ok failovers
    ∧ ∀ r, r ∈ failovers →
        ∃ fromCluster toCluster,
          types.FromCluster r = Some fromCluster
          ∧ types.ToCluster r = Some toCluster
          ∧ types.ActiveClusterName fromCluster ≠ types.ActiveClusterName toCluster
          ∧ ((types.IsDefaultCluster r = Some true
              ∧ types.ClusterAttribute' r = None
              ∧ types.FailoverVersion fromCluster = 0%Z
              ∧ types.FailoverVersion toCluster = 0%Z)
             ∨ (types.IsDefaultCluster r = Some false
                ∧ is_Some (types.ClusterAttribute' r))).
Proof.
  destruct (audit.ComputeClusterFailovers ro before after) as [failovers|e] eqn:Hf;
    [|by rewrite ComputeClusterFailovers_eq in Hf].
  exists failovers. split; [done|]. intros r Hr.
  assert (Hex : ∃ l, audit.ComputeClusterFailovers ro before after = Ok l ∧ r ∈ l)
    by eauto.
  apply ComputeClusterFailovers_elem in Hex as [[Hne ->]|Hin].
  - eexists _, _. repeat split; [done|]. left. done.
  - apply computeClusterAttributeChanges_elem in Hin
      as (scope & name & _ & _ & Hne & ->).
    eexists _, _. repeat split; [done|]. right. split; [done | by eexists].
Qed.

Lemma ComputeClusterFailovers_NoDup (before after : persistence.GetDomainResponse)
    (failovers : list types.ClusterFailover) :
  audit.ComputeClusterFailovers ro before after = Ok failovers → NoDup failovers.
Proof.
  rewrite ComputeClusterFailovers_eq. intros [= <-].
  destruct (persistence.ReplicationConfig before) as [rb|],
           (persistence.ReplicationConfig after) as [ra|];
    try apply NoDup_nil_2;
    (apply NoDup_app; split; [|split];
     [ destruct (decide _); [apply NoDup_singleton | apply NoDup_nil_2]
     | intros r Hr1 Hr2%attribute_record_not_default;
       destruct (decide _); [|by apply elem_of_nil in Hr1];
       apply list_elem_of_singleton in Hr1; by subst r
     | apply computeClusterAttributeChanges_NoDup ]).
Qed.

Lemma ComputeClusterFailovers_spec (before after : persistence.GetDomainResponse) :
  ∃ failovers,
    audit.ComputeClusterFailovers ro before after = Ok failovers
    ∧ NoDup failovers
    ∧ ∀ r, r ∈ failovers ↔ relations.isTransition before after r.
Proof.
  destruct (audit.ComputeClusterFailovers ro before after) as [failovers|e] eqn:Hf;
    [|by rewrite ComputeClusterFailovers_eq in Hf].
  exists failovers. split; [done|]. split; [by eapply ComputeClusterFailovers_NoDup|].
  intros r. unfold relations.isTransition.
  rewrite <- computeClusterAttributeChanges_elem, <- ComputeClusterFailovers_elem.
  split; [by eauto|]. intros (l & Hl & Hr). congruence.
Qed.

End DifferMore.

Lemma reverse_involutive (r : types.ClusterFailover) :
  relations.reverse (relations.reverse r) = r.
Proof. by destruct r. Qed.

Lemma isTransition_reverse (before after : persistence.GetDomainResponse)
    (r : types.ClusterFailover) :
  relations.isTransition before after r
  → relations.isTransition after before (relations.reverse r).
Proof.
  intros [[Hne ->]|(scope & name & Hs & Hn & Hne & ->)]; [left|right].
  - split; [by intros ?|done].
  - exists scope, name. rewrite (union_comm_L (spec.scopeNames _)).
    rewrite (union_comm_L (spec.attributeNames _ _)).
    repeat split; done.
Qed.

(** X3. The order in which the maps are visited shows only in the order of
    the result: under two iteration orders the differ returns two lists that
    are permutations of each other. *)
Theorem differ_order_independent (ro ro' : RangeOrder)
    (before after : persistence.GetDomainResponse) :
  ∃ failovers failovers',
    audit.ComputeClusterFailovers ro before after = Ok failovers
    ∧ audit.ComputeClusterFailovers ro' before after = Ok failovers'
    ∧ failovers ≡ₚ failovers'.
Proof.
  destruct (ComputeClusterFailovers_spec ro before after) as (l & Hl & Hnd & Hin).
  destruct (ComputeClusterFailovers_spec ro' before after) as (l' & Hl' & Hnd' & Hin').
  exists l, l'. repeat split; try done.
  apply NoDup_Permutation; try done. intros r. by rewrite Hin, Hin'.
Qed.

(** X4. Exchanging the two snapshots reverses every transition and nothing
    else: the differ of (after, before) returns, up to order, the records of
    the differ of (before, after) with source and target exchanged. *)
Theorem differ_exchange (ro ro' : RangeOrder)
    (before after : persistence.GetDomainResponse) :
  ∃ failovers failovers',
    audit.ComputeClusterFailovers ro before after = Ok failovers
    ∧ audit.ComputeClusterFailovers ro' after before = Ok failovers'
    ∧ failovers' ≡ₚ relations.reverse <$> failovers.
Proof.
  destruct (ComputeClusterFailovers_spec ro before after) as (l & Hl & Hnd & Hin).
  destruct (ComputeClusterFailovers_spec ro' after before) as (l' & Hl' & Hnd' & Hin').
  exists l, l'. repeat split; try done.
  apply NoDup_Permutation; try done.
  - apply NoDup_fmap_2_strong; [|done]. intros x y _ _ Heq.
    by rewrite <- (reverse_involutive x), Heq, reverse_involutive.
  - intros r. rewrite Hin', list_elem_of_fmap. split.
    + intros Hr%isTransition_reverse. exists (relations.reverse r).
      split; [by rewrite reverse_involutive | by apply Hin].
    + intros (y & -> & Hy). apply isTransition_reverse. by apply Hin.
Qed.

(** ** The summary beside the differ *)

Section SummaryMore.

Context (ro : RangeOrder).

Lemma ComputeChangeSummary_spec (before after : persistence.GetDomainResponse) :
  ∃ summary,
    audit.ComputeChangeSummary ro before after = Ok summary
    ∧ NoDup (audit.ClusterAttributesChanged summary)
    ∧ (∀ x, x ∈ audit.ClusterAttributesChanged summary
            ↔ ∃ scope name, x = Some {| audit.Scope := scope; audit.Name := name |}
                            ∧ relations.isChangedAttribute before after scope name)
    ∧ (audit.DefaultClusterChanged summary = true
       ↔ is_Some (persistence.ReplicationConfig before)
         ∧ is_Some (persistence.ReplicationConfig after)
         ∧ spec.defaultClusterOf before ≠ spec.defaultClusterOf after)
    ∧ audit.ChangedFields summary
      = (if audit.DefaultClusterChanged summary then ["ActiveClusterName"] else [])
        ++ (if decide (audit.ClusterAttributesChanged summary = [])
            then [] else ["ActiveClusters"]).
Proof.
  destruct (ComputeChangeSummary_total ro before after) as [summary Hs].
  exists summary. split; [done|].
  pose proof (summary_refs ro before after summary Hs) as Hrefs.
  split; [rewrite Hrefs; apply compareClusterAttributes_NoDup|].
  split.
  { intros x. rewrite Hrefs, compareClusterAttributes_elem.
    unfold relations.isChangedAttribute. split.
    - intros (scope & name & bi & ai & -> & H). by eauto 10.
    - intros (scope & name & -> & bi & ai & H). by eauto 10. }
  revert Hs. rewrite ComputeChangeSummary_eq. intros [= <-].
  unfold spec.defaultClusterOf.
  destruct (persistence.ReplicationConfig before) as [rb|],
           (persistence.ReplicationConfig after) as [ra|]; simpl.
  - split; [|done]. rewrite bool_decide_eq_true. split; [by eauto|]. by intros (_ & _ & ?).
  - split; [|done]. split; [done|]. by intros (_ & [? ?] & _).
  - split; [|done]. split; [done|]. by intros ([? ?] & _).
  - split; [|done]. split; [done|]. by intros ([? ?] & _).
Qed.

End SummaryMore.

Lemma bool_eq_of_iff (b c : bool) : (b = true ↔ c = true) → b = c.
Proof. destruct b, c; intros [H1 H2]; try done; [by rewrite H1 | by rewrite H2]. Qed.

Lemma isChangedAttribute_exchange (before after : persistence.GetDomainResponse)
    (scope name : string) :
  relations.isChangedAttribute before after scope name
  → relations.isChangedAttribute after before scope name.
Proof. intros (bi & ai & Hb & Ha & Hne). exists ai, bi. repeat split; done. Qed.

(** X5. The summary does not depend on the order in which the maps are
    visited, nor on which snapshot comes first, except for the order of its
    attribute list: the changed fields and the default flag are the same, and
    the attribute lists are permutations of each other. *)
Theorem summary_order_and_exchange (ro ro' ro'' : RangeOrder)
    (before after : persistence.GetDomainResponse) :
  ∃ summary summary' exchanged,
    audit.ComputeChangeSummary ro before after = Ok summary
    ∧ audit.ComputeChangeSummary ro' before after = Ok summary'
    ∧ audit.ComputeChangeSummary ro'' after before = Ok exchanged
    ∧ audit.ChangedFields summary' = audit.ChangedFields summary
    ∧ audit.ChangedFields exchanged = audit.ChangedFields summary
    ∧ audit.DefaultClusterChanged summary' = audit.DefaultClusterChanged summary
    ∧ audit.DefaultClusterChanged exchanged = audit.DefaultClusterChanged summary
    ∧ audit.ClusterAttributesChanged summary'
      ≡ₚ audit.ClusterAttributesChanged summary
    ∧ audit.ClusterAttributesChanged exchanged
      ≡ₚ audit.ClusterAttributesChanged summary.
Proof.
  destruct (ComputeChangeSummary_spec ro before after)
    as (s & Hs & Hnd & Hin & Hd & Hf).
  destruct (ComputeChangeSummary_spec ro' before after)
    as (s' & Hs' & Hnd' & Hin' & Hd' & Hf').
  destruct (ComputeChangeSummary_spec ro'' after before)
    as (x & Hx & Hndx & Hinx & Hdx & Hfx).
  exists s, s', x. do 3 (split; [done|]).
  assert (Hp' : audit.ClusterAttributesChanged s' ≡ₚ audit.ClusterAttributesChanged s).
  { apply NoDup_Permutation; try done. intros r. by rewrite Hin, Hin'. }
  assert (Hpx : audit.ClusterAttributesChanged x ≡ₚ audit.ClusterAttributesChanged s).
  { apply NoDup_Permutation; try done. intros r. rewrite Hin, Hinx.
    split; intros (scope & name & -> & H%isChangedAttribute_exchange); eauto. }
  assert (He' : audit.DefaultClusterChanged s' = audit.DefaultClusterChanged s).
  { apply bool_eq_of_iff. by rewrite Hd', Hd. }
  assert (Hex : audit.DefaultClusterChanged x = audit.DefaultClusterChanged s).
  { apply bool_eq_of_iff. rewrite Hdx, Hd.
    split; intros (? & ? & ?); repeat split; done. }
  assert (Hnil : ∀ l l' : list (option audit.ClusterAttributeRef),
            l' ≡ₚ l →
            (if decide (l' = []) then @nil string else ["ActiveClusters"])
            = (if decide (l = []) then [] else ["ActiveClusters"])).
  { intros l l' Hp. destruct (decide (l' = [])) as [->|Hne'], (decide (l = [])) as [->|Hne];
      try done.
    - symmetry in Hp. by apply Permutation_nil_r in Hp.
    - by apply Permutation_nil_r in Hp. }
  repeat split; try done.
  - rewrite Hf', Hf, He'. f_equal. by apply Hnil.
  - rewrite Hfx, Hf, Hex. f_equal. by apply Hnil.
Qed.

(** X6. Whatever the summary flags, the differ reports: a summary with
    [DefaultClusterChanged] comes with the default record in the differ's
    result, every attribute of the summary with its attribute record, and the
    summary never counts more changes than the differ returns records. In
    particular, when the differ finds nothing the summary is empty. *)
Theorem summary_within_differ (ro ro' : RangeOrder)
    (before after : persistence.GetDomainResponse) :
  ∃ summary failovers,
    audit.ComputeChangeSummary ro before after = Ok summary
    ∧ audit.ComputeClusterFailovers ro' before after = Ok failovers
    ∧ (audit.DefaultClusterChanged summary = true →
       spec.defaultRecord (spec.defaultClusterOf before) (spec.defaultClusterOf after)
       ∈ failovers)
    ∧ (∀ scope name,
         Some {| audit.Scope := scope; audit.Name := name |}
         ∈ audit.ClusterAttributesChanged summary →
         spec.attributeRecord (spec.activeClustersOf before)
           (spec.activeClustersOf after) scope name ∈ failovers)
    ∧ ((if audit.DefaultClusterChanged summary then 1 else 0)
       + List.length (audit.ClusterAttributesChanged summary)
       ≤ List.length failovers)%nat
    ∧ (failovers = [] → summary = spec.emptySummary).
Proof.
  destruct (ComputeChangeSummary_spec ro before after)
    as (s & Hs & Hnd & Hin & Hd & Hf).
  destruct (ComputeClusterFailovers_spec ro' before after) as (l & Hl & Hndl & Hinl).
  exists s, l. do 2 (split; [done|]).
  assert (Hdefault : audit.DefaultClusterChanged s = true →
            spec.defaultRecord (spec.defaultClusterOf before)
              (spec.defaultClusterOf after) ∈ l).
  { intros (_ & _ & Hne)%Hd. apply Hinl. by left. }
  assert (Hattr : ∀ scope name,
            Some {| audit.Scope := scope; audit.Name := name |}
            ∈ audit.ClusterAttributesChanged s →
            spec.attributeRecord (spec.activeClustersOf before)
              (spec.activeClustersOf after) scope name ∈ l).
  { intros scope name (sc & n & [= <- <-] & bi & ai & Hb & Ha & Hne)%Hin.
    apply Hinl. right. exists scope, name.
    pose proof (attributeOf_dom _ _ _ _ Hb) as [? ?].
    rewrite !elem_of_union. unfold spec.resolved. rewrite Hb, Ha. simpl.
    repeat split; auto. }
  split; [done|]. split; [done|].
  set (record := λ x : option audit.ClusterAttributeRef,
         match x with
         | Some ref => spec.attributeRecord (spec.activeClustersOf before)
                         (spec.activeClustersOf after) (audit.Scope ref) (audit.Name ref)
         | None => spec.defaultRecord "" ""
         end).
  set (flagged := (if audit.DefaultClusterChanged s
                   then [spec.defaultRecord (spec.defaultClusterOf before)
                           (spec.defaultClusterOf after)] else [])
                  ++ (record <$> audit.ClusterAttributesChanged s)).
  assert (Hlen : (List.length flagged ≤ List.length l)%nat).
  { apply submseteq_length, NoDup_submseteq.
    - apply NoDup_app. split; [|split].
      + destruct (audit.DefaultClusterChanged s); [apply NoDup_singleton | apply NoDup_nil_2].
      + intros r Hr1 (x & -> & Hx)%list_elem_of_fmap.
        apply Hin in Hx as (scope & name & -> & _).
        destruct (audit.DefaultClusterChanged s); [|by apply elem_of_nil in Hr1].
        by apply list_elem_of_singleton in Hr1.
      + apply NoDup_fmap_2_strong; [|done].
        intros x y (s1 & n1 & -> & _)%Hin (s2 & n2 & -> & _)%Hin Heq.
        simpl in Heq. unfold spec.attributeRecord in Heq.
        injection Heq as _ _ Hscope Hname. by subst.
    - intros r [Hr|(x & -> & Hx)%list_elem_of_fmap]%elem_of_app.
      + destruct (audit.DefaultClusterChanged s) eqn:E; [|by apply elem_of_nil in Hr].
        apply list_elem_of_singleton in Hr as ->. by apply Hdefault.
      + pose proof Hx as (scope & name & -> & _)%Hin. by apply Hattr. }
  split.
  - unfold flagged in Hlen. rewrite length_app, length_fmap in Hlen.
    by destruct (audit.DefaultClusterChanged s).
  - intros ->. unfold flagged in Hlen. rewrite length_app, length_fmap in Hlen.
    destruct s as [fields changed refs]. simpl in *.
    destruct changed; [simpl in Hlen; lia|].
    destruct refs; [|simpl in Hlen; lia]. by rewrite Hf.
Qed.

(** ** The attribute filter *)

Lemma matchesAnyRequest_skips_nil (changed : list (option audit.ClusterAttributeRef))
    (requested : list (option types.ClusterAttribute)) :
  api.matchesAnyRequest changed requested
  = api.matchesAnyRequest changed (filter is_Some requested).
Proof.
  induction requested as [|[req|] requested IH].
  - done.
  - rewrite filter_cons_True by eauto. simpl. by rewrite IH.
  - rewrite filter_cons_False by (by intros [? ?]). done.
Qed.

Lemma matchesRequest_panics (req : types.ClusterAttribute)
    (changed : list (option audit.ClusterAttributeRef)) :
  api.matchesRequest req changed = api.Panics → None ∈ changed.
Proof.
  induction changed as [|[chg|] changed IH]; simpl; [done| |by left].
  destruct (decide _); [done|]. intros H. right. by apply IH.
Qed.

Lemma matchesAnyRequest_panics (changed : list (option audit.ClusterAttributeRef))
    (requested : list (option types.ClusterAttribute)) :
  api.matchesAnyRequest changed requested = api.Panics →
  None ∈ changed ∧ ∃ req, Some req ∈ requested.
Proof.
  induction requested as [|[req|] requested IH]; simpl; [done| |].
  - destruct (api.matchesRequest req changed) as [[|]|] eqn:Hm; [done| |].
    + intros [Hn [r Hr]]%IH. split; [done|]. exists r. by right.
    + intros _. split; [by eapply matchesRequest_panics|]. exists req. by left.
  - intros [Hn [r Hr]]%IH. split; [done|]. exists r. by right.
Qed.

(** X7. On a changed-attribute list without nil entries [matchesAttributeFilter]
    returns, and it returns true exactly when some requested attribute that
    is not nil equals some changed attribute in scope and in name. *)
Theorem attribute_filter_exact (changed : list audit.ClusterAttributeRef)
    (requested : list (option types.ClusterAttribute)) :
  ∃ b,
    api.matchesAttributeFilter (Some <$> changed) requested = api.Returns b
    ∧ (b = true
       ↔ ∃ req chg,
           Some req ∈ requested ∧ chg ∈ changed
           ∧ audit.Scope chg = types.Scope req
           ∧ audit.Name chg = types.Name req).
Proof.
  unfold api.matchesAttributeFilter. destruct (decide _) as [Hnil|Hsome].
  - exists false. split; [done|]. split; [done|].
    intros (req & chg & _ & Hchg & _). destruct changed; [|done].
    by apply elem_of_nil in Hchg.
  - destruct (matchesAnyRequest_returns changed requested) as [b Hb].
    exists b. split; [done|]. split.
    + intros ->. apply matchesAnyRequest_true in Hb as (req & chg & Hreq & Hchg & Heq).
      apply list_elem_of_fmap in Hchg as (c & [= ->] & Hc). by exists req, c.
    + intros (req & chg & Hreq & Hchg & Hs & Hn).
      rewrite (matchesAnyRequest_complete changed requested req chg) in Hb by done.
      by injection Hb.
Qed.

(** X8. What [matchesAttributeFilter] does at its edges: an empty changed list
    gives false whatever is requested; nil requests are skipped, so the result
    is that of the requests that are not nil; and the filter panics only when
    the changed list holds a nil entry and some request is not nil. *)
Theorem attribute_filter_edges (changed : list (option audit.ClusterAttributeRef))
    (requested : list (option types.ClusterAttribute)) :
  api.matchesAttributeFilter [] requested = api.Returns false
  ∧ api.matchesAttributeFilter changed requested
    = api.matchesAttributeFilter changed (filter is_Some requested)
  ∧ ((∀ req, Some req ∉ requested) →
     api.matchesAttributeFilter changed requested = api.Returns false)
  ∧ (api.matchesAttributeFilter changed requested = api.Panics →
     None ∈ changed ∧ ∃ req, Some req ∈ requested).
Proof.
  split; [done|]. unfold api.matchesAttributeFilter. split; [|split].
  - destruct (decide _); [done|]. apply matchesAnyRequest_skips_nil.
  - intros Hnone. destruct (decide _); [done|].
    induction requested as [|[req|] requested IH]; [done| |].
    + destruct (Hnone req). by left.
    + simpl. apply IH. intros req Hreq. apply (Hnone req). by right.
  - destruct (decide _); [done|]. apply matchesAnyRequest_panics.
Qed.

(** ** The filter on the summary of two snapshots *)

Lemma all_Some_fmap {A : Type} (l : list (option A)) :
  (∀ x, x ∈ l → is_Some x) → l = Some <$> omap id l.
Proof.
  induction l as [|[a|] l IH]; intros H; [done| |].
  - simpl. f_equal. apply IH. intros x Hx. apply H. by right.
  - destruct (H None) as [? [=]]. by left.
Qed.

(** X9. When the persisted comment reads back as the summary computed from two
    snapshots, [shouldIncludeEvent] returns without panic, and it includes the
    event exactly when (1) the default-only filter is unset or false, or both
    snapshots have a replication configuration with different default names,
    and (2) no attribute is requested, or some requested attribute is on both
    sides with different owners. *)
Theorem filter_on_summary_of_snapshots (ro : RangeOrder)
    (json_Unmarshal_summary : list Byte.byte → result error audit.ChangeSummary)
    (before after : persistence.GetDomainResponse) (summary : audit.ChangeSummary)
    (summaryJSON : string) (filters : types.ListFailoverHistoryRequestFilters) :
  audit.ComputeChangeSummary ro before after = Ok summary →
  json_Unmarshal_summary (String.list_byte_of_string summaryJSON) = Ok summary →
  ∃ b,
    api.shouldIncludeEvent json_Unmarshal_summary summaryJSON filters = api.Returns b
    ∧ (b = true
       ↔ (types.DefaultActiveCluster filters = Some true →
          is_Some (persistence.ReplicationConfig before)
          ∧ is_Some (persistence.ReplicationConfig after)
          ∧ spec.defaultClusterOf before ≠ spec.defaultClusterOf after)
         ∧ (types.Attributes filters = []
            ∨ ∃ req, Some req ∈ types.Attributes filters
                     ∧ relations.isChangedAttribute before after
                         (types.Scope req) (types.Name req))).
Proof.
  intros Hs Hparse.
  destruct (ComputeChangeSummary_spec ro before after)
    as (s & Hs' & Hnd & Hin & Hd & Hf).
  rewrite Hs in Hs'. injection Hs' as <-.
  assert (Hsome : audit.ClusterAttributesChanged summary
                  = Some <$> omap id (audit.ClusterAttributesChanged summary)).
  { apply all_Some_fmap. intros x (scope & name & -> & _)%Hin. by eexists. }
  destruct (filter_on_computed_summary json_Unmarshal_summary summaryJSON filters
              summary _ Hparse Hsome) as [[b Hb] Hiff].
  exists b. split; [done|]. rewrite Hb in Hiff.
  assert (Hb' : b = true ↔ api.Returns b = api.Returns true)
    by (split; [by intros -> | by intros [= ->]]).
  rewrite Hb', Hiff. clear Hb' Hiff Hb.
  assert (Hmatch :
    (∃ req chg, Some req ∈ types.Attributes filters
                ∧ chg ∈ omap id (audit.ClusterAttributesChanged summary)
                ∧ audit.Scope chg = types.Scope req ∧ audit.Name chg = types.Name req)
    ↔ ∃ req, Some req ∈ types.Attributes filters
             ∧ relations.isChangedAttribute before after
                 (types.Scope req) (types.Name req)).
  { split.
    - intros (req & chg & Hreq & Hchg & Hsc & Hn). exists req. split; [done|].
      assert (Hx : Some chg ∈ audit.ClusterAttributesChanged summary).
      { rewrite Hsome. by apply list_elem_of_fmap_2. }
      apply Hin in Hx as (scope & name & [= ->] & Hc). simpl in Hsc, Hn. by subst.
    - intros (req & Hreq & Hc).
      exists req, {| audit.Scope := types.Scope req; audit.Name := types.Name req |}.
      split; [done|]. split; [|done].
      assert (Hx : Some {| audit.Scope := types.Scope req; audit.Name := types.Name req |}
                   ∈ audit.ClusterAttributesChanged summary)
        by (apply Hin; eauto).
      rewrite Hsome in Hx. apply list_elem_of_fmap in Hx as (c & [= <-] & Hc'). done. }
  rewrite Hmatch. split.
  - intros [Hnot Hattr]. split; [|done]. intros Ht. apply Hd.
    destruct (audit.DefaultClusterChanged summary); [done|]. by destruct Hnot.
  - intros [Hdef Hattr]. split; [|done]. intros [Ht Hc].
    apply Hdef, Hd in Ht. congruence.
Qed.

(** The witness of X9: the snapshots of
    TestComputeChangeSummary_ClusterAttributeChange, their summary as it is
    persisted, and a filter on the attribute that changed. *)
Lemma filter_on_summary_of_snapshots_witness :
  ∃ b,
    reference.shouldIncludeEvent examples.attributeSummaryJSON
      (examples.filters None [("region", "us-east-1")]) = api.Returns b
    ∧ (b = true
       ↔ (types.DefaultActiveCluster (examples.filters None [("region", "us-east-1")])
          = Some true →
          is_Some (persistence.ReplicationConfig examples.attributesBefore)
          ∧ is_Some (persistence.ReplicationConfig examples.attributesAfter)
          ∧ spec.defaultClusterOf examples.attributesBefore
            ≠ spec.defaultClusterOf examples.attributesAfter)
         ∧ (types.Attributes (examples.filters None [("region", "us-east-1")]) = []
            ∨ ∃ req,
                Some req
                ∈ types.Attributes (examples.filters None [("region", "us-east-1")])
                ∧ relations.isChangedAttribute
                    examples.attributesBefore examples.attributesAfter
                    (types.Scope req) (types.Name req))).
Proof.
  apply (filter_on_summary_of_snapshots canonicalOrder json.UnmarshalChangeSummary
           examples.attributesBefore examples.attributesAfter
           {| audit.ChangedFields := ["ActiveClusters"];
              audit.DefaultClusterChanged := false;
              audit.ClusterAttributesChanged :=
                [Some {| audit.Scope := "region"; audit.Name := "us-east-1" |}] |}).
  - vm_compute. reflexivity.
  - vm_compute. reflexivity.
Defined.

(** ** The list path *)

Section ListPathFacts.

Context (json_Unmarshal_summary : list Byte.byte → result error audit.ChangeSummary).

Lemma listEvents_returns
    (entries : list (option history.LoggedEntry))
    (filters : types.ListFailoverHistoryRequestFilters)
    (events result : list history.FailoverEvent) :
  history.listEvents json_Unmarshal_summary entries filters events = api.Returns result →
  ∃ rows,
    entries = Some <$> rows
    ∧ result
      = events
        ++ (history.eventOf
            <$> filter (λ row,
                  history.OperationType row = operations.DomainOperationTypeFailover
                  ∧ api.shouldIncludeEvent json_Unmarshal_summary
                      (persistence.Comment (history.Entry row)) filters
                    = api.Returns true) rows).
Proof.
  revert events. induction entries as [|[row|] entries IH]; intros events; simpl.
  - intros [= <-]. exists []. by rewrite app_nil_r.
  - destruct (decide (history.OperationType row ≠ _)) as [Hop|Hop].
    + intros (rows & -> & ->)%IH. exists (row :: rows). split; [done|].
      rewrite filter_cons_False; [done|]. by intros [? _].
    + apply dec_stable in Hop.
      destruct (api.shouldIncludeEvent _ _ _) as [[|]|] eqn:Hinc; [| |done].
      * intros (rows & -> & ->)%IH. exists (row :: rows). split; [done|].
        rewrite filter_cons_True by done. by rewrite <- app_assoc.
      * intros (rows & -> & ->)%IH. exists (row :: rows). split; [done|].
        rewrite filter_cons_False; [done|]. intros [_ H]. congruence.
  - done.
Qed.

Lemma listEvents_no_filter
    (rows : list history.LoggedEntry)
    (filters : types.ListFailoverHistoryRequestFilters)
    (events : list history.FailoverEvent) :
  types.DefaultActiveCluster filters ≠ Some true →
  types.Attributes filters = [] →
  history.listEvents json_Unmarshal_summary (Some <$> rows) filters events
  = api.Returns
      (events
       ++ (history.eventOf
           <$> filter (λ row, history.OperationType row
                              = operations.DomainOperationTypeFailover) rows)).
Proof.
  intros Hd Ha. revert events. induction rows as [|row rows IH]; intros events; simpl.
  - by rewrite app_nil_r.
  - destruct (decide (history.OperationType row ≠ _)) as [Hop|Hop].
    + rewrite IH. by rewrite filter_cons_False.
    + apply dec_stable in Hop. rewrite filter_cons_True by done.
      assert (Hinc : api.shouldIncludeEvent json_Unmarshal_summary
                       (persistence.Comment (history.Entry row)) filters
                     = api.Returns true).
      { unfold api.shouldIncludeEvent.
        destruct (json_Unmarshal_summary _); [|done].
        rewrite decide_False by (by intros [? _]). by rewrite Ha. }
      rewrite Hinc, IH. by rewrite <- app_assoc.
Qed.

Context (ReadDomainAuditLog :
  history.ReadDomainAuditLogRequest →
  result error (option history.ReadDomainAuditLogResponse)).

(** X10. [ListFailoverHistory] checks in this order: a handler that is
    shutting down answers [ErrShuttingDown]; filters that are nil, or have no
    domain id or an empty one, get the bad-request error. Otherwise the
    storage layer is read once, for that domain, with the cursor of the
    request and a positive page size: the requested one if it is positive,
    else 5. An error of the storage layer is returned as it is, and nothing
    else of the storage layer matters to the result. *)
Theorem list_failover_history_request (wh : api.WorkflowHandler)
    (request : history.ListFailoverHistoryRequest) :
  (api.isShuttingDown wh = true →
   history.ListFailoverHistory json_Unmarshal_summary ReadDomainAuditLog wh request
   = api.Returns (Err ErrShuttingDown))
  ∧ (api.isShuttingDown wh = false →
     (history.Filters request = None
      ∨ ∃ filters, history.Filters request = Some filters
                   ∧ (types.DomainID filters = None ∨ types.DomainID filters = Some "")) →
     history.ListFailoverHistory json_Unmarshal_summary ReadDomainAuditLog wh request
     = api.Returns (Err (BadRequestError "domain_id is required in filters")))
  ∧ (∀ filters domainID,
       api.isShuttingDown wh = false →
       history.Filters request = Some filters →
       types.DomainID filters = Some domainID → domainID ≠ "" →
       ∃ read,
         history.ReadDomainID read = domainID
         ∧ (0 < history.ReadPageSize read)%Z
         ∧ (∀ pagination size,
              history.Pagination request = Some pagination →
              history.PageSize pagination = Some size → (0 < size)%Z →
              history.ReadPageSize read = size)
         ∧ (history.Pagination request = None
            ∨ (∃ pagination, history.Pagination request = Some pagination
                 ∧ (history.PageSize pagination = None
                    ∨ ∃ size, history.PageSize pagination = Some size ∧ (size ≤ 0)%Z)) →
            history.ReadPageSize read = 5%Z)
         ∧ (∀ pagination,
              history.Pagination request = Some pagination →
              history.ReadNextPageToken read = history.NextPageToken pagination)
         ∧ (∀ err,
              ReadDomainAuditLog read = Err err →
              history.ListFailoverHistory json_Unmarshal_summary ReadDomainAuditLog
                wh request
              = api.Returns (Err err))
         ∧ (∀ ReadDomainAuditLog',
              ReadDomainAuditLog' read = ReadDomainAuditLog read →
              history.ListFailoverHistory json_Unmarshal_summary ReadDomainAuditLog'
                wh request
              = history.ListFailoverHistory json_Unmarshal_summary ReadDomainAuditLog
                  wh request)).
Proof.
  unfold history.ListFailoverHistory. split; [by intros ->|]. split.
  - intros -> [->|(filters & -> & [->| ->])]; done.
  - intros filters domainID -> -> -> Hne. rewrite decide_False by done.
    match goal with |- context [ReadDomainAuditLog ?q] => exists q end.
    split; [done|]. split; [|split; [|split; [|split; [|split]]]].
    + simpl. destruct (history.Pagination request) as [[[size|] token]|]; simpl; try lia.
      destruct (decide _); lia.
    + intros pagination size -> -> Hpos. simpl. by rewrite decide_True.
    + intros [->|(pagination & -> & [->|(size & -> & Hle)])]; simpl; try done.
      rewrite decide_False; [done | lia].
    + by intros pagination ->.
    + by intros err ->.
    + intros read' Heq. cbv zeta. rewrite Heq. by destruct (decide (domainID = "")).
Qed.

(** X11. When [ListFailoverHistory] returns a response, the storage layer
    returned a response without nil entry; the cursor of the response is the
    storage layer's; and the events are, in the order of storage, the headers
    (event id, creation time cut to milliseconds, type force) of exactly the
    entries whose operation is a failover and which the filter includes. The
    handler drops entries and never cuts the page: it returns at most as many
    events as the storage layer returned entries. *)
Theorem list_failover_history_events (wh : api.WorkflowHandler)
    (request : history.ListFailoverHistoryRequest)
    (response : history.ListFailoverHistoryResponse) :
  history.ListFailoverHistory json_Unmarshal_summary ReadDomainAuditLog wh request
  = api.Returns (Ok response) →
  ∃ filters read readResp rows,
    history.Filters request = Some filters
    ∧ ReadDomainAuditLog read = Ok (Some readResp)
    ∧ history.Entries readResp = Some <$> rows
    ∧ history.ResponseNextPageToken response = history.StoredNextPageToken readResp
    ∧ history.FailoverEvents response
      = history.eventOf
        <$> filter (λ row,
              history.OperationType row = operations.DomainOperationTypeFailover
              ∧ api.shouldIncludeEvent json_Unmarshal_summary
                  (persistence.Comment (history.Entry row)) filters
                = api.Returns true) rows
    ∧ (List.length (history.FailoverEvents response)
       ≤ List.length (history.Entries readResp))%nat.
Proof.
  unfold history.ListFailoverHistory.
  destruct (api.isShuttingDown wh); [done|].
  destruct (history.Filters request) as [filters|]; [|done].
  destruct (types.DomainID filters) as [domainID|]; [|done].
  destruct (decide _); [done|].
  match goal with |- context [ReadDomainAuditLog ?q] => set (read := q) end.
  destruct (ReadDomainAuditLog read) as [[readResp|]|err] eqn:Hread; [| done | done].
  destruct (history.listEvents _ _ _ _) as [events|] eqn:Hev; [|done].
  intros [= <-]. apply listEvents_returns in Hev as (rows & Hrows & ->).
  exists filters, read, readResp, rows. simpl. repeat split; try done.
  rewrite Hrows, !length_fmap. apply length_filter.
Qed.

(** X12. Without a default-only filter and without attribute filters, every
    failover entry is listed, whatever its comment holds, and the filter
    cannot panic. *)
Theorem list_failover_history_unfiltered (wh : api.WorkflowHandler)
    (request : history.ListFailoverHistoryRequest)
    (filters : types.ListFailoverHistoryRequestFilters) (domainID : string)
    (rows : list history.LoggedEntry) (token : list Byte.byte) :
  api.isShuttingDown wh = false →
  history.Filters request = Some filters →
  types.DomainID filters = Some domainID → domainID ≠ "" →
  types.DefaultActiveCluster filters ≠ Some true →
  types.Attributes filters = [] →
  history.ListFailoverHistory json_Unmarshal_summary
    (λ _, Ok (Some {| history.Entries := Some <$> rows;
                      history.StoredNextPageToken := token |}))
    wh request
  = api.Returns
      (Ok {| history.FailoverEvents :=
               history.eventOf
               <$> filter (λ row, history.OperationType row
                                  = operations.DomainOperationTypeFailover) rows;
             history.ResponseNextPageToken := token |}).
Proof.
  intros Hup Hf Hd Hne Hdefault Hattrs. unfold history.ListFailoverHistory.
  rewrite Hup, Hf, Hd, decide_False by done. simpl.
  by rewrite listEvents_no_filter.
Qed.

(** X13. An audit entry stamped with the operation type that
    [DetermineOperationType] gives for an update request is a failover
    exactly when the request sets [ActiveClusterName] or [ActiveClusters], and
    an update otherwise; the list path skips the entry of a request that sets
    neither, whatever the filters. *)
Theorem update_entries_are_not_listed (request : operations.UpdateDomainRequest)
    (entry : persistence.DomainAuditLogEntry) (createdTime : Z)
    (entries : list (option history.LoggedEntry))
    (filters : types.ListFailoverHistoryRequestFilters)
    (events : list history.FailoverEvent) :
  (operations.DetermineOperationType request = operations.DomainOperationTypeFailover
   ↔ is_Some (operations.ActiveClusterName request)
     ∨ is_Some (operations.ActiveClusters request))
  ∧ (operations.DetermineOperationType request = operations.DomainOperationTypeUpdate
     ↔ operations.ActiveClusterName request = None
       ∧ operations.ActiveClusters request = None)
  ∧ (operations.ActiveClusterName request = None →
     operations.ActiveClusters request = None →
     history.listEvents json_Unmarshal_summary
       (Some {| history.Entry := entry;
                history.OperationType := operations.DetermineOperationType request;
                history.CreatedTime := createdTime |} :: entries) filters events
     = history.listEvents json_Unmarshal_summary entries filters events).
Proof.
  unfold operations.DetermineOperationType.
  destruct (operations.ActiveClusterName request) as [name|],
           (operations.ActiveClusters request) as [clusters|]; simpl.
  - repeat split; try done; eauto. by intros [? _].
  - repeat split; try done; eauto. by intros [? _].
  - repeat split; try done; eauto. by intros [_ ?].
  - repeat split; try done. by intros [[? ?]|[? ?]].
Qed.

End ListPathFacts.

(** The witness of X11: the attribute filter of the example log keeps the one
    entry whose summary names the attribute, and the entry whose comment is no
    summary. *)
Lemma list_failover_history_events_witness :
  ∃ filters read readResp rows,
    history.Filters
      (historyExamples.listRequest (examples.filters None [("region", "us-east-1")]))
    = Some filters
    ∧ historyExamples.storage read = Ok (Some readResp)
    ∧ history.Entries readResp = Some <$> rows
    ∧ history.ResponseNextPageToken
        {| history.FailoverEvents :=
             [ {| history.ID := Some "event-1";
                  history.EventCreatedTime := Some 1700000000123%Z;
                  history.EventFailoverType := Some history.FailoverTypeForce |};
               {| history.ID := Some "event-4";
                  history.EventCreatedTime := Some 1700000003000%Z;
                  history.EventFailoverType := Some history.FailoverTypeForce |} ];
           history.ResponseNextPageToken := examples.bytes "next" |}
      = history.StoredNextPageToken readResp
    ∧ history.FailoverEvents
        {| history.FailoverEvents :=
             [ {| history.ID := Some "event-1";
                  history.EventCreatedTime := Some 1700000000123%Z;
                  history.EventFailoverType := Some history.FailoverTypeForce |};
               {| history.ID := Some "event-4";
                  history.EventCreatedTime := Some 1700000003000%Z;
                  history.EventFailoverType := Some history.FailoverTypeForce |} ];
           history.ResponseNextPageToken := examples.bytes "next" |}
      = history.eventOf
        <$> filter (λ row,
              history.OperationType row = operations.DomainOperationTypeFailover
              ∧ api.shouldIncludeEvent json.UnmarshalChangeSummary
                  (persistence.Comment (history.Entry row)) filters
                = api.Returns true) rows
    ∧ (List.length
         (history.FailoverEvents
            {| history.FailoverEvents :=
                 [ {| history.ID := Some "event-1";
                      history.EventCreatedTime := Some 1700000000123%Z;
                      history.EventFailoverType := Some history.FailoverTypeForce |};
                   {| history.ID := Some "event-4";
                      history.EventCreatedTime := Some 1700000003000%Z;
                      history.EventFailoverType := Some history.FailoverTypeForce |} ];
               history.ResponseNextPageToken := examples.bytes "next" |})
       ≤ List.length (history.Entries readResp))%nat.
Proof.
  apply (list_failover_history_events json.UnmarshalChangeSummary
           historyExamples.storage historyExamples.handler
           (historyExamples.listRequest (examples.filters None [("region", "us-east-1")]))).
  vm_compute. reflexivity.
Defined.

(** The witness of X12: without filters the example log lists its three
    failovers. *)
Lemma list_failover_history_unfiltered_witness :
  history.ListFailoverHistory json.UnmarshalChangeSummary
    (λ _, Ok (Some {| history.Entries := Some <$> historyExamples.log;
                      history.StoredNextPageToken := [] |}))
    historyExamples.handler (historyExamples.listRequest (examples.filters None []))
  = api.Returns
      (Ok {| history.FailoverEvents :=
               history.eventOf
               <$> filter (λ row, history.OperationType row
                                  = operations.DomainOperationTypeFailover)
                     historyExamples.log;
             history.ResponseNextPageToken := [] |}).
Proof.
  apply (list_failover_history_unfiltered json.UnmarshalChangeSummary
           historyExamples.handler
           (historyExamples.listRequest (examples.filters None []))
           (examples.filters None []) "domain-id" historyExamples.log []);
    try reflexivity; intros [=].
Defined.

Example list_default_only :
  historyExamples.ListFailoverHistory historyExamples.handler
    (historyExamples.listRequest (examples.filters (Some true) []))
  = api.Returns
      (Ok {| history.FailoverEvents :=
               [ {| history.ID := Some "event-3";
                    history.EventCreatedTime := Some 1700000002000%Z;
                    history.EventFailoverType := Some history.FailoverTypeForce |};
                 {| history.ID := Some "event-4";
                    history.EventCreatedTime := Some 1700000003000%Z;
                    history.EventFailoverType := Some history.FailoverTypeForce |} ];
             history.ResponseNextPageToken := examples.bytes "next" |}).
Proof. vm_compute. reflexivity. Qed.

(** ** The codec, once more *)

Section CodecMore.

Context (json_Marshal : persistence.GetDomainResponse → result error (list Byte.byte)).
Context (json_Unmarshal : list Byte.byte → result error persistence.GetDomainResponse).
Context (snappy_Encode : list Byte.byte → list Byte.byte).
Context (snappy_Decode : list Byte.byte → result error (list Byte.byte)).

Lemma serialized_decodes (s : persistence.GetDomainResponse)
    (compressed : list Byte.byte) :
  contracts.faithful json_Marshal json_Unmarshal snappy_Encode snappy_Decode s →
  audit.SerializeAndCompress json_Marshal snappy_Encode s = Ok compressed →
  audit.DecompressAndDeserialize json_Unmarshal snappy_Decode compressed = Ok s.
Proof.
  intros (jsonBytes & Hm & Hu & Hs). unfold audit.SerializeAndCompress.
  rewrite Hm. intros [= <-]. apply DecompressAndDeserialize_Ok. eauto.
Qed.

End CodecMore.


(** ** The get path, once more *)

Lemma wrap_int64_small (z : Z) :
  (- 2 ^ 63 ≤ z < 2 ^ 63)%Z → api.wrap_int64 z = z.
Proof.
  intros Hz. unfold api.wrap_int64. rewrite Z.mod_small; lia.
Qed.

Lemma milliseconds_back_to_nanoseconds (ns : Z) :
  (- 2 ^ 63 ≤ ns < 2 ^ 63)%Z →
  api.wrap_int64 (ns ÷ 1000000 * 1000000) = (ns - Z.rem ns 1000000)%Z.
Proof.
  intros Hns.
  assert (Heq : (ns ÷ 1000000 * 1000000 = ns - Z.rem ns 1000000)%Z).
  { pose proof (Z.quot_rem' ns 1000000). lia. }
  rewrite Heq. apply wrap_int64_small.
  destruct (Z.le_gt_cases 0 ns) as [Hpos|Hneg].
  - pose proof (Z.rem_bound_pos ns 1000000 Hpos ltac:(lia)). lia.
  - pose proof (Z.rem_bound_pos_neg ns 1000000 ltac:(lia) ltac:(lia)). lia.
Qed.


Section GetPathMore.

Context (ro : RangeOrder).
Context (json_Unmarshal : list Byte.byte → result error persistence.GetDomainResponse).
Context (snappy_Decode : list Byte.byte → result error (list Byte.byte)).

Lemma GetFailoverEvent_local (wh wh' : api.WorkflowHandler)
    (request : api.GetFailoverEventRequest)
    (domainID failoverEventID : string) (createdTime : Z) :
  api.isShuttingDown wh' = api.isShuttingDown wh →
  api.DomainID request = Some domainID →
  api.FailoverEventID request = Some failoverEventID →
  api.CreatedTime request = Some createdTime →
  api.GetDomainAuditLogEntry wh'
    {| api.RequestDomainID := domainID;
       api.RequestEventID := failoverEventID;
       api.RequestCreatedTime := api.wrap_int64 (createdTime * 1000000) |}
  = api.GetDomainAuditLogEntry wh
      {| api.RequestDomainID := domainID;
         api.RequestEventID := failoverEventID;
         api.RequestCreatedTime := api.wrap_int64 (createdTime * 1000000) |} →
  api.GetFailoverEvent ro json_Unmarshal snappy_Decode wh' request
  = api.GetFailoverEvent ro json_Unmarshal snappy_Decode wh request.
Proof.
  intros Hup Hd Hf Hc Hread. unfold api.GetFailoverEvent.
  rewrite Hup, Hd, Hf, Hc. cbv zeta. by rewrite Hread.
Qed.

Lemma GetFailoverEvent_storage_error (wh : api.WorkflowHandler)
    (request : api.GetFailoverEventRequest)
    (domainID failoverEventID : string) (createdTime : Z) (err : error) :
  api.isShuttingDown wh = false →
  api.DomainID request = Some domainID → domainID ≠ "" →
  api.FailoverEventID request = Some failoverEventID → failoverEventID ≠ "" →
  api.CreatedTime request = Some createdTime →
  api.GetDomainAuditLogEntry wh
    {| api.RequestDomainID := domainID;
       api.RequestEventID := failoverEventID;
       api.RequestCreatedTime := api.wrap_int64 (createdTime * 1000000) |}
  = Err err →
  api.GetFailoverEvent ro json_Unmarshal snappy_Decode wh request = Err err.
Proof.
  intros Hup Hd Hdne Hf Hfne Hc Hread. unfold api.GetFailoverEvent.
  rewrite Hup, Hd, Hf, Hc, decide_False by (intros [?|?]; done).
  cbv zeta. by rewrite Hread.
Qed.

(** X14. [GetFailoverEvent] checks in this order: a handler that is shutting
    down answers [ErrShuttingDown]; a request without domain id, event id or
    created time, or with an empty id, gets the bad-request error, whatever
    the storage layer holds. Otherwise the storage layer is asked for one
    entry, the one of that domain and event at the created time taken as
    milliseconds (times 1000000, in 64 bits); its error is returned as it is,
    and nothing else of the storage layer matters to the result. *)
Theorem get_failover_event_request (wh : api.WorkflowHandler)
    (request : api.GetFailoverEventRequest) :
  (api.isShuttingDown wh = true →
   api.GetFailoverEvent ro json_Unmarshal snappy_Decode wh request = Err ErrShuttingDown)
  ∧ (api.isShuttingDown wh = false →
     api.DomainID request = None ∨ api.DomainID request = Some ""
     ∨ api.FailoverEventID request = None ∨ api.FailoverEventID request = Some ""
     ∨ api.CreatedTime request = None →
     api.GetFailoverEvent ro json_Unmarshal snappy_Decode wh request
     = Err (BadRequestError "domain_id, failover_event_id, and created_time are required"))
  ∧ (∀ domainID failoverEventID createdTime,
       api.isShuttingDown wh = false →
       api.DomainID request = Some domainID → domainID ≠ "" →
       api.FailoverEventID request = Some failoverEventID → failoverEventID ≠ "" →
       api.CreatedTime request = Some createdTime →
       let read :=
         {| api.RequestDomainID := domainID;
            api.RequestEventID := failoverEventID;
            api.RequestCreatedTime := api.wrap_int64 (createdTime * 1000000) |} in
       ((- 2 ^ 63 ≤ createdTime * 1000000 < 2 ^ 63)%Z →
        api.RequestCreatedTime read = (createdTime * 1000000)%Z)
       ∧ (∀ err,
            api.GetDomainAuditLogEntry wh read = Err err →
            api.GetFailoverEvent ro json_Unmarshal snappy_Decode wh request = Err err)
       ∧ (∀ wh',
            api.isShuttingDown wh' = false →
            api.GetDomainAuditLogEntry wh' read = api.GetDomainAuditLogEntry wh read →
            api.GetFailoverEvent ro json_Unmarshal snappy_Decode wh' request
            = api.GetFailoverEvent ro json_Unmarshal snappy_Decode wh request)).
Proof.
  split; [|split].
  - unfold api.GetFailoverEvent. by intros ->.
  - unfold api.GetFailoverEvent. intros -> H.
    destruct (api.DomainID request) as [domainID|],
             (api.FailoverEventID request) as [failoverEventID|],
             (api.CreatedTime request) as [createdTime|]; try done.
    rewrite decide_True; [done|].
    destruct H as [?|[[= ->]|[?|[[= ->]|?]]]]; try done; [by left | by right].
  - intros domainID failoverEventID createdTime Hup Hd Hdne Hf Hfne Hc read.
    split; [|split].
    + apply wrap_int64_small.
    + intros err Herr. by eapply GetFailoverEvent_storage_error.
    + intros wh' Hup' Hread. eapply GetFailoverEvent_local; try done. congruence.
Qed.


Context (json_Marshal : persistence.GetDomainResponse → result error (list Byte.byte)).
Context (snappy_Encode : list Byte.byte → list Byte.byte).

(** X16. What is written is what is read: when the entry that the storage
    layer returns holds the payloads that [SerializeAndCompress] made of two
    snapshots, and the libraries carry both snapshots without loss,
    [GetFailoverEvent] returns, each once, exactly the transitions between
    the two snapshots: the default-cluster record if the default names
    differ, and the record of every attribute of either side whose resolved
    owner names differ. For twice the same snapshot the response is empty. *)
Theorem get_failover_event_of_serialized (wh : api.WorkflowHandler)
    (request : api.GetFailoverEventRequest)
    (domainID failoverEventID : string) (createdTime : Z)
    (before after : persistence.GetDomainResponse)
    (entry : persistence.DomainAuditLogEntry) :
  contracts.faithful json_Marshal json_Unmarshal snappy_Encode snappy_Decode before →
  contracts.faithful json_Marshal json_Unmarshal snappy_Encode snappy_Decode after →
  audit.SerializeAndCompress json_Marshal snappy_Encode before
  = Ok (persistence.StateBefore entry) →
  audit.SerializeAndCompress json_Marshal snappy_Encode after
  = Ok (persistence.StateAfter entry) →
  api.isShuttingDown wh = false →
  api.DomainID request = Some domainID → domainID ≠ "" →
  api.FailoverEventID request = Some failoverEventID → failoverEventID ≠ "" →
  api.CreatedTime request = Some createdTime →
  api.GetDomainAuditLogEntry wh
    {| api.RequestDomainID := domainID;
       api.RequestEventID := failoverEventID;
       api.RequestCreatedTime := api.wrap_int64 (createdTime * 1000000) |}
  = Ok (Some {| persistence.Entry := Some entry |}) →
  ∃ failovers,
    api.GetFailoverEvent ro json_Unmarshal snappy_Decode wh request
    = Ok {| api.ClusterFailovers := failovers |}
    ∧ NoDup failovers
    ∧ (∀ r, r ∈ failovers ↔ relations.isTransition before after r)
    ∧ (before = after → failovers = []).
Proof.
  intros Hfb Hfa Hsb Hsa Hup Hd Hdne Hf Hfne Hc Hread.
  apply (serialized_decodes json_Marshal json_Unmarshal snappy_Encode snappy_Decode _ _ Hfb) in Hsb.
  apply (serialized_decodes json_Marshal json_Unmarshal snappy_Encode snappy_Decode _ _ Hfa) in Hsa.
  destruct (ComputeClusterFailovers_spec ro before after) as (failovers & Hok & Hnd & Hin).
  exists failovers. split; [|split; [done|split; [done|]]].
  - unfold api.GetFailoverEvent.
    rewrite Hup, Hd, Hf, Hc, decide_False by (intros [?|?]; done).
    cbv zeta. rewrite Hread. simpl. by rewrite Hsb, Hsa, Hok.
  - intros <-. apply no_elements_nil.
    by intros r [[Hne _]|(scope & name & _ & _ & Hne & _)]%Hin.
Qed.

End GetPathMore.

(** The witness of X16: the snapshots of
    TestComputeChangeSummary_ClusterAttributeChange, written and read back
    through the reference libraries. *)
Lemma get_failover_event_of_serialized_witness :
  ∃ failovers,
    reference.GetFailoverEvent
      (examples.handlerWith (examples.payload examples.attributesBefore)
                            (examples.payload examples.attributesAfter))
      examples.request
    = Ok {| api.ClusterFailovers := failovers |}
    ∧ NoDup failovers
    ∧ (∀ r, r ∈ failovers
            ↔ relations.isTransition examples.attributesBefore examples.attributesAfter r)
    ∧ (examples.attributesBefore = examples.attributesAfter → failovers = []).
Proof.
  apply (get_failover_event_of_serialized canonicalOrder json.Unmarshal snappy.Decode
           json.Marshal snappy.Encode
           (examples.handlerWith (examples.payload examples.attributesBefore)
                                 (examples.payload examples.attributesAfter))
           examples.request "domain-id" "event-id" 1700000000000%Z
           examples.attributesBefore examples.attributesAfter
           {| persistence.EventID := "event-id";
              persistence.StateBefore := examples.payload examples.attributesBefore;
              persistence.StateAfter := examples.payload examples.attributesAfter;
              persistence.Comment := "" |}).
  - eexists. split; [vm_compute; reflexivity|]. split; vm_compute; reflexivity.
  - eexists. split; [vm_compute; reflexivity|]. split; vm_compute; reflexivity.
  - vm_compute. reflexivity.
  - vm_compute. reflexivity.
  - reflexivity.
  - reflexivity.
  - intros [=].
  - reflexivity.
  - intros [=].
  - reflexivity.
  - reflexivity.
Defined.

(** ** From a listed event to its details *)

Section ListThenGet.

Context (ro : RangeOrder).
Context (json_Unmarshal : list Byte.byte → result error persistence.GetDomainResponse).
Context (snappy_Decode : list Byte.byte → result error (list Byte.byte)).

(** X17. Reading the details of a listed event, with the id and the created
    time of the event as the list path returned them, asks the storage layer
    for the entry of that domain and event id at the entry's creation time cut
    down to whole milliseconds, toward zero; the result depends on the storage
    layer through this one read, and a storage error comes back as it is. The
    time asked for is the entry's own exactly when the entry was created on a
    whole millisecond. *)
Theorem listed_event_details_read (wh : api.WorkflowHandler) (domainID : string)
    (row : history.LoggedEntry) :
  (- 2 ^ 63 ≤ history.CreatedTime row < 2 ^ 63)%Z →
  api.isShuttingDown wh = false →
  domainID ≠ "" →
  persistence.EventID (history.Entry row) ≠ "" →
  let read :=
    {| api.RequestDomainID := domainID;
       api.RequestEventID := persistence.EventID (history.Entry row);
       api.RequestCreatedTime :=
         (history.CreatedTime row - Z.rem (history.CreatedTime row) 1000000)%Z |} in
  let request := history.detailsRequest domainID (history.eventOf row) in
  (∀ err,
     api.GetDomainAuditLogEntry wh read = Err err →
     api.GetFailoverEvent ro json_Unmarshal snappy_Decode wh request = Err err)
  ∧ (∀ wh',
       api.isShuttingDown wh' = false →
       api.GetDomainAuditLogEntry wh' read = api.GetDomainAuditLogEntry wh read →
       api.GetFailoverEvent ro json_Unmarshal snappy_Decode wh' request
       = api.GetFailoverEvent ro json_Unmarshal snappy_Decode wh request)
  ∧ (api.RequestCreatedTime read = history.CreatedTime row
     ↔ Z.rem (history.CreatedTime row) 1000000 = 0%Z)
  ∧ (0 ≤ history.CreatedTime row →
     history.CreatedTime row - 1000000 < api.RequestCreatedTime read
     ≤ history.CreatedTime row)%Z
  ∧ (history.CreatedTime row ≤ 0 →
     history.CreatedTime row ≤ api.RequestCreatedTime read
     < history.CreatedTime row + 1000000)%Z.
Proof.
  intros Hns Hup Hdne Hene read request.
  assert (Hkey : read
                 = {| api.RequestDomainID := domainID;
                      api.RequestEventID := persistence.EventID (history.Entry row);
                      api.RequestCreatedTime :=
                        api.wrap_int64 (history.CreatedTime row ÷ 1000000 * 1000000) |}).
  { unfold read. by rewrite milliseconds_back_to_nanoseconds. }
  split; [|split; [|split; [|split]]].
  - intros err Herr. rewrite Hkey in Herr.
    by eapply GetFailoverEvent_storage_error.
  - intros wh' Hup' Hread. rewrite Hkey in Hread.
    eapply GetFailoverEvent_local; try done. congruence.
  - simpl. lia.
  - simpl. intros Hpos.
    pose proof (Z.rem_bound_pos (history.CreatedTime row) 1000000 Hpos ltac:(lia)). lia.
  - simpl. intros Hneg.
    pose proof (Z.rem_bound_pos_neg (history.CreatedTime row) 1000000
                  ltac:(lia) Hneg). lia.
Qed.

End ListThenGet.

(** The witness of X17: the first entry of the example log, created 123456789
    nanoseconds after a whole second. *)
Lemma listed_event_details_read_witness :
  let row := historyExamples.row "event-1" examples.attributeSummaryJSON
               operations.DomainOperationTypeFailover 1700000000123456789 in
  let read :=
    {| api.RequestDomainID := "domain-id";
       api.RequestEventID := "event-1";
       api.RequestCreatedTime := 1700000000123000000%Z |} in
  let request := history.detailsRequest "domain-id" (history.eventOf row) in
  api.RequestCreatedTime read ≠ history.CreatedTime row
  ∧ ∀ wh',
      api.isShuttingDown wh' = false →
      api.GetDomainAuditLogEntry wh' read
      = api.GetDomainAuditLogEntry historyExamples.handler read →
      reference.GetFailoverEvent wh' request
      = reference.GetFailoverEvent historyExamples.handler request.
Proof.
  intros row read request.
  assert (Hns : (- 2 ^ 63 ≤ history.CreatedTime row < 2 ^ 63)%Z) by (simpl; lia).
  assert (Hdomain : "domain-id" ≠ "") by (intros [=]).
  assert (Hevent : persistence.EventID (history.Entry row) ≠ "") by (intros [=]).
  pose proof (listed_event_details_read canonicalOrder json.Unmarshal snappy.Decode
                historyExamples.handler "domain-id" row Hns eq_refl Hdomain Hevent)
    as (_ & Hlocal & Hwhole & _).
  split.
  - intros Heq. apply Hwhole in Heq. revert Heq. vm_compute. intros [=].
  - exact Hlocal.
Defined.

(** ** When the differ is silent *)

(** X18. The differ returns no record exactly when nothing changed hands: the
    two snapshots have the same default cluster name (a missing configuration
    read as the empty name) and every attribute resolves to the same owner
    name on both sides (a missing attribute read as the empty name). Changes
    of failover versions alone, and of anything else in a snapshot, leave it
    silent. *)
Theorem differ_empty_iff (ro : RangeOrder) (before after : persistence.GetDomainResponse) :
  audit.ComputeClusterFailovers ro before after = Ok []
  ↔ spec.defaultClusterOf before = spec.defaultClusterOf after
    ∧ ∀ scope name,
        types.ActiveClusterName (spec.resolved (spec.activeClustersOf before) scope name)
        = types.ActiveClusterName (spec.resolved (spec.activeClustersOf after) scope name).
Proof.
  destruct (ComputeClusterFailovers_spec ro before after) as (failovers & Hok & _ & Hin).
  rewrite Hok. split.
  - intros [= ->]. split.
    + destruct (decide (spec.defaultClusterOf before = spec.defaultClusterOf after))
        as [|Hne]; [done|].
      exfalso. eapply elem_of_nil, Hin. by left.
    + intros scope name.
      destruct (decide
        (types.ActiveClusterName (spec.resolved (spec.activeClustersOf before) scope name)
         = types.ActiveClusterName (spec.resolved (spec.activeClustersOf after) scope name)))
        as [|Hne]; [done|].
      exfalso. eapply elem_of_nil, Hin. right. exists scope, name.
      assert (Hdom : (scope ∈ spec.scopeNames (spec.activeClustersOf before)
                      ∧ name ∈ spec.attributeNames (spec.activeClustersOf before) scope)
                     ∨ (scope ∈ spec.scopeNames (spec.activeClustersOf after)
                        ∧ name ∈ spec.attributeNames (spec.activeClustersOf after) scope)).
      { unfold spec.resolved in Hne.
        destruct (spec.attributeOf (spec.activeClustersOf before) scope name)
          as [bi|] eqn:Hb; [left; by eapply attributeOf_dom|].
        destruct (spec.attributeOf (spec.activeClustersOf after) scope name)
          as [ai|] eqn:Ha; [right; by eapply attributeOf_dom|].
        done. }
      rewrite !elem_of_union. destruct Hdom as [[? ?]|[? ?]]; by eauto 10.
  - intros [Hd Ha]. f_equal. apply no_elements_nil.
    intros r [[Hne _]|(scope & name & _ & _ & Hne & _)]%Hin; [done|].
    by apply Hne.
Qed.
